(** * bili-parser: a shallow embedding of [bili_parser/__main__.py] and
    [bili_parser/_main_win.py], with the properties of its specification.

    Python values are modelled as the interpreter has them: a [str] is a
    sequence of Unicode code points, [bytes] a sequence of octets, an [int]
    an unbounded integer, a [float] an IEEE-754 binary64 number.  Calls into
    [requests], [PIL], [base64] and the clipboard are external: their results
    are taken from an explicit world, and what the program prints and which
    HTTP requests it issues are recorded in an explicit state. *)

From Stdlib Require Import Strings.String Strings.Ascii Strings.Byte.
From Stdlib Require Import ZArith NArith List Bool Lia.
From Stdlib Require Import Floats.SpecFloat.
Import ListNotations.
Local Open Scope Z_scope.
Set Warnings "-register-all".

(* ================================================================== *)
(** * Part I. Definitions *)
(* ================================================================== *)

(** ** Python sequences: the operations shared by [str] and [bytes] *)

Module PySeq.
Section Seq.
Context {A : Type} (eqb : A -> A -> bool).

(** [s.startswith(p)]. *)
Fixpoint startswith (p s : list A) : bool :=
  match p, s with
  | [], _ => true
  | _ :: _, [] => false
  | a :: p', b :: s' => eqb a b && startswith p' s'
  end.

(** [s.endswith(p)]. *)
Definition endswith (p s : list A) : bool := startswith (rev p) (rev s).

(** Offset of the first occurrence of [p] in [s], if there is one. *)
Fixpoint find_opt (p s : list A) {struct s} : option nat :=
  if startswith p s then Some O
  else match s with
       | [] => None
       | _ :: s' => option_map S (find_opt p s')
       end.

(** [s.find(p)]: the lowest index of [p] in [s], [-1] when absent. *)
Definition find (p s : list A) : Z :=
  match find_opt p s with
  | Some i => Z.of_nat i
  | None => -1
  end.

(** [p in s]. *)
Definition contains (p s : list A) : bool :=
  match find_opt p s with
  | Some _ => true
  | None => false
  end.

(** [len(s)]. *)
Definition len (s : list A) : Z := Z.of_nat (length s).

(** [s[:i]] for an index [i] that [find] returned ([i >= 0]). *)
Definition slice_to (s : list A) (i : Z) : list A := firstn (Z.to_nat i) s.

(** [s[i:j]] for [0 <= i <= j]. *)
Definition slice (s : list A) (i j : Z) : list A :=
  firstn (Z.to_nat (j - i)) (skipn (Z.to_nat i) s).

(** [s[:-1]]. *)
Definition drop_last (s : list A) : list A := removelast s.

(** [s.replace(old, new)]: occurrences are replaced from the left and do
    not overlap.  [skip] counts the elements of a matched occurrence that
    are still to be dropped. *)
Fixpoint replace_from (old new : list A) (skip : nat) (s : list A) : list A :=
  match s with
  | [] => []
  | c :: s' =>
      match skip with
      | S k => replace_from old new k s'
      | O => if startswith old s
             then new ++ replace_from old new (pred (length old)) s'
             else c :: replace_from old new O s'
      end
  end.

Definition replace (old new s : list A) : list A :=
  match old with
  | [] => new ++ flat_map (fun c => c :: new) s
  | _ :: _ => replace_from old new O s
  end.

Fixpoint drop_while (f : A -> bool) (s : list A) : list A :=
  match s with
  | [] => []
  | c :: s' => if f c then drop_while f s' else s
  end.

Fixpoint take_while (f : A -> bool) (s : list A) : list A :=
  match s with
  | [] => []
  | c :: s' => if f c then c :: take_while f s' else []
  end.

(** The first element of [p] occurs nowhere else in [p]. *)
Definition first_unique (p : list A) : bool :=
  match p with
  | [] => false
  | c :: p' => forallb (fun x => negb (eqb c x)) p'
  end.

End Seq.
End PySeq.

(** ** Python [str] *)

Module PyStr.

(** A [str] is a sequence of code points; CPython admits every value up
    to [0x10FFFF], lone surrogates included. *)
Definition pystr := list N.

(** String literals are written as in the Python sources and decoded from
    the UTF-8 bytes of the literal. *)
Fixpoint utf8_decode (bs : list N) : pystr :=
  match bs with
  | [] => []
  | b0 :: r0 =>
      if (b0 <? 128)%N then b0 :: utf8_decode r0
      else if (b0 <? 224)%N then
        match r0 with
        | b1 :: r1 =>
            N.lor (N.shiftl (N.land b0 31) 6) (N.land b1 63) :: utf8_decode r1
        | _ => []
        end
      else if (b0 <? 240)%N then
        match r0 with
        | b1 :: b2 :: r2 =>
            N.lor (N.shiftl (N.land b0 15) 12)
              (N.lor (N.shiftl (N.land b1 63) 6) (N.land b2 63))
            :: utf8_decode r2
        | _ => []
        end
      else
        match r0 with
        | b1 :: b2 :: b3 :: r3 =>
            N.lor (N.shiftl (N.land b0 7) 18)
              (N.lor (N.shiftl (N.land b1 63) 12)
                 (N.lor (N.shiftl (N.land b2 63) 6) (N.land b3 63)))
            :: utf8_decode r3
        | _ => []
        end
  end.

Definition lit (s : string) : pystr :=
  utf8_decode (map Byte.to_N (list_byte_of_string s)).

(** Characters that a Rocq literal cannot show unambiguously. *)
Definition NL : pystr := [10%N].          (* the newline character U+000A *)
Definition BACKSLASH : pystr := [92%N].   (* a backslash *)
Definition DQUOTE : pystr := [34%N].      (* a double quote *)

Definition startswith : pystr -> pystr -> bool := PySeq.startswith N.eqb.
Definition endswith : pystr -> pystr -> bool := PySeq.endswith N.eqb.
Definition contains : pystr -> pystr -> bool := PySeq.contains N.eqb.
Definition find : pystr -> pystr -> Z := PySeq.find N.eqb.
Definition replace : pystr -> pystr -> pystr -> pystr := PySeq.replace N.eqb.
Definition len : pystr -> Z := PySeq.len.

Definition str_eqb (a b : pystr) : bool :=
  (length a =? length b)%nat && startswith a b.

(** [c.isspace()], the characters [str.strip()] removes. *)
Definition isspace (c : N) : bool :=
  ((9 <=? c) && (c <=? 13) || (28 <=? c) && (c <=? 32)
   || (c =? 133) || (c =? 160) || (c =? 5760)
   || (8192 <=? c) && (c <=? 8202)
   || (c =? 8232) || (c =? 8233) || (c =? 8239) || (c =? 8287)
   || (c =? 12288))%N.

Definition lstrip (s : pystr) : pystr := PySeq.drop_while isspace s.
Definition rstrip (s : pystr) : pystr := rev (PySeq.drop_while isspace (rev s)).
(** [s.strip()]. *)
Definition strip (s : pystr) : pystr := rstrip (lstrip s).

(** The character class [[a-zA-Z0-9]]. *)
Definition is_alnum (c : N) : bool :=
  ((48 <=? c) && (c <=? 57) || (65 <=? c) && (c <=? 90)
   || (97 <=? c) && (c <=? 122))%N.

(** [re.match] with the pattern [^[a-zA-Z0-9]+$], as a truth value: [$] matches at the
    end of the string and also just before a final newline. *)
Definition re_match_alnum (s : pystr) : bool :=
  let body := if endswith NL s then PySeq.drop_last s else s in
  negb (Nat.eqb (length body) 0) && forallb is_alnum body.

(** [re.search] with the pattern [BV([a-zA-Z0-9]+)], returning [group(0)]: the
    leftmost position where [BV] is followed by an alphanumeric character,
    with the longest alphanumeric run. *)
Fixpoint re_search_bv (s : pystr) : option pystr :=
  match s with
  | [] => None
  | _ :: s' =>
      if startswith (lit "BV") s && negb (Nat.eqb (length (PySeq.take_while is_alnum (skipn 2 s))) 0)
      then Some (lit "BV" ++ PySeq.take_while is_alnum (skipn 2 s))
      else re_search_bv s'
  end.

(** *** Decimal text of integers *)

Definition digit_char (d : Z) : N := Z.to_N (48 + d).

Fixpoint digits_from (fuel : nat) (n : Z) (acc : pystr) : pystr :=
  match fuel with
  | O => acc
  | S fuel' =>
      let acc' := digit_char (n mod 10) :: acc in
      if n <? 10 then acc' else digits_from fuel' (n / 10) acc'
  end.

(** [str(n)] for [n >= 0]; a number has at most [log2 n + 1] digits. *)
Definition str_nonneg (n : Z) : pystr :=
  digits_from (S (Z.to_nat (Z.log2 n))) n [].

(** [str(n)] for an [int]. *)
Definition str_int (n : Z) : pystr :=
  if n <? 0 then lit "-" ++ str_nonneg (- n) else str_nonneg n.

Definition zfill (width : nat) (s : pystr) : pystr :=
  repeat 48%N (width - length s) ++ s.

(** [f"{n:010d}"]: at least ten characters, zero padded after the sign. *)
Definition format_010d (n : Z) : pystr :=
  if n <? 0 then lit "-" ++ zfill 9 (str_nonneg (- n))
  else zfill 10 (str_nonneg n).

(** The number a string of decimal digits denotes (used to state what
    [str] returns). *)
Definition decimal_step (acc : Z) (c : N) : Z := 10 * acc + (Z.of_N c - 48).

Definition decimal_value (s : pystr) : Z := fold_left decimal_step s 0.

Definition is_digit (c : N) : bool := ((48 <=? c) && (c <=? 57))%N.

(** [s] is the decimal numeral of [n >= 0]: digits only, of value [n],
    without a superfluous leading zero. *)
Definition decimal_of (n : Z) (s : pystr) : Prop :=
  s <> [] /\ Forall (fun c => is_digit c = true) s /\ decimal_value s = n
  /\ (hd 48%N s = 48%N -> s = [48%N]).

(** *** [str.encode('utf-8')] *)

Definition bytes := list byte.

Definition octet (n : N) : byte :=
  match Byte.of_N n with
  | Some b => b
  | None => x00
  end.

(** One code point; [None] is [UnicodeEncodeError] (a surrogate). *)
Definition encode_char (c : N) : option bytes :=
  if (c <? 128)%N then Some [octet c]
  else if (c <? 2048)%N then
    Some [octet (N.lor 192 (N.shiftr c 6)); octet (N.lor 128 (N.land c 63))]
  else if (c <? 65536)%N then
    if ((55296 <=? c) && (c <=? 57343))%N then None
    else Some [octet (N.lor 224 (N.shiftr c 12));
               octet (N.lor 128 (N.land (N.shiftr c 6) 63));
               octet (N.lor 128 (N.land c 63))]
  else if (c <? 1114112)%N then
    Some [octet (N.lor 240 (N.shiftr c 18));
          octet (N.lor 128 (N.land (N.shiftr c 12) 63));
          octet (N.lor 128 (N.land (N.shiftr c 6) 63));
          octet (N.lor 128 (N.land c 63))]
  else None.

Fixpoint encode_utf8 (s : pystr) : option bytes :=
  match s with
  | [] => Some []
  | c :: s' =>
      match encode_char c, encode_utf8 s' with
      | Some b, Some bs => Some (b ++ bs)
      | _, _ => None
      end
  end.

(** A byte of a multi-byte sequence: its top bit is set. *)
Definition high (b : byte) : bool := (128 <=? Byte.to_N b)%N.

(** A bytes literal of ASCII characters. *)
Definition blit (s : string) : bytes := list_byte_of_string s.

Definition bfind : bytes -> bytes -> Z := PySeq.find Byte.eqb.

End PyStr.
Import PyStr.

(** ** Python [float]: IEEE-754 binary64, round to nearest, ties to even *)

Module PyFloat.

(** A finite, non-negative binary64 number, [fnum * 2^fexp], or the
    infinity an overflowing float operation produces. *)
Inductive float :=
| Finite (fnum fexp : Z)
| Inf.

(** [a / b] rounded to the nearest integer, ties to the even one
    ([0 <= a], [0 < b]). *)
Definition round_half_even (a b : Z) : Z :=
  let q := a / b in
  let r := a mod b in
  if 2 * r <? b then q
  else if b <? 2 * r then q + 1
  else if Z.even q then q else q + 1.

(** The integer [l] with [2^l <= a / b < 2^(l+1)] ([0 < a], [0 < b]). *)
Definition floor_log2_ratio (a b : Z) : Z :=
  let l := Z.log2 a - Z.log2 b in
  if (if 0 <=? l then a <? b * 2 ^ l else a * 2 ^ (- l) <? b) then l - 1 else l.

(** The binary64 number nearest to the rational [a / b]: a 53-bit
    significand at the exponent of the quotient's leading bit (not below
    the subnormal exponent -1074); [Inf] from [2^1024] on. *)
Definition round_ratio (a b : Z) : float :=
  if a =? 0 then Finite 0 0
  else
    let e := Z.max (floor_log2_ratio a b - 52) (-1074) in
    let m := if 0 <=? e then round_half_even a (b * 2 ^ e)
             else round_half_even (a * 2 ^ (- e)) b in
    if 2 ^ (1024 - e) <=? m then Inf else Finite m e.

(** A float literal [num/den] written in decimal, such as [0.8]. *)
Definition literal (num den : Z) : float := round_ratio num den.

(** [n / d] on two [int]s ([0 <= n], [0 < d]): the correctly rounded
    quotient; [None] is [OverflowError]. *)
Definition true_div (n d : Z) : option float :=
  match round_ratio n d with
  | Inf => None
  | x => Some x
  end.

(** [float(n)] for an [int] [0 <= n]; [None] is [OverflowError]. *)
Definition of_int (n : Z) : option float := true_div n 1.

(** [x * y] on floats. *)
Definition fmul (x y : float) : float :=
  match x, y with
  | Finite mx ex, Finite my ey =>
      let m := mx * my in
      let e := ex + ey in
      if 0 <=? e then round_ratio (m * 2 ^ e) 1 else round_ratio m (2 ^ (- e))
  | _, _ => Inf
  end.

(** [n * y] for an [int] [n] and a float [y]: [n] is converted first. *)
Definition int_mul (n : Z) (y : float) : option float :=
  match of_int n with
  | Some x => Some (fmul x y)
  | None => None
  end.

(** [x >= k] for a float [x] and an [int] [k]; the comparison is exact. *)
Definition ge_int (x : float) (k : Z) : bool :=
  match x with
  | Finite m e => if 0 <=? e then k <=? m * 2 ^ e else k * 2 ^ (- e) <=? m
  | Inf => true
  end.

(** [int(x)]: truncation; [None] is [OverflowError] on infinity. *)
Definition to_int (x : float) : option Z :=
  match x with
  | Finite m e => Some (if 0 <=? e then m * 2 ^ e else m / 2 ^ (- e))
  | Inf => None
  end.

(** [k * x] rounded to the nearest integer, ties to even, for
    [x = m * 2^e]: with [k = 10^d] the number of units of the [d]-th
    decimal that the correctly rounded conversion of [x] shows. *)
Definition scaled (k m e : Z) : Z :=
  if 0 <=? e then k * m * 2 ^ e else round_half_even (k * m) (2 ^ (- e)).

(** The text of [q] units of the [d]-th decimal ([0 < d]): integer part,
    point, [d] decimals. *)
Definition fixed_text (d : nat) (q : Z) : pystr :=
  str_nonneg (q / 10 ^ Z.of_nat d) ++ lit "."
  ++ zfill d (str_nonneg (q mod 10 ^ Z.of_nat d)).

(** The formats [.1f] ([d = 1]) and [.2f] ([d = 2]) applied to [x]. *)
Definition format_f (d : nat) (x : float) : pystr :=
  match x with
  | Finite m e => fixed_text d (scaled (10 ^ Z.of_nat d) m e)
  | Inf => lit "inf"
  end.

(** The same number in the Standard Library's IEEE-754 model. *)
Definition to_spec (x : float) : spec_float :=
  match x with
  | Finite m e => binary_normalize 53 1024 m e false
  | Inf => S754_infinity false
  end.

End PyFloat.

(** ** Values decoded from JSON, exceptions, and the effects of a run *)

Module Py.

Section Values.
Variable pyfloat : Type.

(** What [response.json()] can return. *)
Inductive json :=
| JNull
| JBool (b : bool)
| JInt (n : Z)
| JFloat (x : pyfloat)
| JStr (s : pystr)
| JList (l : list json)
| JDict (d : list (pystr * json)).

End Values.

Arguments JNull {pyfloat}.
Arguments JBool {pyfloat} b.
Arguments JInt {pyfloat} n.
Arguments JFloat {pyfloat} x.
Arguments JStr {pyfloat} s.
Arguments JList {pyfloat} l.
Arguments JDict {pyfloat} d.

(** The behaviour of the interpreter on the values the program only passes
    through: floats decoded from JSON, and the text of lists and dicts. *)
Record runtime := {
  pyfloat : Type;
  float_eq0 : pyfloat -> bool;            (* x == 0 *)
  float_ge : pyfloat -> Z -> bool;        (* x >= k *)
  float_div_1f : pyfloat -> Z -> pystr;   (* x / k in the format .1f *)
  float_str : pyfloat -> pystr;           (* str(x) *)
  container_str : json pyfloat -> pystr   (* str(v), v a list or a dict *)
}.

(** The interpreter restricted to runs in which JSON holds no float and no
    container is shown; used to run the embedding on concrete inputs. *)
Definition no_floats : runtime :=
  {| pyfloat := Empty_set;
     float_eq0 := fun x => match x with end;
     float_ge := fun x _ => match x with end;
     float_div_1f := fun x _ => match x with end;
     float_str := fun x => match x with end;
     container_str := fun _ => [] |}.

Inductive exn_class :=
| RequestException          (* requests.RequestException and its subclasses *)
| JSONDecodeError           (* json.JSONDecodeError *)
| AttributeError
| TypeError
| OverflowError
| UnicodeEncodeError
| UnidentifiedImageError    (* PIL.UnidentifiedImageError, an OSError *)
| OSError                   (* IOError is OSError *)
| OtherException.           (* any other subclass of Exception *)

(** An exception with the text [str(e)]. *)
Record exn := Exn { exn_kind : exn_class; exn_msg : pystr }.

Inductive result (A : Type) :=
| Ret (a : A)
| Raise (e : exn).

Arguments Ret {A} a.
Arguments Raise {A} e.

(** The arguments of a [requests.get] call. *)
Record request := Request {
  req_url : pystr;
  req_headers : list (pystr * pystr);
  req_allow_redirects : bool;
  req_timeout : Z
}.

(** What the program reads of a [requests.Response]. *)
Record response (J : Type) := Response {
  status_code : Z;
  reason : pystr;
  url : pystr;
  headers_Location : option pystr;   (* headers.get('Location') *)
  json_body : result J               (* what json() returns or raises *)
}.

Arguments Response {J}.
Arguments status_code {J}.
Arguments reason {J}.
Arguments url {J}.
Arguments headers_Location {J}.
Arguments json_body {J}.

(** The network: [requests.get] returns a response or raises a
    [RequestException] with the given text. *)
Definition world (rt : runtime) : Type :=
  request -> pystr + response (json (pyfloat rt)).

(** What a run leaves behind: the lines printed and the requests sent,
    oldest first. *)
Record state := State {
  stdout : list pystr;
  sent : list request
}.

Definition M (A : Type) : Type := state -> result A * state.

Definition ret {A} (a : A) : M A := fun st => (Ret a, st).

Definition raise {A} (e : exn) : M A := fun st => (Raise e, st).

Definition bind {A B} (c : M A) (k : A -> M B) : M B :=
  fun st =>
    match c st with
    | (Ret a, st') => k a st'
    | (Raise e, st') => (Raise e, st')
    end.

Definition lift {A} (r : result A) : M A := fun st => (r, st).

(** [try: c except ... as e:], with the exception handed to the caller. *)
Definition try {A} (c : M A) : M (exn + A) :=
  fun st =>
    match c st with
    | (Ret a, st') => (Ret (inr a), st')
    | (Raise e, st') => (Ret (inl e), st')
    end.

(** [print(line)]. *)
Definition print (line : pystr) : M unit :=
  fun st => (Ret tt, State (stdout st ++ [line]) (sent st)).

(** [c] sends at most [k] requests, each of them with the property [P],
    whether it returns or raises. *)
Definition sends {A} (P : request -> Prop) (k : nat) (c : M A) : Prop :=
  forall st, exists l,
    sent (snd (c st)) = sent st ++ l /\ (length l <= k)%nat /\ Forall P l.

End Py.
Import Py.

Declare Scope py_scope.
Delimit Scope py_scope with py.
Notation "x <- c ;; k" := (bind c (fun x => k))
  (at level 61, c at next level, right associativity) : py_scope.
Notation "c ;;; k" := (bind c (fun _ => k))
  (at level 61, right associativity) : py_scope.
Local Open Scope py_scope.

(** ** [bili_parser/segment.py] *)

(** Modelled from the spec: the module [segment], imported by both source
    files, is not among them.  The specification describes a Segment as
    a tagged union of Text(string) and Image(url-or-data-string).  [Image]
    holds whatever value the caller passes, as a Python constructor does. *)
Inductive Segment (rt : runtime) :=
| Text (text : pystr)
| Image (image_url : json (pyfloat rt)).

Arguments Text {rt} text.
Arguments Image {rt} image_url.

(** ** [bili_parser/__main__.py] *)

Module Main.
Section WithRuntime.
Context (rt : runtime).

Abbreviation json := (Py.json (pyfloat rt)).
Abbreviation response := (Py.response json).

(** *** The interpreter's primitives on JSON values *)

Definition type_name (v : json) : pystr :=
  match v with
  | JNull => lit "NoneType"
  | JBool _ => lit "bool"
  | JInt _ => lit "int"
  | JFloat _ => lit "float"
  | JStr _ => lit "str"
  | JList _ => lit "list"
  | JDict _ => lit "dict"
  end.

(** [bool(v)]. *)
Definition truthy (v : json) : bool :=
  match v with
  | JNull => false
  | JBool b => b
  | JInt n => negb (n =? 0)
  | JFloat x => negb (float_eq0 rt x)
  | JStr s => negb (Nat.eqb (length s) 0)
  | JList l => negb (Nat.eqb (length l) 0)
  | JDict d => negb (Nat.eqb (length d) 0)
  end.

(** [v == 0]. *)
Definition eq0 (v : json) : bool :=
  match v with
  | JBool b => negb b
  | JInt n => n =? 0
  | JFloat x => float_eq0 rt x
  | _ => false
  end.

(** [v is not None]. *)
Definition is_not_None (v : json) : bool :=
  match v with
  | JNull => false
  | _ => true
  end.

(** [str(v)], which is what an f-string field shows. *)
Definition str (v : json) : pystr :=
  match v with
  | JNull => lit "None"
  | JBool b => if b then lit "True" else lit "False"
  | JInt n => str_int n
  | JFloat x => float_str rt x
  | JStr s => s
  | JList _ | JDict _ => container_str rt v
  end.

Fixpoint dict_get (d : list (pystr * json)) (key : pystr) : option json :=
  match d with
  | [] => None
  | (k, v) :: d' => if str_eqb k key then Some v else dict_get d' key
  end.

(** [d.get(key, default)] on a dict [d]. *)
Definition lookup (d : list (pystr * json)) (key : pystr) (default : json)
  : json :=
  match dict_get d key with
  | Some x => x
  | None => default
  end.

(** [v.get(key, default)]: only a dict has the method. *)
Definition get (v : json) (key : pystr) (default : json) : result json :=
  match v with
  | JDict d => Ret (lookup d key default)
  | _ => Raise (Exn AttributeError
                  (lit "'" ++ type_name v ++ lit "' object has no attribute 'get'"))
  end.

(** [response.raise_for_status()]. *)
Definition raise_for_status (r : response) : result unit :=
  if (400 <=? status_code r) && (status_code r <? 500) then
    Raise (Exn RequestException
             (str_int (status_code r) ++ lit " Client Error: " ++ reason r
              ++ lit " for url: " ++ url r))
  else if (500 <=? status_code r) && (status_code r <? 600) then
    Raise (Exn RequestException
             (str_int (status_code r) ++ lit " Server Error: " ++ reason r
              ++ lit " for url: " ++ url r))
  else Ret tt.

(** [requests.get(...)], recorded in the state. *)
Definition requests_get (w : world rt) (rq : request) : M response :=
  fun st =>
    let st' := State (stdout st) (sent st ++ [rq]) in
    match w rq with
    | inl msg => (Raise (Exn RequestException msg), st')
    | inr r => (Ret r, st')
    end.

(** *** Helper functions *)

Definition WAN : pystr := lit "ä¸‡".

Definition format_number (num : json) : result pystr :=
  match num with
  | JStr s => Ret s
  | JInt n =>
      if 10000 <=? n then
        match PyFloat.true_div n 10000 with
        | Some x => Ret (PyFloat.format_f 1 x ++ WAN)
        | None => Raise (Exn OverflowError
                           (lit "integer division result too large for a float"))
        end
      else Ret (str_int n)
  | JBool b =>
      (* a bool is an int below 10000 *)
      Ret (str num)
  | JFloat x =>
      if float_ge rt x 10000 then Ret (float_div_1f rt x 10000 ++ WAN)
      else Ret (str num)
  | JNull | JList _ | JDict _ =>
      Raise (Exn TypeError
               (lit "'>=' not supported between instances of '" ++ type_name num
                ++ lit "' and 'int'"))
  end.

(** [s] shows [n / 10000] with one decimal and the unit: the tenths [q]
    shown are within half a tenth of the quotient. *)
Definition wan_rendering (n : Z) (s : pystr) : Prop :=
  exists q ip, s = ip ++ lit "." ++ [digit_char (q mod 10)] ++ WAN
    /\ 0 <= q /\ decimal_of (q / 10) ip /\ Z.abs (1000 * q - n) <= 500.

Definition extract_bvid_from_url (url : pystr) : option pystr :=
  match url with
  | [] => None
  | _ => re_search_bv url
  end.

Definition USER_AGENT : pystr :=
  lit "Mozilla/5.0 (Windows NT 10.0; Win64; x64) AppleWebKit/537.36 (KHTML, like Gecko) Chrome/91.0.4472.124 Safari/537.36".

(** The request that resolves a short link: redirects are not followed. *)
Definition short_link_request (target_b23_url : pystr) : request :=
  let headers := [(lit "User-Agent", USER_AGENT)] in
  Request target_b23_url headers false 5.

(** What the specification says of the cleaning, in its words: the text
    before the first question mark, and the text without one final slash. *)
Definition before_query (location : pystr) : pystr :=
  PySeq.take_while (fun c => negb (c =? 63)%N) location.

Definition without_final_slash (s : pystr) : pystr :=
  match rev s with
  | 47%N :: r => rev r
  | _ => s
  end.

(** The cleaning of a redirect target as the source computes it. *)
Definition clean_location (location : pystr) : pystr :=
  let query_index := find (lit "?") location in
  let location := if negb (query_index =? -1)
                  then PySeq.slice_to location query_index else location in
  if endswith (lit "/") location then PySeq.drop_last location else location.

(** The first statements of [resolve_b23_url]: the URL that is requested. *)
Definition target_of (short_url_input : pystr) : pystr :=
  if negb (startswith (lit "http") short_url_input)
  then lit "https://" ++ short_url_input else short_url_input.

Definition resolve_b23_url (w : world rt) (short_url_input : pystr)
  : M (option pystr) :=
  let target_b23_url := target_of short_url_input in
  if negb (contains (lit "b23.tv/") target_b23_url) then ret (Some short_url_input)
  else
    r <- try (requests_get w (short_link_request target_b23_url)) ;;
    match r with
    | inr response =>
        if (status_code response =? 301) || (status_code response =? 302) then
          match headers_Location response with
          | Some ((_ :: _) as location) => ret (Some (clean_location location))
          | _ =>
              print (lit "Warning: b23.tv redirect for " ++ target_b23_url
                     ++ lit " missing Location header.") ;;;
              ret None
          end
        else
          print (lit "Warning: b23.tv did not redirect for " ++ target_b23_url
                 ++ lit ". Status: " ++ str_int (status_code response)) ;;;
          ret None
    | inl e =>
        (* only a RequestException can come out of [requests.get] *)
        print (lit "Error resolving b23.tv link " ++ target_b23_url ++ lit ": "
               ++ exn_msg e) ;;;
        ret None
    end.

(** *** Main parsing logic *)

(** The dictionary [video_info]; the six counts, the follower count and
    the viewer counts hold text, the other fields what the API returned. *)
Record VideoInfo := {
  title : json;
  upName : json;
  upMid : json;
  upFans : pystr;
  pic : json;
  views : pystr;
  danmaku : pystr;
  likes : pystr;
  coins : pystr;
  favorites : pystr;
  shares : pystr;
  description : json;
  watchingTotal : pystr;
  watchingWeb : pystr;
  cleanedUrl : pystr;
  cid : json;
  bvid : pystr
}.

Definition NA : pystr := lit "N/A".

Definition initial_video_info (bvid : pystr) : VideoInfo := {|
  title := JStr NA;
  upName := JStr NA;
  upMid := JNull;
  upFans := NA;
  pic := JStr NA;
  views := NA;
  danmaku := NA;
  likes := NA;
  coins := NA;
  favorites := NA;
  shares := NA;
  description := JStr NA;
  watchingTotal := NA;
  watchingWeb := NA;
  cleanedUrl := lit "https://www.bilibili.com/video/" ++ bvid;
  cid := JNull;
  bvid := bvid
|}.

Definition api_headers : list (pystr * pystr) :=
  [(lit "User-Agent", USER_AGENT); (lit "Referer", lit "https://www.bilibili.com/")].

Definition api_request (api_url : pystr) : request :=
  Request api_url api_headers true 5.

(** The two kinds of request the program sends. *)
Definition is_api_request (rq : request) : Prop :=
  exists api_url, rq = api_request api_url.

Definition is_short_link_request (rq : request) : Prop :=
  exists target_b23_url, rq = short_link_request target_b23_url.

(** One API call: [requests.get], [raise_for_status()], [json()]. *)
Definition api_call (w : world rt) (api_url : pystr) : M json :=
  resp <- requests_get w (api_request api_url) ;;
  lift (raise_for_status resp) ;;;
  lift (json_body resp).

Definition view_api_url_of (bvid : pystr) : pystr :=
  lit "https://api.bilibili.com/x/web-interface/view?bvid=" ++ bvid.

(** 1. Get video details. *)
Definition fetch_view (w : world rt) (vi : VideoInfo) : M VideoInfo :=
  let view_api_url := view_api_url_of (bvid vi) in
  print (lit "Fetching main info: " ++ view_api_url) ;;;
  view_data <- api_call w view_api_url ;;
  code <- lift (get view_data (lit "code") JNull) ;;
  if eq0 code then
    data <- lift (get view_data (lit "data") (JDict [])) ;;
    stat <- lift (get data (lit "stat") (JDict [])) ;;
    v_title <- lift (get data (lit "title") (JStr NA)) ;;
    v_desc <- lift (get data (lit "desc") (JStr NA)) ;;
    v_pic <- lift (get data (lit "pic") (JStr NA)) ;;
    owner <- lift (get data (lit "owner") (JDict [])) ;;
    v_name <- lift (get owner (lit "name") (JStr NA)) ;;
    owner' <- lift (get data (lit "owner") (JDict [])) ;;
    v_mid <- lift (get owner' (lit "mid") JNull) ;;
    v_cid <- lift (get data (lit "cid") JNull) ;;
    n_view <- lift (get stat (lit "view") (JInt 0)) ;;
    v_views <- lift (format_number n_view) ;;
    n_danmaku <- lift (get stat (lit "danmaku") (JInt 0)) ;;
    v_danmaku <- lift (format_number n_danmaku) ;;
    n_like <- lift (get stat (lit "like") (JInt 0)) ;;
    v_likes <- lift (format_number n_like) ;;
    n_coin <- lift (get stat (lit "coin") (JInt 0)) ;;
    v_coins <- lift (format_number n_coin) ;;
    n_favorite <- lift (get stat (lit "favorite") (JInt 0)) ;;
    v_favorites <- lift (format_number n_favorite) ;;
    n_share <- lift (get stat (lit "share") (JInt 0)) ;;
    v_shares <- lift (format_number n_share) ;;
    ret {| title := v_title; upName := v_name; upMid := v_mid;
           upFans := upFans vi; pic := v_pic;
           views := v_views; danmaku := v_danmaku; likes := v_likes;
           coins := v_coins; favorites := v_favorites; shares := v_shares;
           description := v_desc;
           watchingTotal := watchingTotal vi; watchingWeb := watchingWeb vi;
           cleanedUrl := cleanedUrl vi; cid := v_cid; bvid := bvid vi |}
  else
    message <- lift (get view_data (lit "message") (JStr (lit "Unknown error"))) ;;
    print (lit "Warning: View API error for " ++ bvid vi ++ lit " - " ++ str message) ;;;
    ret vi.

Definition set_upFans (vi : VideoInfo) (x : pystr) : VideoInfo :=
  {| title := title vi; upName := upName vi; upMid := upMid vi;
     upFans := x; pic := pic vi;
     views := views vi; danmaku := danmaku vi; likes := likes vi;
     coins := coins vi; favorites := favorites vi; shares := shares vi;
     description := description vi;
     watchingTotal := watchingTotal vi; watchingWeb := watchingWeb vi;
     cleanedUrl := cleanedUrl vi; cid := cid vi; bvid := bvid vi |}.

Definition set_watching (vi : VideoInfo) (total web : pystr) : VideoInfo :=
  {| title := title vi; upName := upName vi; upMid := upMid vi;
     upFans := upFans vi; pic := pic vi;
     views := views vi; danmaku := danmaku vi; likes := likes vi;
     coins := coins vi; favorites := favorites vi; shares := shares vi;
     description := description vi;
     watchingTotal := total; watchingWeb := web;
     cleanedUrl := cleanedUrl vi; cid := cid vi; bvid := bvid vi |}.

Definition relation_api_url_of (vi : VideoInfo) : pystr :=
  lit "https://api.bilibili.com/x/relation/stat?vmid=" ++ str (upMid vi).

(** 2. Get UP fan count. *)
Definition fetch_relation (w : world rt) (vi : VideoInfo) : M VideoInfo :=
  if truthy (upMid vi) then
    let relation_api_url := relation_api_url_of vi in
    print (lit "Fetching fan count: " ++ relation_api_url) ;;;
    relation_data <- api_call w relation_api_url ;;
    code <- lift (get relation_data (lit "code") JNull) ;;
    if eq0 code then
      data <- lift (get relation_data (lit "data") (JDict [])) ;;
      follower <- lift (get data (lit "follower") (JInt 0)) ;;
      fans <- lift (format_number follower) ;;
      ret (set_upFans vi fans)
    else
      message <- lift (get relation_data (lit "message") JNull) ;;
      print (lit "Warning: Relation API error for mid " ++ str (upMid vi)
             ++ lit " - " ++ str message) ;;;
      ret vi
  else ret vi.

(** 3. Get online viewers. *)
Definition fetch_online (w : world rt) (vi : VideoInfo) : M VideoInfo :=
  if truthy (cid vi) then
    let online_api_url :=
      lit "https://api.bilibili.com/x/player/online/total?bvid=" ++ bvid vi
      ++ lit "&cid=" ++ str (cid vi) in
    print (lit "Fetching online count: " ++ online_api_url) ;;;
    online_data <- api_call w online_api_url ;;
    code <- lift (get online_data (lit "code") JNull) ;;
    data <- (if eq0 code then lift (get online_data (lit "data") JNull)
             else ret JNull) ;;
    if eq0 code && truthy data then
      n_total <- lift (get data (lit "total") (JInt 0)) ;;
      total <- lift (format_number n_total) ;;
      web_online <- lift (get data (lit "web_online") JNull) ;;
      web <- (if is_not_None web_online then
                n_web <- lift (get data (lit "web_online") (JInt 0)) ;;
                lift (format_number n_web)
              else
                count <- lift (get data (lit "count") JNull) ;;
                if is_not_None count then
                  n_count <- lift (get data (lit "count") (JInt 0)) ;;
                  lift (format_number n_count)
                else ret NA) ;;
      ret (set_watching vi total web)
    else
      message <- lift (get online_data (lit "message") JNull) ;;
      print (lit "Warning: Online API error for bvid " ++ bvid vi ++ lit " - "
             ++ str message) ;;;
      ret vi
  else ret vi.

(** Step 3, the body of the [try] statement. *)
Definition fetch_video_info (w : world rt) (vi : VideoInfo) : M VideoInfo :=
  vi1 <- fetch_view w vi ;;
  vi2 <- fetch_relation w vi1 ;;
  fetch_online w vi2.

(** The [except] clauses, tried in the order written. *)
Definition handle (e : exn) : pystr :=
  match exn_kind e with
  | RequestException =>
      lit "Error: Network request failed during API call - " ++ exn_msg e
  | JSONDecodeError =>
      lit "Error: Failed to decode JSON response from API - " ++ exn_msg e
  | _ => lit "Error: An unexpected error occurred - " ++ exn_msg e
  end.

(** [x not in ['N/A', '0']]. *)
Definition not_in_NA_0 (x : pystr) : bool :=
  negb (str_eqb x NA || str_eqb x (lit "0")).

(** The literal text of the f-strings of step 4, as the source file has it. *)
Definition L_FANS : pystr := lit " ç²‰ä¸: ".
Definition L_WEB_PRE : pystr := lit "ï¼Œ".
Definition L_WEB_POST : pystr := lit " äººåœ¨ç½‘é¡µç«¯è§‚çœ‹".
Definition L_TOTAL_PRE : pystr := lit "ğŸ„â€â™‚ï¸ æ€»å…± ".
Definition L_TOTAL_POST : pystr := lit " äººåœ¨è§‚çœ‹".
Definition L_TITLE : pystr := lit "æ ‡é¢˜: ".
Definition L_UP : pystr := lit "UPä¸»: ".
Definition L_VIEWS : pystr := lit "ğŸ‘€æ’­æ”¾: ".
Definition L_DANMAKU : pystr := lit " ğŸ’¬å¼¹å¹•: ".
Definition L_LIKES : pystr := lit "ğŸ‘ç‚¹èµ: ".
Definition L_COINS : pystr := lit " ğŸ’°æŠ•å¸: ".
Definition L_FAVORITES : pystr := lit "ğŸ“æ”¶è—: ".
Definition L_SHARES : pystr := lit " ğŸ”—åˆ†äº«: ".
Definition L_DESC : pystr := lit "ğŸ“ç®€ä»‹: ".
Definition L_NO_DESC : pystr := lit "æ— ".

Definition up_fans_text (vi : VideoInfo) : pystr :=
  if not_in_NA_0 (upFans vi) then L_FANS ++ upFans vi else [].

Definition watching_web_text (vi : VideoInfo) : pystr :=
  if not_in_NA_0 (watchingWeb vi)
  then L_WEB_PRE ++ watchingWeb vi ++ L_WEB_POST else [].

Definition watching_total_text (vi : VideoInfo) : pystr :=
  if not_in_NA_0 (watchingTotal vi)
  then L_TOTAL_PRE ++ watchingTotal vi ++ L_TOTAL_POST
       ++ watching_web_text vi
  else [].

Definition text_to_copy_1 (vi : VideoInfo) : pystr :=
  strip (L_TITLE ++ str (title vi) ++ NL
         ++ L_UP ++ str (upName vi) ++ up_fans_text vi).

Definition text_to_copy_2 (vi : VideoInfo) : pystr :=
  strip (L_VIEWS ++ views vi ++ L_DANMAKU ++ danmaku vi ++ NL
         ++ L_LIKES ++ likes vi ++ L_COINS ++ coins vi ++ NL
         ++ L_FAVORITES ++ favorites vi ++ L_SHARES ++ shares vi ++ NL
         ++ L_DESC
         ++ str (if truthy (description vi) then description vi
                 else JStr (L_NO_DESC)) ++ NL
         ++ watching_total_text vi ++ NL
         ++ cleanedUrl vi).

(** Step 4: the tuple returned. *)
Definition format_output (vi : VideoInfo) : list (Segment rt) :=
  [Text (text_to_copy_1 vi); Image (pic vi); Text (text_to_copy_2 vi)].

(** What [parse_bili] returns: a [str] or a tuple of segments. *)
Inductive retval :=
| RStr (s : pystr)
| RTuple (segments : list (Segment rt)).

(** The test that opens step 1. *)
Definition looks_like_short_link (url_input : pystr) : bool :=
  contains (lit "b23.tv/") url_input
  || (negb (startswith (lit "BV") url_input)
      && negb (contains (lit "bilibili.com") url_input)
      && (len url_input <? 15)
      && re_match_alnum url_input).

Definition potential_b23_url (url_input : pystr) : pystr :=
  if negb (contains (lit "b23.tv/") url_input)
  then lit "https://b23.tv/" ++ url_input else url_input.

(** Step 1: the error returned early, or [processed_url]. *)
Definition resolve_step (w : world rt) (url_input : pystr) : M (pystr + pystr) :=
  if looks_like_short_link url_input then
    let potential := potential_b23_url url_input in
    print (lit "Attempting to resolve short link: " ++ potential) ;;;
    resolved <- resolve_b23_url w potential ;;
    match resolved with
    | Some ((_ :: _) as processed_url) =>
        print (lit "Resolved to: " ++ processed_url) ;;;
        ret (inr processed_url)
    | _ =>
        if contains (lit "b23.tv/") potential then
          ret (inl (lit "Error: Failed to resolve b23.tv short link: " ++ potential))
        else ret (inr url_input)
    end
  else ret (inr url_input).

(** Steps 2 to 4, from [processed_url] on. *)
Definition parse_resolved (w : world rt) (url_input processed_url : pystr)
  : M retval :=
  match extract_bvid_from_url processed_url with
  | None =>
      ret (RStr (lit "Error: Could not extract BVID from URL: " ++ processed_url
                 ++ lit " (original input: " ++ url_input ++ lit ")"))
  | Some bvid =>
      print (lit "Extracted BVID: " ++ bvid) ;;;
      fetched <- try (fetch_video_info w (initial_video_info bvid)) ;;
      match fetched with
      | inl e => ret (RStr (handle e))
      | inr video_info => ret (RTuple (format_output video_info))
      end
  end.

Definition parse_bili (w : world rt) (url_input : pystr) : M retval :=
  step1 <- resolve_step w url_input ;;
  match step1 with
  | inl error => ret (RStr error)
  | inr processed_url => parse_resolved w url_input processed_url
  end.

(** The id that steps 1 and 2 obtain from the input, if any. *)
Definition extracted_bvid (w : world rt) (url_input : pystr) (st : state)
  : option pystr :=
  match fst (resolve_step w url_input st) with
  | Ret (inr processed_url) => extract_bvid_from_url processed_url
  | _ => None
  end.

(** The follower count in a reply of the relation endpoint that reports
    success: [relation_data.get('data', {}).get('follower', 0)]. *)
Definition follower_of (relation_data : json) : option json :=
  match get relation_data (lit "code") JNull with
  | Ret code =>
      if eq0 code then
        match get relation_data (lit "data") (JDict []) with
        | Ret data =>
            match get data (lit "follower") (JInt 0) with
            | Ret follower => Some follower
            | Raise _ => None
            end
        | Raise _ => None
        end
      else None
  | Raise _ => None
  end.

End WithRuntime.

Arguments extracted_bvid {rt} w url_input st.
Arguments follower_of {rt} relation_data.
Arguments relation_api_url_of {rt} vi.
Arguments initial_video_info {rt} bvid.
Arguments RStr {rt} s.
Arguments RTuple {rt} segments.
Arguments type_name {rt} v.
Arguments truthy {rt} v.
Arguments eq0 {rt} v.
Arguments is_not_None {rt} v.
Arguments str {rt} v.
Arguments dict_get {rt} d key.
Arguments lookup {rt} d key default.
Arguments get {rt} v key default.
Arguments raise_for_status {rt} r.
Arguments requests_get {rt} w rq.
Arguments format_number {rt} num.
Arguments resolve_b23_url {rt} w short_url_input.
Arguments api_call {rt} w api_url.
Arguments fetch_view {rt} w vi.
Arguments fetch_relation {rt} w vi.
Arguments fetch_online {rt} w vi.
Arguments fetch_video_info {rt} w vi.
Arguments set_upFans {rt} vi x.
Arguments set_watching {rt} vi total web.
Arguments up_fans_text {rt} vi.
Arguments watching_web_text {rt} vi.
Arguments watching_total_text {rt} vi.
Arguments text_to_copy_1 {rt} vi.
Arguments text_to_copy_2 {rt} vi.
Arguments format_output {rt} vi.
Arguments resolve_step {rt} w url_input.
Arguments parse_resolved {rt} w url_input processed_url.
Arguments parse_bili {rt} w url_input.
Arguments title {rt} v.
Arguments upName {rt} v.
Arguments upMid {rt} v.
Arguments upFans {rt} v.
Arguments pic {rt} v.
Arguments views {rt} v.
Arguments danmaku {rt} v.
Arguments likes {rt} v.
Arguments coins {rt} v.
Arguments favorites {rt} v.
Arguments shares {rt} v.
Arguments description {rt} v.
Arguments watchingTotal {rt} v.
Arguments watchingWeb {rt} v.
Arguments cleanedUrl {rt} v.
Arguments cid {rt} v.
Arguments bvid {rt} v.

End Main.

(** ** [bili_parser/_main_win.py] *)

Module MainWin.

(** Constants for image resizing. *)
Definition MAX_IMAGE_SIZE_BYTES : Z := 5 * 1024 * 1024.
Definition RESIZE_FACTOR : PyFloat.float := PyFloat.literal 8 10.
Definition MIN_DIMENSION : Z := 100.

(** The line end of the header.  The source writes it with doubled
    backslashes, so it is four characters: backslash, r, backslash, n. *)
Definition EOL : pystr := BACKSLASH ++ lit "r" ++ BACKSLASH ++ lit "n".

(** The text both header f-strings share, with the four offset fields. *)
Definition cf_header (start_html end_html start_fragment end_fragment : pystr)
  : pystr :=
  let version := lit "Version:0.9" in
  let start_html_offset_marker := lit "StartHTML:" in
  let end_html_offset_marker := lit "EndHTML:" in
  let start_fragment_offset_marker := lit "StartFragment:" in
  let end_fragment_offset_marker := lit "EndFragment:" in
  version ++ EOL
  ++ start_html_offset_marker ++ start_html ++ EOL
  ++ end_html_offset_marker ++ end_html ++ EOL
  ++ start_fragment_offset_marker ++ start_fragment ++ EOL
  ++ end_fragment_offset_marker ++ end_fragment ++ EOL.

Definition START_SENTINEL : string := "<!--StartFragment-->".
Definition END_SENTINEL : string := "<!--EndFragment-->".

(** The document around a fragment. *)
Definition full_html_of (html_content : pystr) : pystr :=
  let html_fragment := lit START_SENTINEL ++ html_content ++ lit END_SENTINEL in
  lit "<html><body>" ++ html_fragment ++ lit "</body></html>".

(** Prepares HTML content for the clipboard; [None] is the
    [UnicodeEncodeError] of [encode('utf-8')]. *)
Definition _prepare_cf_html (html_content : pystr) : option bytes :=
  let full_html := full_html_of html_content in
  let dummy_offset := lit "0000000000" in
  match encode_utf8 full_html with
  | None => None
  | Some full_html_utf8 =>
      let header_prefix_for_html_offset :=
        cf_header dummy_offset dummy_offset dummy_offset dummy_offset in
      match encode_utf8 header_prefix_for_html_offset with
      | None => None
      | Some prefix_utf8 =>
          let start_html_offset := PySeq.len prefix_utf8 in
          let end_html_offset := start_html_offset + PySeq.len full_html_utf8 in
          let start_fragment_offset :=
            start_html_offset + bfind (blit START_SENTINEL) full_html_utf8 in
          let end_fragment_offset :=
            start_html_offset + bfind (blit END_SENTINEL) full_html_utf8
            + PySeq.len (blit END_SENTINEL) in
          match encode_utf8
                  (cf_header (format_010d start_html_offset)
                     (format_010d end_html_offset)
                     (format_010d start_fragment_offset)
                     (format_010d end_fragment_offset)) with
          | None => None
          | Some header => Some (header ++ full_html_utf8)
          end
      end
  end.

(** An offset field of the header: ten decimal digits that read [z]. *)
Definition offset_field (z : Z) (f : pystr) : Prop :=
  length f = 10%nat /\ Forall (fun c => is_digit c = true) f /\ decimal_value f = z.

(** The encoded text around the fragment and its sentinels. *)
Definition HTML_OPEN : bytes := blit "<html><body>".
Definition HTML_CLOSE : bytes := blit "</body></html>".

Section WithRuntime.
Context (rt : runtime).

Abbreviation json := (Py.json (pyfloat rt)).

(** The calls into [requests], [PIL] and [base64] made by [load_image];
    each may raise. *)
Record imaging := {
  image : Type;
  (** [requests.get(image_url, stream=True, timeout=10)],
      [raise_for_status()], [raw.read()] and [PILImage.open]. *)
  open_url : json -> result image;
  mode : image -> pystr;
  convert : image -> pystr -> result image;
  size : image -> Z * Z;
  (** [img.resize((w, h), PILImage.Resampling.LANCZOS)]. *)
  resize : image -> Z * Z -> result image;
  (** [img.save(buffer, format=PNG)] and [buffer.getvalue()]. *)
  save_png : image -> result bytes;
  (** [base64.b64encode(data).decode('utf-8')]. *)
  b64encode : bytes -> pystr
}.

Context (pil : imaging).

(** The variables the loop updates. *)
Record encoded := Encoded {
  png_data : bytes;
  current_width : Z;
  current_height : Z
}.

(** [n / (1024*1024)] in the format [.2f]. *)
Definition megabytes (n : Z) : result pystr :=
  match PyFloat.true_div n (1024 * 1024) with
  | Some x => Ret (PyFloat.format_f 2 x)
  | None => Raise (Exn OverflowError
                     (lit "integer division result too large for a float"))
  end.

(** [n * RESIZE_FACTOR]. *)
Definition times_factor (n : Z) : result PyFloat.float :=
  match PyFloat.int_mul n RESIZE_FACTOR with
  | Some x => Ret x
  | None => Raise (Exn OverflowError (lit "int too large to convert to float"))
  end.

(** [int(n * RESIZE_FACTOR)]. *)
Definition shrink (n : Z) : result Z :=
  match times_factor n with
  | Ret x =>
      match PyFloat.to_int x with
      | Some k => Ret k
      | None => Raise (Exn OverflowError
                         (lit "cannot convert float infinity to integer"))
      end
  | Raise e => Raise e
  end.

(** The condition of the [while] statement, evaluated left to right. *)
Definition loop_test (st : encoded) : result bool :=
  if MAX_IMAGE_SIZE_BYTES <? PySeq.len (png_data st) then
    match times_factor (current_width st) with
    | Ret x =>
        if PyFloat.ge_int x MIN_DIMENSION then
          match times_factor (current_height st) with
          | Ret y => Ret (PyFloat.ge_int y MIN_DIMENSION)
          | Raise e => Raise e
          end
        else Ret false
    | Raise e => Raise e
    end
  else Ret false.

(** The [while] loop; [None] when [fuel] iterations were not enough. *)
Fixpoint resize_loop (fuel : nat) (image_url : json) (img : image pil)
  (st : encoded) : M (option encoded) :=
  match fuel with
  | O => ret None
  | S fuel' =>
      continue <- lift (loop_test st) ;;
      if continue : bool then
        mb <- lift (megabytes (PySeq.len (png_data st))) ;;
        print (lit "Image from " ++ Main.str image_url ++ lit " is too large ("
               ++ mb ++ lit " MB). Resizing...") ;;;
        width <- lift (shrink (current_width st)) ;;
        height <- lift (shrink (current_height st)) ;;
        resized_img <- lift (resize pil img (width, height)) ;;
        data <- lift (save_png pil resized_img) ;;
        mb' <- lift (megabytes (PySeq.len data)) ;;
        print (lit "Resized to " ++ str_int width ++ lit "x" ++ str_int height
               ++ lit ", new PNG size: " ++ mb' ++ lit " MB") ;;;
        resize_loop fuel' image_url img (Encoded data width height)
      else ret (Some st)
  end.

(** The statements after the loop: the warning, if the data is still over
    the budget, and the data URI in either case. *)
Definition after_loop (image_url : json) (st : encoded) : M pystr :=
  (if MAX_IMAGE_SIZE_BYTES <? PySeq.len (png_data st) then
     mb <- lift (megabytes (PySeq.len (png_data st))) ;;
     print (lit "Warning: Image from " ++ Main.str image_url
            ++ lit " still too large (" ++ mb
            ++ lit " MB) after resizing. Proceeding.")
   else ret tt) ;;;
  let base64_image := b64encode pil (png_data st) in
  ret (lit "data:image/png;base64," ++ base64_image).

(** The body of the [try] statement of [load_image].  The width shrinks in
    every iteration, so the loop is run with more fuel than it can use. *)
Definition load_image_body (image_url : json) : M pystr :=
  img <- lift (open_url pil image_url) ;;
  img <- (if negb (str_eqb (mode pil img) (lit "RGB") || str_eqb (mode pil img) (lit "RGBA"))
          then lift (convert pil img (lit "RGBA"))
          else if str_eqb (mode pil img) (lit "P")
               then lift (convert pil img (lit "RGBA"))
               else ret img) ;;
  data <- lift (save_png pil img) ;;
  let '(width, height) := size pil img in
  looped <- resize_loop (S (Z.to_nat width)) image_url img
              (Encoded data width height) ;;
  match looped with
  | None => ret []
  | Some st => after_loop image_url st
  end.

(** The loop in the words of the specification: while the encoded size
    exceeds the budget and both dimensions, shrunk by the factor 0.8, stay
    at least 100, shrink both by that factor and encode the resized
    original again. *)
Inductive shrinks_to (img : image pil) : encoded -> encoded -> Prop :=
| shrinks_done st : shrinks_to img st st
| shrinks_step st resized data final :
    MAX_IMAGE_SIZE_BYTES < PySeq.len (png_data st) ->
    MIN_DIMENSION <= 4 * current_width st / 5 ->
    MIN_DIMENSION <= 4 * current_height st / 5 ->
    resize pil img (4 * current_width st / 5, 4 * current_height st / 5)
    = Ret resized ->
    save_png pil resized = Ret data ->
    shrinks_to img
      (Encoded data (4 * current_width st / 5) (4 * current_height st / 5))
      final ->
    shrinks_to img st final.

(** The loop ends within the budget or at the floor of the dimensions. *)
Definition loop_exit (st : encoded) : Prop :=
  PySeq.len (png_data st) <= MAX_IMAGE_SIZE_BYTES
  \/ 4 * current_width st / 5 < MIN_DIMENSION
  \/ 4 * current_height st / 5 < MIN_DIMENSION.

(** The [except] clauses of [load_image], tried in the order written. *)
Definition load_image_handler (image_url : json) (e : exn) : pystr :=
  match exn_kind e with
  | RequestException =>
      lit "Error fetching image for load_image from URL: " ++ Main.str image_url
      ++ BACKSLASH ++ lit "n" ++ exn_msg e
  | UnidentifiedImageError =>
      lit "Error: Cannot identify image file from URL (Pillow): "
      ++ Main.str image_url
  | OSError =>
      lit "Error processing image with Pillow for URL " ++ Main.str image_url
      ++ lit ": " ++ exn_msg e
  | _ =>
      lit "An unexpected error occurred in load_image for URL "
      ++ Main.str image_url ++ lit ": " ++ exn_msg e
  end.

Definition load_image (image_url : json) : M pystr :=
  r <- try (load_image_body image_url) ;;
  match r with
  | inr data_uri => ret data_uri
  | inl e => print (load_image_handler image_url e) ;;; ret []
  end.

(** [case Text(text)]: the paragraph appended to [html_contents]. *)
Definition text_paragraph (text : pystr) : pystr :=
  let processed_text :=
    replace (BACKSLASH ++ lit "n") (lit "<br>") (strip text) in
  lit "<p>" ++ processed_text ++ lit "</p>".

(** One turn of the [for] loop: [html_contents] after the segment. *)
Definition add_segment (html_contents : list pystr) (segment : Segment rt)
  : M (list pystr) :=
  match segment with
  | Text text => ret (html_contents ++ [text_paragraph text])
  | Image image_url_from_segment =>
      loaded_image_src <- load_image image_url_from_segment ;;
      match loaded_image_src with
      | _ :: _ =>
          ret (html_contents
               ++ [lit "<img src=" ++ DQUOTE ++ loaded_image_src ++ DQUOTE
                   ++ lit " />"])
      | [] =>
          print (lit "Skipping image segment due to loading error from URL: "
                 ++ Main.str image_url_from_segment) ;;;
          ret html_contents
      end
  end.

Fixpoint add_segments (html_contents : list pystr) (segments : list (Segment rt))
  : M (list pystr) :=
  match segments with
  | [] => ret html_contents
  | segment :: rest =>
      html_contents' <- add_segment html_contents segment ;;
      add_segments html_contents' rest
  end.

(** The text of the [UnicodeEncodeError] that encoding [s] raises is the
    codec's and is taken from [encode_error]. *)
Context (encode_error : pystr -> pystr).

(** The function returns nothing; the model returns the data handed to
    [SetClipboardData], if the call is reached.  The clipboard calls
    themselves are taken to succeed. *)
Definition set_clipboard_text_and_image (segments : list (Segment rt))
  : M (option bytes) :=
  r <- try (
    html_contents <- add_segments [] segments ;;
    match html_contents with
    | [] => print (lit "No content to copy to clipboard.") ;;; ret None
    | _ :: _ =>
        let html_content := concat html_contents in
        match _prepare_cf_html html_content with
        | Some cf_html_data =>
            print (lit "Content successfully copied to clipboard as HTML.") ;;;
            ret (Some cf_html_data)
        | None => raise (Exn UnicodeEncodeError (encode_error html_content))
        end
    end) ;;
  match r with
  | inr data => ret data
  | inl e =>
      print (lit "An unexpected error occurred in set_clipboard_text_and_image: "
             ++ exn_msg e) ;;;
      ret None
  end.

End WithRuntime.

Arguments image {rt} i.
Arguments open_url {rt} i.
Arguments mode {rt} i.
Arguments convert {rt} i.
Arguments size {rt} i.
Arguments resize {rt} i.
Arguments save_png {rt} i.
Arguments b64encode {rt} i.
Arguments resize_loop {rt} pil fuel image_url img st.
Arguments after_loop {rt} pil image_url st.
Arguments load_image_body {rt} pil image_url.
Arguments shrinks_to {rt} pil img _ _.
Arguments load_image_handler {rt} image_url e.
Arguments load_image {rt} pil image_url.
Arguments add_segment {rt} pil html_contents segment.
Arguments add_segments {rt} pil html_contents segments.
Arguments set_clipboard_text_and_image {rt} pil encode_error segments.

End MainWin.

(** ** The program: the statement under [if __name__ == "__main__"] *)

Module Program.
Import Main MainWin.
Section WithRuntime.
Context (rt : runtime) (pil : imaging rt) (encode_error : pystr -> pystr).

(** A positional argument of the call
    [set_clipboard_text_and_image( *parse_bili(...))]: a segment of the
    tuple, or a [str] of one character when a string is unpacked. *)
Inductive argument :=
| ASegment (segment : Segment rt)
| AStr (s : pystr).

(** [*r]: the elements of the tuple, or the characters of the string. *)
Definition star (r : retval rt) : list argument :=
  match r with
  | RStr s => map (fun c => AStr [c]) s
  | RTuple segments => map ASegment segments
  end.

(** One turn of the [for] loop on any argument: a [str] is an instance of
    neither class, no [case] matches it and the statement does nothing. *)
Definition add_argument (html_contents : list pystr) (a : argument)
  : M (list pystr) :=
  match a with
  | ASegment segment => add_segment pil html_contents segment
  | AStr _ => ret html_contents
  end.

Fixpoint add_arguments (html_contents : list pystr) (args : list argument)
  : M (list pystr) :=
  match args with
  | [] => ret html_contents
  | a :: rest =>
      html_contents' <- add_argument html_contents a ;;
      add_arguments html_contents' rest
  end.

(** [set_clipboard_text_and_image] called with any arguments. *)
Definition set_clipboard_call (args : list argument) : M (option bytes) :=
  r <- try (
    html_contents <- add_arguments [] args ;;
    match html_contents with
    | [] => print (lit "No content to copy to clipboard.") ;;; ret None
    | _ :: _ =>
        let html_content := concat html_contents in
        match _prepare_cf_html html_content with
        | Some cf_html_data =>
            print (lit "Content successfully copied to clipboard as HTML.") ;;;
            ret (Some cf_html_data)
        | None => raise (Exn UnicodeEncodeError (encode_error html_content))
        end
    end) ;;
  match r with
  | inr data => ret data
  | inl e =>
      print (lit "An unexpected error occurred in set_clipboard_text_and_image: "
             ++ exn_msg e) ;;;
      ret None
  end.

(** The program, run on the text [load_clipboard()] returns. *)
Definition main (w : world rt) (clipboard : pystr) : M (option bytes) :=
  r <- parse_bili w clipboard ;;
  set_clipboard_call (star r).

End WithRuntime.

Arguments ASegment {rt} segment.
Arguments AStr {rt} s.
Arguments star {rt} r.
Arguments add_argument {rt} pil html_contents a.
Arguments add_arguments {rt} pil html_contents args.
Arguments set_clipboard_call {rt} pil encode_error args.
Arguments main {rt} pil encode_error w clipboard.

End Program.

(** ** Worlds, replies and images for the concrete cases *)

Module Examples.
Import Main MainWin.

Definition J : Type := json (pyfloat no_floats).

(** A response with the given status, Location header and JSON body. *)
Definition reply (status : Z) (location : option pystr) (body : result J)
  : pystr + response J :=
  inr (Response status [] [] location body).

Definition no_json : result J :=
  Raise (Exn JSONDecodeError (lit "Expecting value: line 1 column 1 (char 0)")).

Definition unreachable : pystr + response J := inl (lit "Connection refused").

Definition object (fields : list (string * J)) : J :=
  JDict (map (fun kv => (lit (fst kv), snd kv)) fields).

(** A network that answers the short-link request and the three API calls
    as given. *)
Definition network (short_link view relation online : pystr + response J)
  : world no_floats :=
  fun rq =>
    if negb (req_allow_redirects rq) then short_link
    else if contains (lit "/view?") (req_url rq) then view
    else if contains (lit "/relation/") (req_url rq) then relation
    else online.

Definition redirecting (location : pystr) : world no_floats :=
  network (reply 302 (Some location) no_json) unreachable unreachable unreachable.

Definition view_reply : J :=
  object [("code", JInt 0);
          ("data", object [("title", JStr (lit "Hello"));
                           ("desc", JStr (lit "A video"));
                           ("pic", JStr (lit "http://i0.hdslb.com/x.jpg"));
                           ("owner", object [("name", JStr (lit "up")); ("mid", JInt 42)]);
                           ("cid", JInt 7);
                           ("stat", object [("view", JInt 123456); ("danmaku", JInt 5);
                                            ("like", JInt 10000); ("coin", JInt 0);
                                            ("favorite", JInt 17); ("share", JInt 3)])])]%string.

Definition relation_reply (follower : Z) : J :=
  object [("code", JInt 0); ("data", object [("follower", JInt follower)])]%string.

Definition online_reply : J :=
  object [("code", JInt 0);
          ("data", object [("total", JStr (lit "1000+")); ("count", JStr (lit "12"))])]%string.

Definition all_fine (follower : Z) : world no_floats :=
  network (reply 302 (Some (lit "https://www.bilibili.com/video/BV1QL411M7r3/?share=1")) no_json)
    (reply 200 None (Ret view_reply))
    (reply 200 None (Ret (relation_reply follower)))
    (reply 200 None (Ret online_reply)).

Definition start : state := State [] [].

(** [n] bytes. *)
Definition blob (n : Z) : bytes := repeat x00 (Z.to_nat n).

(** An imaging library reduced to sizes: an image is its pair of
    dimensions, and its PNG encoding takes four bytes for each pixel, as
    that of an RGBA image that does not compress. *)
Definition raw_rgba (original : Z * Z) : imaging no_floats :=
  {| image := Z * Z;
     open_url := fun _ => Ret original;
     mode := fun _ => lit "RGBA";
     convert := fun img _ => Ret img;
     size := fun img => img;
     resize := fun _ dimensions => Ret dimensions;
     save_png := fun img => Ret (blob (4 * fst img * snd img));
     b64encode := fun _ => [] |}.

(** The same library on images whose dimensions are natural numbers, as
    those of every image are. *)
Definition raw_pixels (original : N * N) : imaging no_floats :=
  {| image := N * N;
     open_url := fun _ => Ret original;
     mode := fun _ => lit "RGB";
     convert := fun img _ => Ret img;
     size := fun img => (Z.of_N (fst img), Z.of_N (snd img));
     resize := fun _ dimensions =>
       Ret (Z.to_N (fst dimensions), Z.to_N (snd dimensions));
     save_png := fun img => Ret (blob (3 * Z.of_N (fst img) * Z.of_N (snd img)));
     b64encode := fun data => repeat 65%N (length data) |}.

(** A library that cannot read what the URL holds. *)
Definition unreadable : imaging no_floats :=
  {| image := unit;
     open_url := fun _ =>
       Raise (Exn UnidentifiedImageError (lit "cannot identify image file"));
     mode := fun _ => lit "RGB";
     convert := fun img _ => Ret img;
     size := fun _ => (0, 0);
     resize := fun img _ => Ret img;
     save_png := fun _ => Ret [];
     b64encode := fun _ => [] |}.

End Examples.

(* ================================================================== *)
(** * Part II. Checks of the embedding on concrete inputs *)
(* ================================================================== *)

Example lit_ascii : lit "BV1" = [66; 86; 49]%N.
Proof. reflexivity. Qed.

Example lit_wan : lit "ä¸‡" = [228; 184; 8225]%N.
Proof. reflexivity. Qed.

Example str_int_ex : str_int 12345 = lit "12345" /\ str_int (-7) = lit "-7" /\ str_int 0 = lit "0".
Proof. repeat split; reflexivity. Qed.

Example fmt_ex : format_010d 115 = lit "0000000115" /\ format_010d (-1) = lit "-000000001"
  /\ format_010d 12345678901 = lit "12345678901".
Proof. repeat split; reflexivity. Qed.

Example enc_ex : encode_utf8 (lit "ä¸‡") = Some (blit "ä¸‡").
Proof. reflexivity. Qed.

Example search_ex : re_search_bv (lit "https://www.bilibili.com/video/BV1QL411M7r3/?x=BV2") = Some (lit "BV1QL411M7r3")
  /\ re_search_bv (lit "BV-BV12") = Some (lit "BV12") /\ re_search_bv (lit "BV") = None.
Proof. repeat split; reflexivity. Qed.

Example replace_ex : replace (lit "ab") (lit "X") (lit "cababa") = lit "cXXa"
  /\ strip (lit "  a b  ") = lit "a b" /\ find (lit "?") (lit "a?b?") = 1.
Proof. repeat split; reflexivity. Qed.

Example float_literal_08 : PyFloat.literal 8 10 = PyFloat.Finite 7205759403792794 (-53).
Proof. reflexivity. Qed.

Example float_div_ex :
  option_map (PyFloat.format_f 1) (PyFloat.true_div 12345 10000) = Some (lit "1.2")
  /\ option_map (PyFloat.format_f 1) (PyFloat.true_div 10500 10000) = Some (lit "1.1")
  /\ option_map (PyFloat.format_f 1) (PyFloat.true_div 12500 10000) = Some (lit "1.2")
  /\ option_map (PyFloat.format_f 1) (PyFloat.true_div 11500 10000) = Some (lit "1.1")
  /\ option_map (PyFloat.format_f 1) (PyFloat.true_div 10995116277762501 10000) = Some (lit "1099511627776.2")
  /\ PyFloat.true_div (10 ^ 313) 10000 = None.
Proof. repeat split; vm_compute; reflexivity. Qed.

(** The rounding above agrees with the Standard Library's executable
    IEEE-754 operations (precision 53, maximal exponent 1024). *)
Example float_div_agrees_with_spec :
  forallb (fun n =>
    match PyFloat.true_div n 10000 with
    | Some x => SFeqb (PyFloat.to_spec x)
                  (SFdiv 53 1024 (binary_normalize 53 1024 n 0 false)
                     (binary_normalize 53 1024 10000 0 false))
    | None => false
    end)
    [10000; 10500; 11500; 12345; 12500; 99999; 123456789; 9007199254740993;
     10995116277762501; 10 ^ 20 + 13000; 10 ^ 300 + 7] = true.
Proof. vm_compute. reflexivity. Qed.

Example float_mul_agrees_with_spec :
  forallb (fun w =>
    match PyFloat.int_mul w (PyFloat.literal 8 10) with
    | Some x => SFeqb (PyFloat.to_spec x)
                  (SFmul 53 1024 (binary_normalize 53 1024 w 0 false)
                     (SFdiv 53 1024 (binary_normalize 53 1024 8 0 false)
                        (binary_normalize 53 1024 10 0 false)))
    | None => false
    end)
    [1; 5; 100; 124; 125; 126; 1920; 1080; 2147483647; 10 ^ 18 + 1] = true.
Proof. vm_compute. reflexivity. Qed.

(* ================================================================== *)
(** * Part III. Properties *)
(* ================================================================== *)

Module PyStrFacts.

Lemma digit_char_value d : 0 <= d < 10 -> Z.of_N (digit_char d) - 48 = d.
Proof. unfold digit_char. intros. rewrite Z2N.id by lia. lia. Qed.

Lemma digit_char_is_digit d : 0 <= d < 10 -> is_digit (digit_char d) = true.
Proof.
  intros H. unfold is_digit, digit_char.
  apply andb_true_intro; split; apply N.leb_le; lia.
Qed.

Lemma digits_from_value fuel : forall n acc,
  0 <= n < 10 ^ Z.of_nat fuel ->
  fold_left decimal_step (digits_from fuel n acc) 0 = fold_left decimal_step acc n.
Proof.
  induction fuel as [|fuel IH]; intros n acc Hn.
  - simpl in *. assert (n = 0) by lia. subst. reflexivity.
  - cbn [digits_from]. destruct (Z.ltb_spec n 10) as [Hlt|Hge].
    + cbn [fold_left]. unfold decimal_step at 2.
      rewrite digit_char_value by (apply Z.mod_pos_bound; lia).
      rewrite Z.mod_small by lia. f_equal.
    + rewrite IH.
      * cbn [fold_left]. unfold decimal_step at 2.
        rewrite digit_char_value by (apply Z.mod_pos_bound; lia).
        f_equal. pose proof (Z.div_mod n 10). lia.
      * rewrite Nat2Z.inj_succ, Z.pow_succ_r in Hn by lia.
        split; [apply Z.div_pos; lia | apply Z.div_lt_upper_bound; lia].
Qed.

Lemma digits_from_digits fuel : forall n acc,
  0 <= n -> Forall (fun c => is_digit c = true) acc ->
  Forall (fun c => is_digit c = true) (digits_from fuel n acc).
Proof.
  induction fuel as [|fuel IH]; intros n acc Hn Hacc; cbn [digits_from]; auto.
  assert (Hd : is_digit (digit_char (n mod 10)) = true)
    by (apply digit_char_is_digit, Z.mod_pos_bound; lia).
  destruct (n <? 10); [constructor; auto|].
  apply IH; [apply Z.div_pos; lia | constructor; auto].
Qed.

Lemma digits_from_length fuel : forall n acc k,
  0 <= n < 10 ^ Z.of_nat (S k) ->
  (length (digits_from fuel n acc) <= S k + length acc)%nat.
Proof.
  induction fuel as [|fuel IH]; intros n acc k Hn; cbn [digits_from]; [lia|].
  destruct (Z.ltb_spec n 10) as [Hlt|Hge]; [simpl; lia|].
  destruct k as [|k]; [simpl in Hn; lia|].
  specialize (IH (n / 10) (digit_char (n mod 10) :: acc) k).
  cbn [length] in IH. rewrite Nat.add_succ_r in IH. apply IH.
  rewrite Nat2Z.inj_succ, Z.pow_succ_r in Hn by lia.
  split; [apply Z.div_pos; lia | apply Z.div_lt_upper_bound; lia].
Qed.

Lemma digits_from_head fuel : forall n acc,
  0 < n < 10 ^ Z.of_nat fuel ->
  hd 48%N (digits_from fuel n acc) <> 48%N.
Proof.
  induction fuel as [|fuel IH]; intros n acc Hn.
  - simpl in Hn. lia.
  - cbn [digits_from]. destruct (Z.ltb_spec n 10) as [Hlt|Hge].
    + cbn [hd]. rewrite Z.mod_small by lia. unfold digit_char. lia.
    + apply IH. rewrite Nat2Z.inj_succ, Z.pow_succ_r in Hn by lia.
      split; [apply Z.div_str_pos; lia | apply Z.div_lt_upper_bound; lia].
Qed.

Lemma digits_from_nonempty fuel n acc :
  digits_from (S fuel) n acc <> [].
Proof.
  revert n acc. induction fuel as [|fuel IH]; intros n acc; cbn [digits_from].
  - destruct (n <? 10); discriminate.
  - destruct (n <? 10); [discriminate|]. apply (IH (n / 10)).
Qed.

Lemma fuel_enough n : 0 <= n -> n < 10 ^ Z.of_nat (S (Z.to_nat (Z.log2 n))).
Proof.
  intros Hn. destruct (Z.eq_dec n 0) as [->|Hz]; [reflexivity|].
  pose proof (Z.log2_nonneg n) as Hl.
  rewrite Nat2Z.inj_succ, Z2Nat.id by lia.
  destruct (Z.log2_spec n ltac:(lia)) as [_ Hlt].
  eapply Z.lt_le_trans; [exact Hlt|].
  apply Z.pow_le_mono_l. lia.
Qed.

Lemma decimal_value_fold s : decimal_value s = fold_left decimal_step s 0.
Proof. reflexivity. Qed.

Lemma str_nonneg_decimal n : 0 <= n -> decimal_of n (str_nonneg n).
Proof.
  intros Hn. unfold decimal_of, str_nonneg. repeat split.
  - apply digits_from_nonempty.
  - apply digits_from_digits; auto.
  - rewrite decimal_value_fold, digits_from_value; [reflexivity|].
    split; [lia | apply fuel_enough; lia].
  - intros Hhd. destruct (Z.eq_dec n 0) as [->|Hz]; [reflexivity|].
    exfalso. revert Hhd. apply digits_from_head.
    split; [lia | apply fuel_enough; lia].
Qed.

Lemma str_nonneg_length n k :
  0 <= n < 10 ^ Z.of_nat (S k) -> (length (str_nonneg n) <= S k)%nat.
Proof.
  intros Hn. unfold str_nonneg.
  pose proof (digits_from_length (S (Z.to_nat (Z.log2 n))) n [] k Hn) as H.
  simpl length in H at 2. lia.
Qed.

Lemma str_nonneg_digit d : 0 <= d < 10 -> str_nonneg d = [digit_char d].
Proof.
  intros Hd. assert (H : d = 0 \/ d = 1 \/ d = 2 \/ d = 3 \/ d = 4 \/ d = 5
    \/ d = 6 \/ d = 7 \/ d = 8 \/ d = 9) by lia.
  repeat (destruct H as [->|H]; [reflexivity|]). subst. reflexivity.
Qed.

End PyStrFacts.

Module PyFloatFacts.
Import PyFloat.

Lemma round_half_even_bounds a b :
  0 <= a -> 0 < b ->
  0 <= round_half_even a b /\ - b <= 2 * (round_half_even a b * b - a) <= b.
Proof.
  intros Ha Hb. unfold round_half_even.
  pose proof (Z.div_mod a b ltac:(lia)) as Hdm.
  pose proof (Z.mod_pos_bound a b Hb) as Hr.
  pose proof (Z.div_pos a b Ha Hb) as Hq.
  destruct (Z.ltb_spec (2 * (a mod b)) b); [nia|].
  destruct (Z.ltb_spec b (2 * (a mod b))); [nia|].
  destruct (Z.even (a / b)); nia.
Qed.

Lemma round_half_even_exact a b :
  0 < b -> a mod b = 0 -> round_half_even a b = a / b.
Proof.
  intros Hb Hm. unfold round_half_even. rewrite Hm.
  destruct (Z.ltb_spec (2 * 0) b); [reflexivity | lia].
Qed.

(** The exponent chosen for a quotient that is at least 1. *)
Lemma floor_log2_ratio_ge1 a b :
  0 < b <= a ->
  0 <= floor_log2_ratio a b
  /\ b * 2 ^ floor_log2_ratio a b <= a < b * 2 ^ (floor_log2_ratio a b + 1).
Proof.
  intros [Hb Hab].
  destruct (Z.log2_spec a ltac:(lia)) as [Ha1 Ha2].
  destruct (Z.log2_spec b Hb) as [Hb1 Hb2].
  pose proof (Z.log2_le_mono b a Hab) as Hmono.
  pose proof (Z.log2_nonneg b) as Hlb.
  unfold floor_log2_ratio.
  set (l := Z.log2 a - Z.log2 b) in *.
  assert (Hl : 0 <= l) by (subst l; lia).
  assert (Hsplit : 2 ^ Z.log2 a = 2 ^ l * 2 ^ Z.log2 b).
  { rewrite <- Z.pow_add_r by lia. f_equal. subst l. lia. }
  assert (Hpl : 0 < 2 ^ l) by (apply Z.pow_pos_nonneg; lia).
  assert (Hupper : a < b * 2 ^ (l + 1)).
  { rewrite Z.pow_succ_r in Ha2 by lia. rewrite Z.pow_add_r, Z.pow_1_r by lia. nia. }
  destruct (Z.leb_spec 0 l) as [_|]; [|lia].
  destruct (Z.ltb_spec a (b * 2 ^ l)) as [Hlt|Hge].
  - assert (Hl1 : 1 <= l).
    { destruct (Z.eq_dec l 0) as [E|]; [|lia]. rewrite E in Hlt. simpl in Hlt. lia. }
    replace (l - 1 + 1) with l by lia.
    split; [lia|]. split; [|lia].
    assert (E2 : 2 ^ l = 2 * 2 ^ (l - 1)).
    { rewrite <- Z.pow_succ_r by lia. f_equal. lia. }
    rewrite Z.pow_succ_r in Hb2 by lia. nia.
  - split; [lia|]. split; lia.
Qed.

End PyFloatFacts.

Module MainFacts.
Import PyStrFacts PyFloatFacts PyFloat Main.

Lemma true_div_10000 n :
  10000 <= n < 10000 * 2 ^ 40 ->
  exists m k, 13 <= k <= 52 /\ true_div n 10000 = Some (Finite m (- k))
    /\ 0 <= m /\ - 10000 <= 2 * (m * 10000 - n * 2 ^ k) <= 10000.
Proof.
  intros Hn.
  destruct (floor_log2_ratio_ge1 n 10000 ltac:(lia)) as (Hl0 & Hlo & Hhi).
  set (l := floor_log2_ratio n 10000) in *.
  assert (Hl : l < 40).
  { apply (Z.pow_lt_mono_r_iff 2); lia. }
  exists (round_half_even (n * 2 ^ (52 - l)) 10000), (52 - l).
  assert (Hp : 0 < 2 ^ (52 - l)) by (apply Z.pow_pos_nonneg; lia).
  pose proof (round_half_even_bounds (n * 2 ^ (52 - l)) 10000 ltac:(nia) ltac:(lia))
    as [Hm0 Hm].
  split; [lia|]. split; [|split; [exact Hm0 | exact Hm]].
  unfold true_div, round_ratio. fold l.
  destruct (Z.eqb_spec n 0) as [|_]; [lia|].
  rewrite Z.max_l by lia.
  destruct (Z.leb_spec 0 (l - 52)) as [|_]; [lia|].
  replace (- (l - 52)) with (52 - l) by lia.
  set (m := round_half_even (n * 2 ^ (52 - l)) 10000) in *.
  assert (Hm53 : m <= 2 ^ 53).
  { assert (E : 2 ^ (l + 1) * 2 ^ (52 - l) = 2 ^ 53).
    { rewrite <- Z.pow_add_r by lia. f_equal. lia. }
    assert (n * 2 ^ (52 - l) < 10000 * 2 ^ 53) by nia.
    lia. }
  destruct (Z.leb_spec (2 ^ (1024 - (l - 52))) m) as [Hov|_].
  - exfalso. assert (2 ^ 54 <= 2 ^ (1024 - (l - 52))) by (apply Z.pow_le_mono_r; lia).
    assert (2 ^ 53 < 2 ^ 54) by (apply Z.pow_lt_mono_r; lia). lia.
  - replace (l - 52) with (- (52 - l)) by lia. reflexivity.
Qed.

Section WithRuntime.
Context (rt : runtime).

(** C3, as amended.  For an integer count [0 <= n < 10000],
    [format_number] returns the decimal numeral of [n].  For
    [10000 <= n < 10000 * 2^40] it returns [n / 10000] with one decimal,
    rounded to a nearest tenth, followed by the unit.  Beyond that bound
    the binary64 quotient is too coarse for the tenth shown to be a
    nearest one. *)
Theorem format_number_int (n : Z) :
  (0 <= n < 10000 ->
     exists s, @format_number rt (JInt n) = Ret s /\ decimal_of n s)
  /\ (10000 <= n < 10000 * 2 ^ 40 ->
     exists s, @format_number rt (JInt n) = Ret s /\ wan_rendering n s).
Proof.
  split; intros Hn.
  - exists (str_nonneg n). split.
    + cbn [format_number]. destruct (Z.leb_spec 10000 n) as [|_]; [lia|].
      unfold str_int. destruct (Z.ltb_spec n 0) as [|_]; [lia|]. reflexivity.
    + apply str_nonneg_decimal. lia.
  - destruct (true_div_10000 n Hn) as (m & k & Hk & Hdiv & Hm0 & Hm).
    assert (Hp : 8192 <= 2 ^ k).
    { change 8192 with (2 ^ 13). apply Z.pow_le_mono_r; lia. }
    pose proof (round_half_even_bounds (10 * m) (2 ^ k) ltac:(lia) ltac:(lia))
      as [Hq0 Hq].
    set (q := round_half_even (10 * m) (2 ^ k)) in *.
    exists (str_nonneg (q / 10) ++ lit "." ++ [digit_char (q mod 10)] ++ WAN).
    split.
    + cbn [format_number]. destruct (Z.leb_spec 10000 n) as [_|]; [|lia].
      rewrite Hdiv. cbn [format_f]. unfold scaled.
      destruct (Z.leb_spec 0 (- k)) as [|_]; [lia|].
      rewrite Z.opp_involutive. change (10 ^ Z.of_nat 1) with 10. fold q.
      unfold fixed_text. change (10 ^ Z.of_nat 1) with 10.
      rewrite (str_nonneg_digit (q mod 10)) by (apply Z.mod_pos_bound; lia).
      rewrite <- !app_assoc. reflexivity.
    + exists q, (str_nonneg (q / 10)). split; [reflexivity|].
      split; [exact Hq0|]. split.
      * apply str_nonneg_decimal, Z.div_pos; lia.
      * apply Z.abs_le. nia.
Qed.

End WithRuntime.

(** The two cases at 1234 and at 12345. *)
Lemma format_number_int_witness :
  (exists s, @format_number no_floats (JInt 1234) = Ret s /\ decimal_of 1234 s)
  /\ (exists s, @format_number no_floats (JInt 12345) = Ret s /\ wan_rendering 12345 s).
Proof.
  split.
  - apply (proj1 (format_number_int no_floats 1234)). lia.
  - apply (proj2 (format_number_int no_floats 12345)). lia.
Defined.

(** C3 fails as stated, for every integer from 10000 on: the count
    10995116277762501 is shown as 1099511627776.2 although the quotient,
    1099511627776.2501, is nearer to 1099511627776.3. *)
Lemma format_number_int_not_nearest :
  exists s, @format_number no_floats (JInt 10995116277762501) = Ret s
    /\ ~ wan_rendering 10995116277762501 s.
Proof.
  exists (lit "1099511627776.2" ++ WAN). split; [vm_compute; reflexivity|].
  intros (q & ip & Heq & Hq0 & (_ & _ & Hval & _) & Habs).
  assert (E : lit "1099511627776.2" = lit "1099511627776" ++ lit "." ++ [50%N])
    by reflexivity.
  rewrite E in Heq. repeat rewrite app_assoc in Heq.
  apply app_inv_tail in Heq. apply app_inj_tail in Heq as [Heq Hd].
  apply app_inv_tail in Heq. subst ip.
  change (decimal_value (lit "1099511627776")) with 1099511627776 in Hval.
  pose proof (Z.mod_pos_bound q 10 ltac:(lia)) as Hmod.
  unfold digit_char in Hd. apply (f_equal Z.of_N) in Hd.
  rewrite Z2N.id in Hd by lia.
  pose proof (Z.div_mod q 10 ltac:(lia)) as Hdm.
  lia.
Qed.

(** A quotient beyond the range of binary64 raises [OverflowError]. *)
Lemma format_number_int_overflow :
  @format_number no_floats (JInt (10 ^ 313))
  = Raise (Exn OverflowError (lit "integer division result too large for a float")).
Proof. vm_compute. reflexivity. Qed.

End MainFacts.

Import Main.

(** ** Occurrences in sequences, and the resolution of a short link *)

Module PySeqFacts.
Section Seq.
Context {A : Type} (eqb : A -> A -> bool).
Hypothesis eqb_eq : forall a b, eqb a b = true <-> a = b.

Lemma startswith_iff (p s : list A) :
  PySeq.startswith eqb p s = true <-> exists r, s = p ++ r.
Proof.
  revert s. induction p as [|a p IH]; intros s.
  - simpl. split; [exists s; reflexivity | reflexivity].
  - destruct s as [|b s]; simpl.
    + split; [discriminate | intros [r Hr]; discriminate].
    + rewrite andb_true_iff, eqb_eq, IH. split.
      * intros [-> [r ->]]. exists r. reflexivity.
      * intros [r Hr]. injection Hr as -> ->. split; [reflexivity | exists r; reflexivity].
Qed.

Lemma startswith_app (p r : list A) : PySeq.startswith eqb p (p ++ r) = true.
Proof. apply startswith_iff. exists r. reflexivity. Qed.

(** [find_opt] returns the offset of an occurrence, and the first one. *)
Lemma find_opt_some (p s : list A) (i : nat) :
  PySeq.find_opt eqb p s = Some i ->
  PySeq.startswith eqb p (skipn i s) = true
  /\ (i <= length s)%nat
  /\ forall j, (j < i)%nat -> PySeq.startswith eqb p (skipn j s) = false.
Proof.
  revert i. induction s as [|c s IH]; intros i.
  - simpl. destruct (PySeq.startswith eqb p []) eqn:E; [|discriminate].
    intros [= <-]. simpl. split; [exact E|]. split; [lia|]. intros j Hj. lia.
  - cbn [PySeq.find_opt]. destruct (PySeq.startswith eqb p (c :: s)) eqn:E.
    + intros [= <-]. split; [exact E|]. split; [simpl; lia|]. intros j Hj. lia.
    + destruct (PySeq.find_opt eqb p s) as [k|] eqn:Ek; [|discriminate].
      intros [= <-]. destruct (IH k eq_refl) as (H1 & H2 & H3).
      split; [exact H1|]. split; [simpl; lia|].
      intros [|j] Hj; [exact E | apply H3; lia].
Qed.

Lemma find_opt_none (p s : list A) :
  PySeq.find_opt eqb p s = None ->
  forall j, PySeq.startswith eqb p (skipn j s) = false.
Proof.
  induction s as [|c s IH]; cbn [PySeq.find_opt].
  - destruct (PySeq.startswith eqb p []) eqn:E; [discriminate|].
    intros _ [|j]; exact E.
  - destruct (PySeq.startswith eqb p (c :: s)) eqn:E; [discriminate|].
    destruct (PySeq.find_opt eqb p s); [discriminate|].
    intros _ [|j]; [exact E | apply IH; reflexivity].
Qed.

(** An occurrence that no earlier one precedes is the one found. *)
Lemma find_opt_first (p s : list A) (i : nat) :
  PySeq.startswith eqb p (skipn i s) = true ->
  (i <= length s)%nat ->
  (forall j, (j < i)%nat -> PySeq.startswith eqb p (skipn j s) = false) ->
  PySeq.find_opt eqb p s = Some i.
Proof.
  revert i. induction s as [|c s IH]; intros i Hi Hlen Hno.
  - assert (i = O) by (simpl in Hlen; lia). subst. simpl in *. rewrite Hi. reflexivity.
  - cbn [PySeq.find_opt]. destruct i as [|i].
    + simpl in Hi. rewrite Hi. reflexivity.
    + pose proof (Hno O ltac:(lia)) as H0. simpl in H0. rewrite H0.
      rewrite (IH i); [reflexivity | exact Hi | simpl in Hlen; lia |].
      intros j Hj. apply (Hno (S j)). lia.
Qed.

Lemma contains_app (p a b : list A) : PySeq.contains eqb p (a ++ p ++ b) = true.
Proof.
  unfold PySeq.contains.
  destruct (PySeq.find_opt eqb p (a ++ p ++ b)) eqn:E; [reflexivity|].
  pose proof (find_opt_none _ _ E (length a)) as H.
  rewrite skipn_app, skipn_all, Nat.sub_diag in H. simpl in H.
  rewrite startswith_app in H. discriminate.
Qed.

Lemma contains_iff (p s : list A) :
  PySeq.contains eqb p s = true <-> exists a b, s = a ++ p ++ b.
Proof.
  split.
  - unfold PySeq.contains. destruct (PySeq.find_opt eqb p s) as [i|] eqn:E; [|discriminate].
    intros _. destruct (find_opt_some _ _ _ E) as (H & _ & _).
    apply startswith_iff in H as [r Hr].
    exists (firstn i s), r. rewrite <- Hr. symmetry. apply firstn_skipn.
  - intros (a & b & ->). apply contains_app.
Qed.

End Seq.
End PySeqFacts.

Module PyStrEq.

Lemma Neqb_eq : forall a b : N, N.eqb a b = true <-> a = b.
Proof. exact N.eqb_eq. Qed.

Lemma str_eqb_eq a b : str_eqb a b = true <-> a = b.
Proof.
  unfold str_eqb. rewrite andb_true_iff, Nat.eqb_eq. split.
  - intros [Hl Hs]. apply (PySeqFacts.startswith_iff N.eqb Neqb_eq) in Hs as [r ->].
    rewrite length_app in Hl. destruct r; [symmetry; apply app_nil_r | simpl in Hl; lia].
  - intros ->. split; [reflexivity|].
    apply (PySeqFacts.startswith_iff N.eqb Neqb_eq). exists []. symmetry. apply app_nil_r.
Qed.

Lemma str_contains_app p a b : contains p (a ++ p ++ b) = true.
Proof. apply (PySeqFacts.contains_app N.eqb Neqb_eq). Qed.

End PyStrEq.

Module ResolveFacts.
Import PyStrEq.

Lemma clean_location_before_query location :
  (if negb (find (lit "?") location =? -1)
   then PySeq.slice_to location (find (lit "?") location) else location)
  = before_query location.
Proof.
  unfold find, PySeq.find, before_query.
  induction location as [|c l IH].
  - reflexivity.
  - cbn [PySeq.find_opt PySeq.take_while].
    change (PySeq.startswith N.eqb (lit "?") (c :: l)) with ((63 =? c)%N && true).
    rewrite andb_true_r, N.eqb_sym.
    destruct (N.eqb_spec c 63) as [->|Hc]; [reflexivity|]. cbn [negb].
    destruct (PySeq.find_opt N.eqb (lit "?") l) as [i|]; cbn [option_map].
    + replace (negb (Z.of_nat (S i) =? -1)) with true
        by (symmetry; apply negb_true_iff, Z.eqb_neq; lia).
      replace (negb (Z.of_nat i =? -1)) with true in IH
        by (symmetry; apply negb_true_iff, Z.eqb_neq; lia).
      unfold PySeq.slice_to in *. rewrite Nat2Z.id in *. cbn [firstn]. rewrite IH. reflexivity.
    + change (negb (-1 =? -1)) with false in *. cbn iota in *. rewrite <- IH. reflexivity.
Qed.

Lemma drop_final_slash s :
  (if endswith (lit "/") s then PySeq.drop_last s else s) = without_final_slash s.
Proof.
  unfold endswith, PySeq.endswith, without_final_slash, PySeq.drop_last.
  destruct s as [|c s] using rev_ind; [reflexivity|].
  rewrite rev_app_distr. cbn [rev app].
  change (rev (lit "/")) with [47%N].
  change (PySeq.startswith N.eqb [47%N] (c :: rev s)) with ((47 =? c)%N && true).
  rewrite andb_true_r, removelast_last.
  destruct (N.eqb_spec 47 c) as [<-|Hc].
  - rewrite rev_involutive. reflexivity.
  - destruct c as [|p]; [reflexivity|].
    do 6 (destruct p as [p|p|]; try reflexivity). congruence.
Qed.

Lemma clean_location_spec location :
  clean_location location = without_final_slash (before_query location).
Proof.
  unfold clean_location. cbv zeta.
  rewrite clean_location_before_query. apply drop_final_slash.
Qed.

Section WithRuntime.
Context (rt : runtime).

(** C6, as amended.  For a link whose request target contains the short
    domain, [resolve_b23_url] sends one request, with redirects disabled.
    On status 301 or 302 with a Location header that is not empty it
    returns the header's value cut at the first question mark and without
    one final slash; on another status, a Location header that is missing
    or empty, or a network error, it returns [None]. *)
Theorem resolve_b23_url_spec (w : world rt) (short_url_input : pystr) (st : state) :
  contains (lit "b23.tv/") (target_of short_url_input) = true ->
  let request := short_link_request (target_of short_url_input) in
  let run := resolve_b23_url w short_url_input st in
  sent (snd run) = sent st ++ [request]
  /\ (forall resp location,
        w request = inr resp ->
        status_code resp = 301 \/ status_code resp = 302 ->
        headers_Location resp = Some location -> location <> [] ->
        fst run = Ret (Some (without_final_slash (before_query location))))
  /\ (forall resp,
        w request = inr resp ->
        (status_code resp <> 301 /\ status_code resp <> 302)
        \/ headers_Location resp = None \/ headers_Location resp = Some [] ->
        fst run = Ret None)
  /\ (forall msg, w request = inl msg -> fst run = Ret None).
Proof.
  intros Hb23 request run. subst run. unfold resolve_b23_url. cbv zeta.
  rewrite Hb23. cbn [negb]. fold request.
  unfold bind, try, requests_get.
  destruct (w request) as [msg|resp] eqn:Hw.
  - cbn. repeat split; intros; try discriminate; reflexivity.
  - destruct ((status_code resp =? 301) || (status_code resp =? 302)) eqn:Hs.
    + destruct (headers_Location resp) as [[|c l]|] eqn:Hl; cbn.
      * repeat split; intros; try discriminate; try reflexivity.
        match goal with H : inr _ = inr _ |- _ => injection H as <- end. congruence.
      * repeat split; intros; try discriminate.
        -- match goal with H : inr _ = inr _ |- _ => injection H as <- end.
           rewrite clean_location_spec. congruence.
        -- match goal with H : inr _ = inr _ |- _ => injection H as <- end.
           apply orb_true_iff in Hs. rewrite !Z.eqb_eq in Hs.
           destruct H0 as [[? ?]|[?|?]]; [lia | congruence | congruence].
      * repeat split; intros; try discriminate; try reflexivity.
        match goal with H : inr _ = inr _ |- _ => injection H as <- end. congruence.
    + cbn. apply orb_false_iff in Hs. rewrite !Z.eqb_neq in Hs.
      repeat split; intros; try discriminate; try reflexivity.
      match goal with H : inr _ = inr _ |- _ => injection H as <- end. lia.
Qed.

End WithRuntime.
End ResolveFacts.

(** ** The id pattern and step 1 of [parse_bili] *)

Module RegexFacts.
Import PyStrEq.

Lemma take_while_split (f : N -> bool) (s : pystr) :
  exists rest, s = PySeq.take_while f s ++ rest
    /\ forallb f (PySeq.take_while f s) = true
    /\ match rest with c :: _ => f c = false | [] => True end.
Proof.
  induction s as [|c s (rest & Hs & Hall & Hrest)]; [exists []; auto|].
  cbn [PySeq.take_while]. destruct (f c) eqn:E.
  - exists rest. cbn [app forallb]. rewrite E, Hall. split; [congruence | auto].
  - exists (c :: s). auto.
Qed.

Lemma str_startswith_iff p s : startswith p s = true <-> exists r, s = p ++ r.
Proof. apply (PySeqFacts.startswith_iff N.eqb Neqb_eq). Qed.

(** What [re.search] finds: the leftmost [BV] that an alphanumeric
    character follows, with all the alphanumeric characters after it. *)
Lemma re_search_bv_some s id :
  re_search_bv s = Some id ->
  exists pre suf rest,
    s = pre ++ id ++ rest /\ id = lit "BV" ++ suf
    /\ suf <> [] /\ forallb is_alnum suf = true
    /\ match rest with c :: _ => is_alnum c = false | [] => True end
    /\ forall pre' c rest', s = pre' ++ lit "BV" ++ c :: rest' ->
         is_alnum c = true -> (length pre <= length pre')%nat.
Proof.
  induction s as [|c0 s IH]; [discriminate|].
  cbn [re_search_bv].
  set (tw := PySeq.take_while is_alnum (skipn 2 (c0 :: s))).
  destruct (startswith (lit "BV") (c0 :: s) && negb (Nat.eqb (length tw) 0)) eqn:E.
  - intros Hid. apply (f_equal (fun o => match o with Some x => x | None => [] end)) in Hid.
    cbv beta iota in Hid. subst id. apply andb_true_iff in E as [Hsw Hne].
    apply str_startswith_iff in Hsw as [r Hr]. subst tw. rewrite Hr in *.
    change (skipn 2 (lit "BV" ++ r)) with r in *.
    destruct (take_while_split is_alnum r) as (rest & Hsplit & Hall & Hrest).
    exists [], (PySeq.take_while is_alnum r), rest.
    split; [rewrite <- app_assoc; apply (f_equal (app (lit "BV"))); exact Hsplit|].
    split; [reflexivity|]. split.
    + intros Hnil. rewrite Hnil in Hne. discriminate.
    + split; [exact Hall|]. split; [exact Hrest|]. intros; simpl; lia.
  - intros Hrec. destruct (IH Hrec) as (pre & suf & rest & Hs & Hid & Hsuf & Hall & Hrest & Hleft).
    exists (c0 :: pre), suf, rest. split; [cbn [app]; f_equal; exact Hs|].
    split; [exact Hid|]. split; [exact Hsuf|]. split; [exact Hall|]. split; [exact Hrest|].
    intros pre' c rest' Hocc Hc. destruct pre' as [|c1 pre'].
    + exfalso. subst tw. change ([] ++ lit "BV" ++ c :: rest') with (lit "BV" ++ c :: rest') in Hocc.
      rewrite Hocc in E.
      change (startswith (lit "BV") (lit "BV" ++ c :: rest')) with true in E.
      change (skipn 2 (lit "BV" ++ c :: rest')) with (c :: rest') in E.
      cbn [PySeq.take_while] in E. rewrite Hc in E. discriminate.
    + change ((c1 :: pre') ++ lit "BV" ++ c :: rest')
        with (c1 :: (pre' ++ lit "BV" ++ c :: rest')) in Hocc.
      injection Hocc as -> Hocc.
      cbn [length]. apply le_n_S. exact (Hleft pre' c rest' Hocc Hc).
Qed.

Lemma re_search_bv_none s :
  re_search_bv s = None ->
  forall pre c rest, s = pre ++ lit "BV" ++ c :: rest -> is_alnum c = false.
Proof.
  induction s as [|c0 s IH]; intros Hnone pre c rest Hocc.
  - destruct pre; discriminate.
  - cbn [re_search_bv] in Hnone.
    destruct (startswith (lit "BV") (c0 :: s)
              && negb (Nat.eqb (length (PySeq.take_while is_alnum (skipn 2 (c0 :: s)))) 0)) eqn:E;
      [discriminate|].
    destruct pre as [|c1 pre].
    + change ([] ++ lit "BV" ++ c :: rest) with (lit "BV" ++ c :: rest) in Hocc. rewrite Hocc in E.
      change (startswith (lit "BV") (lit "BV" ++ c :: rest)) with true in E.
      change (skipn 2 (lit "BV" ++ c :: rest)) with (c :: rest) in E.
      cbn [PySeq.take_while] in E. destruct (is_alnum c); [discriminate | reflexivity].
    + change ((c1 :: pre) ++ lit "BV" ++ c :: rest)
        with (c1 :: (pre ++ lit "BV" ++ c :: rest)) in Hocc.
      injection Hocc as -> Hocc. exact (IH Hnone pre c rest Hocc).
Qed.

End RegexFacts.

Module ShortLinkFacts.
Import PyStrEq RegexFacts.

Lemma potential_b23_url_contains url_input :
  contains (lit "b23.tv/") (potential_b23_url url_input) = true.
Proof.
  unfold potential_b23_url.
  destruct (contains (lit "b23.tv/") url_input) eqn:E; cbn [negb]; [exact E|].
  change (lit "https://b23.tv/" ++ url_input)
    with (lit "https://" ++ lit "b23.tv/" ++ url_input).
  apply str_contains_app.
Qed.

Lemma contains_suffix p a : contains p (a ++ p) = true.
Proof. pose proof (str_contains_app p a []) as H. rewrite app_nil_r in H. exact H. Qed.

Lemma contains_input_in_resolve_error url_input :
  contains url_input
    (lit "Error: Failed to resolve b23.tv short link: " ++ potential_b23_url url_input)
  = true.
Proof.
  unfold potential_b23_url. destruct (negb (contains (lit "b23.tv/") url_input)).
  - rewrite app_assoc. apply contains_suffix.
  - apply contains_suffix.
Qed.

Section WithRuntime.
Context (rt : runtime) (w : world rt).

Lemma resolve_b23_url_returns short_url_input st :
  exists r st', resolve_b23_url w short_url_input st = (Ret r, st')
    /\ (sent st' = sent st
        \/ sent st' = sent st ++ [short_link_request (target_of short_url_input)]).
Proof.
  unfold resolve_b23_url. cbv zeta.
  destruct (negb (contains (lit "b23.tv/") (target_of short_url_input))).
  - eexists _, _. split; [reflexivity | left; reflexivity].
  - unfold bind, try, requests_get.
    destruct (w (short_link_request (target_of short_url_input))) as [msg|resp].
    + eexists _, _. split; [reflexivity | right; reflexivity].
    + destruct ((status_code resp =? 301) || (status_code resp =? 302)).
      * destruct (headers_Location resp) as [[|c l]|];
          (eexists _, _; split; [reflexivity | right; reflexivity]).
      * eexists _, _. split; [reflexivity | right; reflexivity].
Qed.

(** Step 1 returns, having sent at most the short-link request; the error
    it may return is the resolution error. *)
Lemma resolve_step_returns url_input st :
  exists r st', resolve_step w url_input st = (Ret r, st')
    /\ (sent st' = sent st
        \/ sent st' = sent st
             ++ [short_link_request (target_of (potential_b23_url url_input))])
    /\ (forall e, r = inl e ->
          e = lit "Error: Failed to resolve b23.tv short link: "
              ++ potential_b23_url url_input).
Proof.
  unfold resolve_step. destruct (looks_like_short_link url_input).
  - cbv zeta. unfold bind at 1. unfold print at 1. unfold bind at 1.
    set (st1 := State _ _).
    destruct (resolve_b23_url_returns (potential_b23_url url_input) st1)
      as (r & st2 & Hr & Hsent).
    rewrite Hr. change (sent st1) with (sent st) in Hsent.
    destruct r as [[|c l]|].
    + rewrite potential_b23_url_contains. eexists _, _.
      split; [reflexivity|]. split; [exact Hsent|]. intros e [= <-]. reflexivity.
    + eexists _, _. split; [reflexivity|]. split; [exact Hsent|]. intros e [=].
    + rewrite potential_b23_url_contains. eexists _, _.
      split; [reflexivity|]. split; [exact Hsent|]. intros e [= <-]. reflexivity.
  - eexists _, _. split; [reflexivity|]. split; [left; reflexivity|]. intros e [=].
Qed.

End WithRuntime.
End ShortLinkFacts.

(** ** [parse_bili] *)

Module MonadFacts.

Lemma bind_ret_inv {A B} (c : M A) (k : A -> M B) st b st' :
  bind c k st = (Ret b, st') ->
  exists a st1, c st = (Ret a, st1) /\ k a st1 = (Ret b, st').
Proof.
  unfold bind. destruct (c st) as [[a|e] st1]; [|discriminate].
  intros H. exists a, st1. split; [reflexivity | exact H].
Qed.

Lemma bind_ret {A B} (c : M A) (k : A -> M B) st a st1 :
  c st = (Ret a, st1) -> bind c k st = k a st1.
Proof. intros H. unfold bind. rewrite H. reflexivity. Qed.

Lemma bind_raise {A B} (c : M A) (k : A -> M B) st e st1 :
  c st = (Raise e, st1) -> bind c k st = (Raise e, st1).
Proof. intros H. unfold bind. rewrite H. reflexivity. Qed.

Lemma lift_ret_inv {A} (r : result A) st a st' :
  lift r st = (Ret a, st') -> r = Ret a /\ st' = st.
Proof. unfold lift. intros [= -> ->]. split; reflexivity. Qed.

Lemma bind_lift {A B} (r : result A) (k : A -> M B) st :
  bind (lift r) k st
  = match r with Ret a => k a st | Raise e => (Raise e, st) end.
Proof. unfold bind, lift. destruct r; reflexivity. Qed.

End MonadFacts.

Module ParseBiliFacts.
Import PyStrEq RegexFacts ShortLinkFacts MonadFacts MainFacts.

Section WithRuntime.
Context (rt : runtime) (w : world rt).

Abbreviation json := (Py.json (pyfloat rt)).

(** The text of a count is the zero sentinel exactly for the count 0, and
    never the sentinel of an unknown count. *)
Lemma format_number_int_nonzero (n : Z) (s : pystr) :
  @format_number rt (JInt n) = Ret s -> not_in_NA_0 s = negb (n =? 0).
Proof.
  cbn [format_number]. unfold not_in_NA_0.
  destruct (Z.leb_spec 10000 n) as [Hbig|Hsmall].
  - destruct (PyFloat.true_div n 10000) as [x|]; [|discriminate].
    intros [= <-]. replace (n =? 0) with false by (symmetry; apply Z.eqb_neq; lia).
    cbn [negb]. apply negb_true_iff, orb_false_iff.
    split; apply not_true_iff_false; rewrite str_eqb_eq; intros H;
      apply (f_equal (fun l => hd 0%N (rev l))) in H;
      rewrite rev_app_distr in H; discriminate H.
  - intros [= <-]. unfold str_int. destruct (Z.ltb_spec n 0) as [Hneg|Hpos].
    + replace (n =? 0) with false by (symmetry; apply Z.eqb_neq; lia).
      cbn [negb]. apply negb_true_iff, orb_false_iff.
      split; apply not_true_iff_false; rewrite str_eqb_eq; intros H; discriminate H.
    + destruct (PyStrFacts.str_nonneg_decimal n Hpos) as (_ & Hdig & Hval & _).
      destruct (Z.eqb_spec n 0) as [->|Hn]; [reflexivity|].
      cbn [negb]. apply negb_true_iff, orb_false_iff.
      split; apply not_true_iff_false; rewrite str_eqb_eq; intros H; rewrite H in *.
      * inversion Hdig as [|? ? Hd _]. discriminate Hd.
      * compute in Hval. congruence.
Qed.

(** Steps 2 to 4 return: every exception of step 3 ends in a string. *)
Lemma parse_resolved_returns url_input processed_url st :
  exists r st', parse_resolved w url_input processed_url st = (Ret r, st')
    /\ ((exists s, r = RStr s)
        \/ (exists t1 img t2, r = RTuple [Text t1; Image img; Text t2])).
Proof.
  unfold parse_resolved.
  destruct (extract_bvid_from_url processed_url) as [bvid|].
  - unfold bind at 1. unfold print at 1. unfold bind, try.
    destruct (fetch_video_info w (initial_video_info bvid) _) as [[vi|e] st2].
    + eexists _, _. split; [reflexivity|]. right.
      unfold format_output. eauto.
    + eexists _, _. split; [reflexivity|]. left. eauto.
  - eexists _, _. split; [reflexivity|]. left. eauto.
Qed.

Lemma parse_resolved_raise url_input processed_url bvid st e st2 :
  extract_bvid_from_url processed_url = Some bvid ->
  fetch_video_info w (initial_video_info bvid)
    (snd (print (lit "Extracted BVID: " ++ bvid) st)) = (Raise e, st2) ->
  parse_resolved w url_input processed_url st = (Ret (RStr (handle e)), st2).
Proof.
  intros He Hf. unfold parse_resolved. rewrite He.
  unfold bind at 1. unfold print at 1. unfold print in Hf. cbn [snd] in Hf.
  unfold bind, try. rewrite Hf. reflexivity.
Qed.

Lemma parse_resolved_ret url_input processed_url bvid st vi st2 :
  extract_bvid_from_url processed_url = Some bvid ->
  fetch_video_info w (initial_video_info bvid)
    (snd (print (lit "Extracted BVID: " ++ bvid) st)) = (Ret vi, st2) ->
  parse_resolved w url_input processed_url st
  = (Ret (RTuple (format_output vi)), st2).
Proof.
  intros He Hf. unfold parse_resolved. rewrite He.
  unfold bind at 1. unfold print at 1. unfold print in Hf. cbn [snd] in Hf.
  unfold bind, try. rewrite Hf. reflexivity.
Qed.

Lemma parse_bili_step url_input st r st1 :
  resolve_step w url_input st = (Ret r, st1) ->
  parse_bili w url_input st
  = match r with
    | inl error => (Ret (RStr error), st1)
    | inr processed_url => parse_resolved w url_input processed_url st1
    end.
Proof.
  intros H. unfold parse_bili. rewrite (bind_ret _ _ _ _ _ H).
  destruct r; reflexivity.
Qed.

Lemma handle_is_error e : startswith (lit "Error: ") (handle e) = true.
Proof. unfold handle. destruct (exn_kind e); reflexivity. Qed.



(** Step 1 when the resolution of the short link fails. *)
Lemma resolve_step_unresolved (url_input : pystr) (st : state)
  (resolved : option pystr) (st2 : state) :
  looks_like_short_link url_input = true ->
  resolve_b23_url w (potential_b23_url url_input)
    (snd (print (lit "Attempting to resolve short link: "
                 ++ potential_b23_url url_input) st)) = (Ret resolved, st2) ->
  resolved = None \/ resolved = Some [] ->
  resolve_step w url_input st
  = (Ret (if contains (lit "b23.tv/") (potential_b23_url url_input)
          then inl (lit "Error: Failed to resolve b23.tv short link: "
                    ++ potential_b23_url url_input)
          else inr url_input), st2).
Proof.
  intros Hlooks Hres Hfail. unfold resolve_step. rewrite Hlooks. cbv zeta.
  unfold bind at 1. unfold print at 1. unfold print in Hres. cbn [snd] in Hres.
  unfold bind at 1. rewrite Hres.
  destruct Hfail as [-> | ->];
    destruct (contains (lit "b23.tv/") (potential_b23_url url_input)); reflexivity.
Qed.


(** The branch that goes on with the input is never taken: the link asked
    for always contains the short domain. *)
Lemma parse_bili_unresolved_fails (url_input : pystr) (st : state)
  (resolved : option pystr) (st2 : state) :
  looks_like_short_link url_input = true ->
  resolve_b23_url w (potential_b23_url url_input)
    (snd (print (lit "Attempting to resolve short link: "
                 ++ potential_b23_url url_input) st)) = (Ret resolved, st2) ->
  resolved = None \/ resolved = Some [] ->
  parse_bili w url_input st
  = (Ret (RStr (lit "Error: Failed to resolve b23.tv short link: "
                ++ potential_b23_url url_input)), st2).
Proof.
  intros Hlooks Hres Hfail.
  rewrite (parse_bili_step _ _ _ _
             (resolve_step_unresolved url_input st resolved st2 Hlooks Hres Hfail)).
  rewrite potential_b23_url_contains. reflexivity.
Qed.

Lemma get_dict (d : list (pystr * json)) key default :
  get (JDict d) key default = Ret (lookup d key default).
Proof. reflexivity. Qed.

Lemma api_call_ok api_url st resp v :
  w (api_request api_url) = inr resp ->
  raise_for_status resp = Ret tt ->
  json_body resp = Ret v ->
  api_call w api_url st = (Ret v, State (stdout st) (sent st ++ [api_request api_url])).
Proof.
  intros Hw Hs Hj. unfold api_call, bind, requests_get, lift.
  rewrite Hw, Hs, Hj. reflexivity.
Qed.

Lemma fetch_view_error_code vi st resp d :
  w (api_request (view_api_url_of (bvid vi))) = inr resp ->
  raise_for_status resp = Ret tt ->
  json_body resp = Ret (JDict d) ->
  eq0 (lookup d (lit "code") JNull) = false ->
  fetch_view w vi st
  = (Ret vi,
     State (stdout st
            ++ [lit "Fetching main info: " ++ view_api_url_of (bvid vi);
                lit "Warning: View API error for " ++ bvid vi ++ lit " - "
                ++ str (lookup d (lit "message") (JStr (lit "Unknown error")))])
           (sent st ++ [api_request (view_api_url_of (bvid vi))])).
Proof.
  intros Hw Hs Hj Hcode. unfold fetch_view. cbv zeta.
  unfold bind at 1. unfold print at 1.
  unfold bind at 1. erewrite api_call_ok by eassumption.
  unfold bind at 1. rewrite get_dict. unfold lift at 1. rewrite Hcode.
  unfold bind at 1. rewrite get_dict. unfold lift at 1.
  unfold bind, print, ret. cbn [stdout sent]. rewrite <- app_assoc. reflexivity.
Qed.

Lemma alnum_not_space c : is_alnum c = true -> isspace c = false.
Proof.
  unfold is_alnum, isspace. intros H.
  repeat rewrite orb_true_iff in H. repeat rewrite andb_true_iff in H.
  repeat rewrite N.leb_le in H.
  repeat (apply orb_false_iff; split);
    try (apply andb_false_iff; rewrite !N.leb_gt; lia);
    apply N.eqb_neq; lia.
Qed.

Lemma strip_id (s : pystr) :
  s <> [] -> isspace (hd 0%N s) = false -> isspace (last s 0%N) = false ->
  strip s = s.
Proof.
  intros Hne Hhd Hlast. unfold strip, lstrip, rstrip.
  destruct s as [|c0 s]; [congruence|]. cbn [hd] in Hhd.
  cbn [PySeq.drop_while]. rewrite Hhd.
  destruct (exists_last Hne) as (s' & c1 & E). rewrite E in *.
  rewrite last_last in Hlast.
  rewrite rev_app_distr. cbn [rev app PySeq.drop_while]. rewrite Hlast.
  change (c1 :: rev s') with (rev [c1] ++ rev s').
  rewrite <- rev_app_distr, rev_involutive. reflexivity.
Qed.

Lemma last_app_r (a b : pystr) d : b <> [] -> last (a ++ b) d = last b d.
Proof.
  intros Hb. destruct (exists_last Hb) as (b' & c & ->).
  rewrite app_assoc, !last_last. reflexivity.
Qed.

Lemma app_nonempty_r (a b : pystr) : b <> [] -> a ++ b <> [].
Proof. intros Hb H. apply app_eq_nil in H as [_ H]. contradiction. Qed.

(** The stats block of a record whose fetches filled nothing in. *)
Lemma text_to_copy_2_initial (bvid suf : pystr) :
  bvid = lit "BV" ++ suf -> suf <> [] -> forallb is_alnum suf = true ->
  text_to_copy_2 (@initial_video_info rt bvid)
  = L_VIEWS ++ NA ++ L_DANMAKU ++ NA ++ NL
    ++ L_LIKES ++ NA ++ L_COINS ++ NA ++ NL
    ++ L_FAVORITES ++ NA ++ L_SHARES ++ NA ++ NL
    ++ L_DESC ++ NA ++ NL ++ NL
    ++ lit "https://www.bilibili.com/video/" ++ bvid.
Proof.
  intros -> Hne Hall.
  destruct (exists_last Hne) as (suf' & c & ->).
  rewrite forallb_app in Hall. apply andb_true_iff in Hall as [_ Hc].
  cbn [forallb] in Hc. rewrite andb_true_r in Hc.
  assert (Hend : suf' ++ [c] <> []) by (intros H; destruct suf'; discriminate H).
  unfold text_to_copy_2. cbn [views danmaku likes coins favorites shares description
    watchingTotal watchingWeb cleanedUrl initial_video_info].
  change (truthy (JStr NA)) with true. cbv iota.
  change (watching_total_text (initial_video_info (lit "BV" ++ suf' ++ [c]))) with (@nil N).
  change (str (JStr NA)) with NA.
  rewrite app_nil_l.
  match goal with |- strip ?a = ?b => constr_eq a b; apply (strip_id a) end.
  - repeat (first [exact Hend | apply app_nonempty_r]).
  - reflexivity.
  - repeat (rewrite last_app_r
              by (repeat (first [exact Hend | discriminate | apply app_nonempty_r]))).
    cbn [last]. apply alnum_not_space. exact Hc.
Qed.


Lemma fetch_relation_follower vi st reply st2 n s :
  truthy (upMid vi) = true ->
  api_call w (relation_api_url_of vi)
    (snd (print (lit "Fetching fan count: " ++ relation_api_url_of vi) st))
  = (Ret reply, st2) ->
  follower_of reply = Some (JInt n) ->
  @format_number rt (JInt n) = Ret s ->
  fetch_relation w vi st = (Ret (set_upFans vi s), st2).
Proof.
  intros Hmid Hcall Hfol Hfmt. unfold fetch_relation. rewrite Hmid. cbv zeta.
  unfold bind at 1. unfold print at 1. unfold print in Hcall. cbn [snd] in Hcall.
  rewrite (bind_ret _ _ _ _ _ Hcall). cbv beta.
  unfold follower_of in Hfol. rewrite bind_lift.
  destruct (get reply (lit "code") JNull) as [code|]; [|discriminate].
  destruct (eq0 code); [|discriminate]. rewrite bind_lift.
  destruct (get reply (lit "data") (JDict [])) as [data|]; [|discriminate].
  rewrite bind_lift.
  destruct (get data (lit "follower") (JInt 0)) as [follower|]; [|discriminate].
  injection Hfol as ->. rewrite bind_lift, Hfmt. reflexivity.
Qed.

(** The third call only writes the viewer counts. *)
Lemma fetch_online_keeps vi st vi' st' :
  fetch_online w vi st = (Ret vi', st') ->
  title vi' = title vi /\ upName vi' = upName vi /\ upFans vi' = upFans vi
  /\ pic vi' = pic vi.
Proof.
  unfold fetch_online. destruct (truthy (cid vi)).
  - cbv zeta. intros H.
    repeat match type of H with
           | bind _ _ _ = (Ret _, _) =>
               apply bind_ret_inv in H as (? & ? & _ & H)
           | (if ?c then _ else _) _ = (Ret _, _) => destruct c
           end.
    all: unfold ret in H; injection H as <- _; repeat split.
  - unfold ret. intros [= <- _]. repeat split.
Qed.

(** The first call leaves the follower count as it was. *)
Lemma fetch_view_keeps_upFans vi st vi' st' :
  fetch_view w vi st = (Ret vi', st') -> upFans vi' = upFans vi.
Proof.
  unfold fetch_view. cbv zeta. intros H.
  repeat match type of H with
         | bind _ _ _ = (Ret _, _) =>
             apply bind_ret_inv in H as (? & ? & _ & H)
         | (if ?c then _ else _) _ = (Ret _, _) => destruct c
         end.
  all: unfold ret in H; injection H as <- _; reflexivity.
Qed.

(** The second call when the endpoint reports an error: a warning, and the
    record as it was. *)
Lemma fetch_relation_error vi st d st2 :
  truthy (upMid vi) = true ->
  api_call w (relation_api_url_of vi)
    (snd (print (lit "Fetching fan count: " ++ relation_api_url_of vi) st))
  = (Ret (JDict d), st2) ->
  eq0 (lookup d (lit "code") JNull) = false ->
  fetch_relation w vi st
  = (Ret vi,
     snd (print (lit "Warning: Relation API error for mid " ++ str (upMid vi)
                 ++ lit " - " ++ str (lookup d (lit "message") JNull)) st2)).
Proof.
  intros Hmid Hcall Hcode. unfold fetch_relation. rewrite Hmid. cbv zeta.
  unfold bind at 1. unfold print at 1. unfold print in Hcall. cbn [snd] in Hcall.
  rewrite (bind_ret _ _ _ _ _ Hcall). cbv beta.
  rewrite bind_lift, get_dict, Hcode. rewrite bind_lift, get_dict.
  unfold bind, print, ret. reflexivity.
Qed.


End WithRuntime.
End ParseBiliFacts.

(** ** The resize factor in binary64 *)

Import MainWin.

Module ResizeFactorFacts.
Import PyFloat PyFloatFacts.

(** Rounding a quotient in [1, 2^52): the result has a negative exponent
    [-k], its significand is within one half of the scaled quotient, and
    the quotient lies in the binade of [k]. *)
Lemma round_ratio_normal a b :
  0 < b <= a -> a < b * 2 ^ 52 ->
  exists m k, 1 <= k <= 52 /\ round_ratio a b = Finite m (- k)
    /\ 0 <= m /\ - b <= 2 * (m * b - a * 2 ^ k) <= b
    /\ b * 2 ^ (52 - k) <= a < b * 2 ^ (53 - k).
Proof.
  intros Hab Hlt.
  destruct (floor_log2_ratio_ge1 a b Hab) as (Hl0 & Hlo & Hhi).
  set (l := floor_log2_ratio a b) in *.
  assert (Hl : l < 52).
  { apply (Z.pow_lt_mono_r_iff 2); [lia | lia |]. nia. }
  exists (round_half_even (a * 2 ^ (52 - l)) b), (52 - l).
  assert (Hp : 0 < 2 ^ (52 - l)) by (apply Z.pow_pos_nonneg; lia).
  pose proof (round_half_even_bounds (a * 2 ^ (52 - l)) b ltac:(nia) ltac:(lia))
    as [Hm0 Hm].
  split; [lia|]. split; [|split; [exact Hm0 | split; [exact Hm|]]].
  - unfold round_ratio. fold l.
    destruct (Z.eqb_spec a 0) as [|_]; [lia|].
    rewrite Z.max_l by lia.
    destruct (Z.leb_spec 0 (l - 52)) as [|_]; [lia|].
    replace (- (l - 52)) with (52 - l) by lia.
    set (m := round_half_even (a * 2 ^ (52 - l)) b) in *.
    assert (Hm53 : m <= 2 ^ 53).
    { assert (E : 2 ^ (l + 1) * 2 ^ (52 - l) = 2 ^ 53).
      { rewrite <- Z.pow_add_r by lia. f_equal. lia. }
      assert (a * 2 ^ (52 - l) < b * 2 ^ 53) by nia.
      nia. }
    destruct (Z.leb_spec (2 ^ (1024 - (l - 52))) m) as [Hov|_].
    + exfalso. assert (2 ^ 54 <= 2 ^ (1024 - (l - 52))) by (apply Z.pow_le_mono_r; lia).
      assert (2 ^ 53 < 2 ^ 54) by (apply Z.pow_lt_mono_r; lia). lia.
    + replace (l - 52) with (- (52 - l)) by lia. reflexivity.
  - replace (52 - (52 - l)) with l by lia. replace (53 - (52 - l)) with (l + 1) by lia.
    split; lia.
Qed.

Lemma of_int_exact n :
  0 < n < 2 ^ 52 ->
  exists k, 1 <= k <= 52 /\ of_int n = Some (Finite (n * 2 ^ k) (- k)).
Proof.
  intros Hn. destruct (round_ratio_normal n 1 ltac:(lia) ltac:(lia))
    as (m & k & Hk & Hr & Hm0 & Hm & _).
  exists k. split; [exact Hk|]. unfold of_int, true_div. rewrite Hr.
  f_equal. f_equal. lia.
Qed.

Lemma resize_factor_value : RESIZE_FACTOR = Finite 7205759403792794 (- 53).
Proof. reflexivity. Qed.

(** [n * 0.8] for a dimension: the float lies in the unit interval that
    starts at the truncated exact product. *)
Lemma int_mul_factor n :
  2 <= n < 2 ^ 31 ->
  exists m k, 22 <= k <= 52
    /\ int_mul n RESIZE_FACTOR = Some (Finite m (- k))
    /\ (4 * n / 5) * 2 ^ k <= m < (4 * n / 5 + 1) * 2 ^ k.
Proof.
  intros Hn.
  assert (H31 : 2 ^ 31 < 2 ^ 52) by (apply Z.pow_lt_mono_r; lia).
  destruct (of_int_exact n ltac:(lia)) as (k1 & Hk1 & Hof).
  unfold int_mul. rewrite Hof, resize_factor_value. cbn [fmul].
  destruct (Z.leb_spec 0 (- k1 + - 53)) as [|_]; [lia|].
  replace (- (- k1 + - 53)) with (k1 + 53) by lia.
  set (M := 7205759403792794).
  assert (HM : 5 * M = 4 * 2 ^ 53 + 2) by reflexivity.
  assert (Hp1 : 0 < 2 ^ k1) by (apply Z.pow_pos_nonneg; lia).
  assert (HQ : 0 < 2 ^ 53) by (apply Z.pow_pos_nonneg; lia).
  assert (Hb : 2 ^ (k1 + 53) = 2 ^ k1 * 2 ^ 53) by (apply Z.pow_add_r; lia).
  assert (H84 : 2 ^ 31 * 2 ^ 53 * 2 = 2 ^ 53 * 2 ^ 32).
  { change (2 ^ 32) with (2 ^ 31 * 2). ring. }
  destruct (round_ratio_normal (n * 2 ^ k1 * M) (2 ^ (k1 + 53))) as
    (m & k & Hk & Hr & Hm0 & Hm & Hlo & Hhi).
  { rewrite Hb. split; [nia|]. nia. }
  { rewrite Hb. assert (2 ^ 32 <= 2 ^ 52) by (apply Z.pow_le_mono_r; lia). nia. }
  rewrite Hb in Hm, Hlo, Hhi.
  assert (Hm' : - 2 ^ 53 <= 2 * (m * 2 ^ 53 - n * M * 2 ^ k) <= 2 ^ 53) by nia.
  assert (Hlo' : 2 ^ 53 * 2 ^ (52 - k) <= n * M) by nia.
  assert (Hk22 : 22 <= k).
  { destruct (Z.le_gt_cases 22 k) as [|Hk21]; [assumption|exfalso].
    assert (2 ^ 31 <= 2 ^ (52 - k)) by (apply Z.pow_le_mono_r; lia).
    nia. }
  exists m, k. split; [lia|]. split; [f_equal; exact Hr|].
  assert (HP : 2 ^ 22 <= 2 ^ k) by (apply Z.pow_le_mono_r; lia).
  change (2 ^ 22) with 4194304 in HP.
  pose proof (Z.div_mod (4 * n) 5 ltac:(lia)) as Hdm.
  pose proof (Z.mod_pos_bound (4 * n) 5 ltac:(lia)) as Hr5.
  set (j := 4 * n / 5) in *. set (r := (4 * n) mod 5) in *.
  set (P := 2 ^ k) in *. set (Q := 2 ^ 53) in *.
  assert (Hu : 4 * (n * P) = 5 * (j * P) + r * P) by nia.
  assert (Hw : 0 <= r * P <= 4 * P) by nia.
  assert (Hw1 : r = 0 \/ P <= r * P) by nia.
  assert (Hnp : 0 <= n * P < 2147483648 * P).
  { change 2147483648 with (2 ^ 31). nia. }
  assert (HMu : 5 * (n * M * P) = (4 * Q + 2) * (n * P)) by (rewrite <- HM; ring).
  assert (HQv : Q = 9007199254740992) by reflexivity.
  set (u := n * P) in *. set (v := j * P) in *. set (x := r * P) in *.
  set (y := n * M * P) in *.
  replace ((j + 1) * P) with (v + P) by (subst v; ring).
  clearbody u v x y. rewrite HQv in *. clear Hlo Hhi Hlo' Hr Hof Hb HM.
  destruct Hw1 as [-> | Hw1]; lia.
Qed.

Lemma int_mul_factor_small :
  int_mul 0 RESIZE_FACTOR = Some (Finite 0 0)
  /\ int_mul 1 RESIZE_FACTOR = Some (Finite 7205759403792794 (- 53)).
Proof. split; reflexivity. Qed.

End ResizeFactorFacts.

(** ** The resize factor on integers of any size *)

Module RoundingFacts.
Import PyFloat PyFloatFacts ResizeFactorFacts.

(** Rounding a quotient that is at least 1, of any size: the result is
    infinite or it exceeds the quotient by at most one part in 2^53. *)
Lemma round_ratio_ge1 a b :
  0 < b <= a ->
  round_ratio a b = Inf
  \/ exists m l, round_ratio a b = Finite m (l - 52) /\ 0 <= l /\ 2 ^ 52 <= m
       /\ m * 2 ^ l * 2 ^ 53 * b <= (2 ^ 53 + 1) * a * 2 ^ 52
       /\ a < b * 2 ^ (l + 1).
Proof.
  intros Hab.
  destruct (floor_log2_ratio_ge1 a b Hab) as (Hl0 & Hlo & Hhi).
  unfold round_ratio. set (l := floor_log2_ratio a b) in *.
  destruct (Z.eqb_spec a 0) as [|_]; [lia|].
  rewrite Z.max_l by lia. cbv zeta.
  match goal with |- (if ?c then _ else _) = _ \/ _ => destruct c end;
    [left; reflexivity | right].
  assert (HQ : 2 ^ 53 = 2 * 2 ^ 52) by reflexivity.
  assert (HP : 0 < 2 ^ 52) by reflexivity.
  destruct (Z.leb_spec 0 (l - 52)) as [He|He].
  - exists (round_half_even a (b * 2 ^ (l - 52))), l.
    assert (Hp : 0 < 2 ^ (l - 52)) by (apply Z.pow_pos_nonneg; lia).
    assert (Hsplit : 2 ^ l = 2 ^ (l - 52) * 2 ^ 52).
    { rewrite <- Z.pow_add_r by lia. f_equal. lia. }
    pose proof (round_half_even_bounds a (b * 2 ^ (l - 52)) ltac:(lia) ltac:(nia))
      as [Hm0 Hm].
    set (m := round_half_even a (b * 2 ^ (l - 52))) in *.
    set (b' := b * 2 ^ (l - 52)) in *.
    assert (Hb' : b' * 2 ^ 52 <= a) by (subst b'; nia).
    assert (Hpos : 0 < b') by (subst b'; nia).
    split; [reflexivity|]. split; [exact Hl0|]. split; [|split; [|exact Hhi]].
    + assert (2 ^ 52 * b' - b' <= 2 * (m * b') - b') by lia.
      assert ((2 * 2 ^ 52 - 1) * b' <= 2 * m * b') by lia.
      nia.
    + rewrite Hsplit.
      replace (m * (2 ^ (l - 52) * 2 ^ 52) * 2 ^ 53 * b)
        with (m * b' * 2 ^ 53 * 2 ^ 52) by (subst b'; ring).
      apply Z.mul_le_mono_nonneg_r; [lia|]. rewrite HQ. lia.
  - exists (round_half_even (a * 2 ^ (- (l - 52))) b), l.
    replace (- (l - 52)) with (52 - l) by lia.
    assert (Hp : 0 < 2 ^ (52 - l)) by (apply Z.pow_pos_nonneg; lia).
    assert (Hpl : 0 < 2 ^ l) by (apply Z.pow_pos_nonneg; lia).
    assert (Hsplit : 2 ^ 52 = 2 ^ l * 2 ^ (52 - l)).
    { rewrite <- Z.pow_add_r by lia. f_equal. lia. }
    pose proof (round_half_even_bounds (a * 2 ^ (52 - l)) b ltac:(nia) ltac:(lia))
      as [Hm0 Hm].
    set (m := round_half_even (a * 2 ^ (52 - l)) b) in *.
    set (a' := a * 2 ^ (52 - l)) in *.
    assert (Ha' : b * 2 ^ 52 <= a') by (subst a'; rewrite Hsplit; nia).
    split; [reflexivity|]. split; [exact Hl0|]. split; [|split; [|exact Hhi]].
    + assert ((2 * 2 ^ 52 - 1) * b <= 2 * m * b) by lia.
      nia.
    + replace ((2 ^ 53 + 1) * a * 2 ^ 52) with ((2 ^ 53 + 1) * a' * 2 ^ l)
        by (subst a'; rewrite Hsplit; ring).
      replace (m * 2 ^ l * 2 ^ 53 * b) with (m * b * 2 ^ 53 * 2 ^ l) by ring.
      apply Z.mul_le_mono_nonneg_r; [lia|]. rewrite HQ. lia.
Qed.

(** Truncation does not exceed the number. *)
Lemma to_int_le m l :
  0 <= m -> 0 <= l ->
  exists k, to_int (Finite m (l - 52)) = Some k /\ 0 <= k /\ k * 2 ^ 52 <= m * 2 ^ l.
Proof.
  intros Hm Hl. cbn [to_int]. eexists. split; [reflexivity|].
  destruct (Z.leb_spec 0 (l - 52)) as [He|He].
  - assert (Hp : 0 < 2 ^ (l - 52)) by (apply Z.pow_pos_nonneg; lia).
    split; [nia|].
    replace (2 ^ l) with (2 ^ (l - 52) * 2 ^ 52);
      [lia | rewrite <- Z.pow_add_r by lia; f_equal; lia].
  - replace (- (l - 52)) with (52 - l) by lia.
    assert (Hp : 0 < 2 ^ (52 - l)) by (apply Z.pow_pos_nonneg; lia).
    assert (Hpl : 0 < 2 ^ l) by (apply Z.pow_pos_nonneg; lia).
    pose proof (Z.div_mod m (2 ^ (52 - l)) ltac:(lia)) as Hdm.
    pose proof (Z.mod_pos_bound m (2 ^ (52 - l)) Hp) as Hr.
    pose proof (Z.div_pos m (2 ^ (52 - l)) Hm Hp) as Hq.
    split; [exact Hq|].
    replace (2 ^ 52) with (2 ^ (52 - l) * 2 ^ l);
      [nia | rewrite <- Z.pow_add_r by lia; f_equal; lia].
Qed.

(** [int(n * 0.8)] is below [n], whatever the size of [n]: the product is
    infinite, or its truncation is at most [n] times a constant below 1. *)
Lemma int_mul_factor_below n :
  2 <= n ->
  int_mul n RESIZE_FACTOR = None
  \/ int_mul n RESIZE_FACTOR = Some Inf
  \/ exists x k, int_mul n RESIZE_FACTOR = Some x /\ to_int x = Some k
       /\ 0 <= k < n.
Proof.
  intros Hn. unfold int_mul, of_int, true_div.
  destruct (round_ratio_ge1 n 1 ltac:(lia))
    as [-> | (m1 & l1 & -> & Hl1 & Hm1 & Hb1 & Hn1)];
    [left; reflexivity | right].
  rewrite resize_factor_value. cbn [fmul].
  set (M := 7205759403792794).
  assert (Hl1' : 1 <= l1).
  { destruct (Z.eq_dec l1 0) as [E|]; [|lia]. exfalso. rewrite E in Hn1.
    change (2 ^ (0 + 1)) with 2 in Hn1. lia. }
  assert (Hpl : 0 < 2 ^ l1) by (apply Z.pow_pos_nonneg; lia).
  (* the bound on the first rounding, without the common factor 2^52 *)
  assert (Hb1' : m1 * 2 ^ l1 * 2 <= (2 ^ 53 + 1) * n).
  { change (2 ^ 53) with (2 * 2 ^ 52) in Hb1 at 1.
    assert (0 < 2 ^ 52) by reflexivity. nia. }
  assert (Hfinal : forall m2 l2 a b,
            0 < b -> 0 <= m2 -> 0 <= l2 ->
            m2 * 2 ^ l2 * 2 ^ 53 * b <= (2 ^ 53 + 1) * a * 2 ^ 52 ->
            a * 2 ^ 105 = m1 * M * b * 2 ^ l1 ->
            exists k, to_int (Finite m2 (l2 - 52)) = Some k /\ 0 <= k < n).
  { intros m2 l2 a b Hb Hm2 Hl2 Hb2 Hab.
    destruct (to_int_le m2 l2 Hm2 Hl2) as (k & Hk & Hk0 & Hkle).
    exists k. split; [exact Hk|]. split; [exact Hk0|].
    (* k * 2^52 * 2^53 * b <= (2^53+1) * a * 2^52 *)
    assert (H1 : k * 2 ^ 53 * b <= (2 ^ 53 + 1) * a).
    { assert (0 < 2 ^ 52) by reflexivity. assert (0 < 2 ^ 53) by reflexivity.
      assert (k * 2 ^ 52 * (2 ^ 53 * b) <= m2 * 2 ^ l2 * (2 ^ 53 * b))
        by (apply Z.mul_le_mono_nonneg_r; nia).
      nia. }
    (* times 2^105 * 2: the product in terms of the first rounding *)
    assert (H2 : k * 2 ^ 53 * b * (2 ^ 105 * 2) <= (2 ^ 53 + 1) * (m1 * 2 ^ l1 * 2) * M * b).
    { assert (0 < 2 ^ 105) by reflexivity.
      assert (k * 2 ^ 53 * b * (2 ^ 105 * 2) <= (2 ^ 53 + 1) * a * (2 ^ 105 * 2))
        by (apply Z.mul_le_mono_nonneg_r; lia).
      replace ((2 ^ 53 + 1) * (m1 * 2 ^ l1 * 2) * M * b)
        with ((2 ^ 53 + 1) * (m1 * M * b * 2 ^ l1) * 2) by ring.
      rewrite <- Hab. lia. }
    assert (H3 : (2 ^ 53 + 1) * (m1 * 2 ^ l1 * 2) * M * b
                 <= (2 ^ 53 + 1) * ((2 ^ 53 + 1) * n) * M * b).
    { apply Z.mul_le_mono_nonneg_r; [lia|].
      apply Z.mul_le_mono_nonneg_r; [subst M; lia|].
      apply Z.mul_le_mono_nonneg_l; [|exact Hb1']. change (2 ^ 53) with 9007199254740992. lia. }
    assert (H4 : k * (2 ^ 53 * (2 ^ 105 * 2)) * b
                 <= (2 ^ 53 + 1) * (2 ^ 53 + 1) * M * n * b).
    { replace (k * (2 ^ 53 * (2 ^ 105 * 2)) * b) with (k * 2 ^ 53 * b * (2 ^ 105 * 2)) by ring.
      replace ((2 ^ 53 + 1) * (2 ^ 53 + 1) * M * n * b)
        with ((2 ^ 53 + 1) * ((2 ^ 53 + 1) * n) * M * b) by ring.
      lia. }
    apply Z.mul_le_mono_pos_r in H4; [|exact Hb].
    assert (HK : (2 ^ 53 + 1) * (2 ^ 53 + 1) * M < 2 ^ 53 * (2 ^ 105 * 2))
      by (subst M; reflexivity).
    set (K := (2 ^ 53 + 1) * (2 ^ 53 + 1) * M) in *.
    set (T := 2 ^ 53 * (2 ^ 105 * 2)) in *.
    assert (0 < K) by (subst K M; reflexivity).
    nia. }
  destruct (Z.leb_spec 0 (l1 - 52 + - 53)) as [He|He].
  - assert (Hp : 0 < 2 ^ (l1 - 52 + - 53)) by (apply Z.pow_pos_nonneg; lia).
    assert (Hsplit : 2 ^ l1 = 2 ^ (l1 - 52 + - 53) * 2 ^ 105).
    { rewrite <- Z.pow_add_r by lia. f_equal. lia. }
    destruct (round_ratio_ge1 (m1 * M * 2 ^ (l1 - 52 + - 53)) 1)
      as [-> | (m2 & l2 & -> & Hl2 & Hm2 & Hb2 & _)].
    + subst M. nia.
    + left. reflexivity.
    + right. destruct (Hfinal m2 l2 _ 1 ltac:(lia) ltac:(lia) Hl2 Hb2) as (k & Hk & Hkn).
      * rewrite Hsplit. ring.
      * exists (Finite m2 (l2 - 52)), k. auto.
  - replace (- (l1 - 52 + - 53)) with (105 - l1) by lia.
    assert (Hp : 0 < 2 ^ (105 - l1)) by (apply Z.pow_pos_nonneg; lia).
    assert (Hsplit : 2 ^ 105 = 2 ^ (105 - l1) * 2 ^ l1).
    { rewrite <- Z.pow_add_r by lia. f_equal. lia. }
    destruct (round_ratio_ge1 (m1 * M) (2 ^ (105 - l1)))
      as [-> | (m2 & l2 & -> & Hl2 & Hm2 & Hb2 & _)].
    + split; [exact Hp|].
      assert (2 ^ (105 - l1) <= 2 ^ 104) by (apply Z.pow_le_mono_r; lia).
      assert (2 ^ 104 <= m1 * M).
      { change (2 ^ 104) with (2 ^ 52 * 2 ^ 52).
        assert (2 ^ 52 <= M) by (subst M; discriminate).
        apply Z.mul_le_mono_nonneg; lia. }
      lia.
    + left. reflexivity.
    + right. destruct (Hfinal m2 l2 _ _ Hp ltac:(lia) Hl2 Hb2) as (k & Hk & Hkn).
      * rewrite Hsplit. ring.
      * exists (Finite m2 (l2 - 52)), k. auto.
Qed.

End RoundingFacts.

(** ** The resize loop of [load_image] *)

Module ResizeLoopFacts.
Import PyFloat PyFloatFacts ResizeFactorFacts RoundingFacts MonadFacts.

(** For the dimensions of an image, [n * RESIZE_FACTOR >= MIN_DIMENSION]
    holds from 125 on, and [int(n * RESIZE_FACTOR)] is [4n/5] truncated. *)
Lemma times_factor_dimension n :
  0 <= n < 2 ^ 31 ->
  exists x, times_factor n = Ret x
    /\ ge_int x MIN_DIMENSION = (125 <=? n)
    /\ to_int x = Some (4 * n / 5).
Proof.
  intros Hn. unfold times_factor.
  destruct (Z.eq_dec n 0) as [->|H0]; [eexists; repeat split|].
  destruct (Z.eq_dec n 1) as [->|H1]; [eexists; repeat split|].
  destruct (int_mul_factor n ltac:(lia)) as (m & k & Hk & Hmul & Hm).
  rewrite Hmul. eexists. split; [reflexivity|].
  assert (HP : 0 < 2 ^ k) by (apply Z.pow_pos_nonneg; lia).
  pose proof (Z.div_mod (4 * n) 5 ltac:(lia)) as Hdm.
  pose proof (Z.mod_pos_bound (4 * n) 5 ltac:(lia)) as Hr5.
  cbn [ge_int to_int]. destruct (Z.leb_spec 0 (- k)) as [|_]; [lia|].
  rewrite Z.opp_involutive. unfold MIN_DIMENSION.
  set (j := 4 * n / 5) in *. set (P := 2 ^ k) in *. split.
  - destruct (Z.leb_spec 125 n); [apply Z.leb_le | apply Z.leb_gt].
    + assert (100 <= j) by lia. assert (100 * P <= j * P) by nia. lia.
    + assert (j + 1 <= 100) by lia. assert ((j + 1) * P <= 100 * P) by nia. lia.
  - f_equal. symmetry. apply Z.div_unique with (r := m - j * P); lia.
Qed.

Lemma shrink_dimension n : 0 <= n < 2 ^ 31 -> shrink n = Ret (4 * n / 5).
Proof.
  intros Hn. destruct (times_factor_dimension n Hn) as (x & Hx & _ & Hi).
  unfold shrink. rewrite Hx, Hi. reflexivity.
Qed.

Lemma loop_test_dimension data w h :
  0 <= w < 2 ^ 31 -> 0 <= h < 2 ^ 31 ->
  loop_test (Encoded data w h)
  = Ret ((MAX_IMAGE_SIZE_BYTES <? PySeq.len data) && (125 <=? w) && (125 <=? h)).
Proof.
  intros Hw Hh. unfold loop_test. cbn [png_data current_width current_height].
  destruct (times_factor_dimension w Hw) as (x & Hx & Hgx & _).
  destruct (times_factor_dimension h Hh) as (y & Hy & Hgy & _).
  destruct (MAX_IMAGE_SIZE_BYTES <? PySeq.len data); [|reflexivity].
  rewrite Hx, Hgx. destruct (125 <=? w); [|reflexivity].
  rewrite Hy, Hgy. reflexivity.
Qed.

(** Whatever the size of a dimension that passes the test of the loop,
    shrinking it raises or gives a smaller one. *)
Lemma shrink_below n x :
  0 <= n -> times_factor n = Ret x -> ge_int x MIN_DIMENSION = true ->
  (exists e, shrink n = Raise e) \/ (exists k, shrink n = Ret k /\ 0 <= k < n).
Proof.
  intros Hn Hx Hge. unfold shrink. rewrite Hx.
  destruct (Z.eq_dec n 0) as [->|H0]; [injection Hx as <-; discriminate Hge|].
  destruct (Z.eq_dec n 1) as [->|H1]; [injection Hx as <-; discriminate Hge|].
  unfold times_factor in Hx.
  destruct (int_mul_factor_below n ltac:(lia)) as [E | [E | (y & k & E & Hk & Hlt)]];
    rewrite E in Hx.
  - discriminate.
  - injection Hx as <-. left. eexists. reflexivity.
  - injection Hx as <-. rewrite Hk. right. exists k. auto.
Qed.

Lemma loop_test_true (st : encoded) :
  loop_test st = Ret true ->
  exists x, times_factor (current_width st) = Ret x /\ ge_int x MIN_DIMENSION = true.
Proof.
  unfold loop_test.
  destruct (MAX_IMAGE_SIZE_BYTES <? PySeq.len (png_data st)); [|discriminate].
  destruct (times_factor (current_width st)) as [x|]; [|discriminate].
  destruct (ge_int x MIN_DIMENSION) eqn:E; [|discriminate].
  intros _. exists x. auto.
Qed.

Lemma loop_test_small (st : encoded) :
  PySeq.len (png_data st) <= MAX_IMAGE_SIZE_BYTES -> loop_test st = Ret false.
Proof.
  intros H. unfold loop_test.
  destruct (Z.ltb_spec MAX_IMAGE_SIZE_BYTES (PySeq.len (png_data st))); [lia | reflexivity].
Qed.

Section WithImaging.
Context (rt : runtime) (pil : imaging rt).

(** One turn of the loop. *)
Lemma resize_loop_S (image_url : json (pyfloat rt)) (img : image pil)
  (fuel : nat) (st0 : encoded) st :
  resize_loop pil (S fuel) image_url img st0 st
  = match loop_test st0 with
    | Raise e => (Raise e, st)
    | Ret false => (Ret (Some st0), st)
    | Ret true =>
        match megabytes (PySeq.len (png_data st0)) with
        | Raise e => (Raise e, st)
        | Ret mb =>
            let st1 := snd (print (lit "Image from " ++ Main.str image_url
                                   ++ lit " is too large (" ++ mb
                                   ++ lit " MB). Resizing...") st) in
            match shrink (current_width st0) with
            | Raise e => (Raise e, st1)
            | Ret width =>
                match shrink (current_height st0) with
                | Raise e => (Raise e, st1)
                | Ret height =>
                    match resize pil img (width, height) with
                    | Raise e => (Raise e, st1)
                    | Ret resized =>
                        match save_png pil resized with
                        | Raise e => (Raise e, st1)
                        | Ret data' =>
                            match megabytes (PySeq.len data') with
                            | Raise e => (Raise e, st1)
                            | Ret mb' =>
                                resize_loop pil fuel image_url img
                                  (Encoded data' width height)
                                  (snd (print (lit "Resized to " ++ str_int width
                                               ++ lit "x" ++ str_int height
                                               ++ lit ", new PNG size: " ++ mb'
                                               ++ lit " MB") st1))
                            end
                        end
                    end
                end
            end
        end
    end.
Proof.
  cbn [resize_loop]. rewrite bind_lift.
  destruct (loop_test st0) as [[|]|e]; [|reflexivity|reflexivity].
  rewrite bind_lift.
  destruct (megabytes (PySeq.len (png_data st0))) as [mb|e]; [|reflexivity].
  unfold bind at 1. unfold print at 1. cbv zeta. unfold print at 2. cbn [snd].
  rewrite bind_lift. destruct (shrink (current_width st0)) as [width|e]; [|reflexivity].
  rewrite bind_lift. destruct (shrink (current_height st0)) as [height|e]; [|reflexivity].
  rewrite bind_lift.
  destruct (resize pil img (width, height)) as [resized|e]; [|reflexivity].
  rewrite bind_lift. destruct (save_png pil resized) as [data'|e]; [|reflexivity].
  rewrite bind_lift. destruct (megabytes (PySeq.len data')) as [mb'|e]; [|reflexivity].
  unfold bind at 1. unfold print at 1. unfold print. cbn [snd]. reflexivity.
Qed.

(** The loop ends before its fuel does, whatever the dimensions: it
    returns the state at which its test fails, or an exception leaves it.
    More fuel changes nothing. *)
Lemma resize_loop_returns (image_url : json (pyfloat rt)) (img : image pil)
  (fuel : nat) :
  forall data w h st,
    0 <= w -> (Z.to_nat w < fuel)%nat ->
    forall more,
      fst (resize_loop pil fuel image_url img (Encoded data w h) st) <> Ret None
      /\ resize_loop pil (fuel + more) image_url img (Encoded data w h) st
         = resize_loop pil fuel image_url img (Encoded data w h) st.
Proof.
  induction fuel as [|fuel IH]; intros data w h st Hw Hfuel more; [lia|].
  cbn [Nat.add]. rewrite !resize_loop_S.
  destruct (loop_test (Encoded data w h)) as [[|]|e] eqn:Htest;
    [| split; [discriminate | reflexivity] | split; [discriminate | reflexivity]].
  destruct (loop_test_true _ Htest) as (x & Hx & Hge).
  cbn [png_data current_width current_height] in *.
  destruct (megabytes (PySeq.len data)) as [mb|e];
    [| split; [discriminate | reflexivity]].
  cbv zeta.
  destruct (shrink_below w x Hw Hx Hge) as [[e He] | (k & Hk & Hk0 & Hlt)];
    [rewrite He; split; [discriminate | reflexivity]|].
  rewrite Hk.
  destruct (shrink h) as [height|e]; [| split; [discriminate | reflexivity]].
  destruct (resize pil img (k, height)) as [resized|e];
    [| split; [discriminate | reflexivity]].
  destruct (save_png pil resized) as [data'|e];
    [| split; [discriminate | reflexivity]].
  destruct (megabytes (PySeq.len data')) as [mb'|e];
    [| split; [discriminate | reflexivity]].
  apply IH; lia.
Qed.

Lemma shrink_smaller n : 125 <= n -> 0 <= 4 * n / 5 < n.
Proof.
  intros Hn. pose proof (Z.div_mod (4 * n) 5 ltac:(lia)).
  pose proof (Z.mod_pos_bound (4 * n) 5 ltac:(lia)). lia.
Qed.

(** One turn of the loop on the dimensions of an image. *)
Lemma resize_loop_step (image_url : json (pyfloat rt)) (img : image pil)
  (fuel : nat) data w h st :
  0 <= w < 2 ^ 31 -> 0 <= h < 2 ^ 31 ->
  resize_loop pil (S fuel) image_url img (Encoded data w h) st
  = if (MAX_IMAGE_SIZE_BYTES <? PySeq.len data) && (125 <=? w) && (125 <=? h)
    then
      match megabytes (PySeq.len data) with
      | Raise e => (Raise e, st)
      | Ret mb =>
          let st1 := snd (print (lit "Image from " ++ Main.str image_url
                                 ++ lit " is too large (" ++ mb
                                 ++ lit " MB). Resizing...") st) in
          match resize pil img (4 * w / 5, 4 * h / 5) with
          | Raise e => (Raise e, st1)
          | Ret resized =>
              match save_png pil resized with
              | Raise e => (Raise e, st1)
              | Ret data' =>
                  match megabytes (PySeq.len data') with
                  | Raise e => (Raise e, st1)
                  | Ret mb' =>
                      resize_loop pil fuel image_url img
                        (Encoded data' (4 * w / 5) (4 * h / 5))
                        (snd (print (lit "Resized to " ++ str_int (4 * w / 5)
                                     ++ lit "x" ++ str_int (4 * h / 5)
                                     ++ lit ", new PNG size: " ++ mb'
                                     ++ lit " MB") st1))
                  end
              end
          end
      end
    else (Ret (Some (Encoded data w h)), st).
Proof.
  intros Hw Hh. cbn [resize_loop]. rewrite bind_lift, loop_test_dimension by assumption.
  destruct ((MAX_IMAGE_SIZE_BYTES <? PySeq.len data) && (125 <=? w) && (125 <=? h));
    [|reflexivity].
  cbn [png_data current_width current_height]. rewrite bind_lift.
  destruct (megabytes (PySeq.len data)) as [mb|e]; [|reflexivity].
  unfold bind at 1. unfold print at 1. cbv zeta. unfold print at 2. cbn [snd].
  rewrite bind_lift, shrink_dimension by assumption.
  rewrite bind_lift, shrink_dimension by assumption.
  rewrite bind_lift.
  destruct (resize pil img (4 * w / 5, 4 * h / 5)) as [resized|e]; [|reflexivity].
  rewrite bind_lift. destruct (save_png pil resized) as [data'|e]; [|reflexivity].
  rewrite bind_lift. destruct (megabytes (PySeq.len data')) as [mb'|e]; [|reflexivity].
  unfold bind at 1. unfold print at 1. unfold print. cbn [snd]. reflexivity.
Qed.

(** With more fuel than the width, the loop ends by its own test: it
    returns the state at which the test fails, reached by the steps of the
    specification, or an exception leaves it.  More fuel changes nothing. *)
Lemma resize_loop_fuel (image_url : json (pyfloat rt)) (img : image pil) (fuel : nat) :
  forall data w h st,
    0 <= w < 2 ^ 31 -> 0 <= h < 2 ^ 31 -> (Z.to_nat w < fuel)%nat ->
    fst (resize_loop pil fuel image_url img (Encoded data w h) st) <> Ret None
    /\ (forall final st',
          resize_loop pil fuel image_url img (Encoded data w h) st
          = (Ret (Some final), st') ->
          shrinks_to pil img (Encoded data w h) final /\ loop_exit final)
    /\ (forall more,
          resize_loop pil (fuel + more) image_url img (Encoded data w h) st
          = resize_loop pil fuel image_url img (Encoded data w h) st).
Proof.
  induction fuel as [|fuel IH]; intros data w h st Hw Hh Hfuel; [lia|].
  assert (Hmain : forall more,
    resize_loop pil (S fuel + more) image_url img (Encoded data w h) st
    = resize_loop pil (S fuel) image_url img (Encoded data w h) st
    /\ fst (resize_loop pil (S fuel) image_url img (Encoded data w h) st) <> Ret None
    /\ (forall final st',
          resize_loop pil (S fuel) image_url img (Encoded data w h) st
          = (Ret (Some final), st') ->
          shrinks_to pil img (Encoded data w h) final /\ loop_exit final)).
  { intros more. cbn [Nat.add]. rewrite !resize_loop_step by assumption.
    destruct (Z.ltb_spec MAX_IMAGE_SIZE_BYTES (PySeq.len data)) as [Hbig|Hsmall];
      cbn [andb].
    2:{ cbn [fst]. split; [reflexivity|]. split; [discriminate|].
        intros final st' [= <- <-]. split; [constructor|]. left. exact Hsmall. }
    destruct (Z.leb_spec 125 w) as [Hw125|Hwlo]; cbn [andb].
    2:{ cbn [fst]. split; [reflexivity|]. split; [discriminate|].
        intros final st' [= <- <-]. split; [constructor|]. right. left.
        cbn [current_width]. unfold MIN_DIMENSION.
        apply Z.div_lt_upper_bound; lia. }
    destruct (Z.leb_spec 125 h) as [Hh125|Hhlo].
    2:{ cbn [fst]. split; [reflexivity|]. split; [discriminate|].
        intros final st' [= <- <-]. split; [constructor|]. right. right.
        cbn [current_height]. unfold MIN_DIMENSION.
        apply Z.div_lt_upper_bound; lia. }
    destruct (megabytes (PySeq.len data)) as [mb|e];
      [|cbn [fst]; repeat split; try discriminate; reflexivity].
    cbv zeta.
    destruct (resize pil img (4 * w / 5, 4 * h / 5)) as [resized|e] eqn:Hres;
      [|cbn [fst]; repeat split; try discriminate; reflexivity].
    destruct (save_png pil resized) as [data'|e] eqn:Hsave;
      [|cbn [fst]; repeat split; try discriminate; reflexivity].
    destruct (megabytes (PySeq.len data')) as [mb'|e];
      [|cbn [fst]; repeat split; try discriminate; reflexivity].
    pose proof (shrink_smaller w Hw125) as Hw'. pose proof (shrink_smaller h Hh125) as Hh'.
    match goal with
    | |- context [resize_loop pil fuel image_url img _ ?t] =>
        destruct (IH data' (4 * w / 5) (4 * h / 5) t ltac:(lia) ltac:(lia) ltac:(lia))
          as (IH1 & IH2 & IH3)
    end.
    split; [apply IH3|]. split; [exact IH1|].
    intros final st' Hrun. destruct (IH2 final st' Hrun) as [Hsteps Hexit].
    split; [|exact Hexit].
    eapply (@shrinks_step rt pil img (Encoded data w h));
      cbn [png_data current_width current_height];
      try eassumption; unfold MIN_DIMENSION.
    - apply Z.div_le_lower_bound; lia.
    - apply Z.div_le_lower_bound; lia. }
  destruct (Hmain O) as (_ & H1 & H2).
  split; [exact H1|]. split; [exact H2|]. intros more. apply Hmain.
Qed.

Lemma megabytes_returns n :
  1024 * 1024 <= n < 2 ^ 63 -> exists mb, megabytes n = Ret mb.
Proof.
  intros Hn. unfold megabytes, true_div.
  assert (H63 : 2 ^ 63 < 1024 * 1024 * 2 ^ 52).
  { change (1024 * 1024) with (2 ^ 20). rewrite <- Z.pow_add_r by lia.
    apply Z.pow_lt_mono_r; lia. }
  destruct (round_ratio_normal n (1024 * 1024) ltac:(lia) ltac:(lia))
    as (m & k & _ & Hr & _).
  rewrite Hr. eexists. reflexivity.
Qed.

(** The statements after the loop return the data URI whether or not the
    data fits the budget; over the budget they print one warning first. *)
Lemma after_loop_proceeds (image_url : json (pyfloat rt)) (final : encoded) st :
  PySeq.len (png_data final) < 2 ^ 63 ->
  fst (after_loop pil image_url final st)
  = Ret (lit "data:image/png;base64," ++ b64encode pil (png_data final))
  /\ (PySeq.len (png_data final) <= MAX_IMAGE_SIZE_BYTES ->
      snd (after_loop pil image_url final st) = st)
  /\ (MAX_IMAGE_SIZE_BYTES < PySeq.len (png_data final) ->
      exists mb,
        snd (after_loop pil image_url final st)
        = State (stdout st
                 ++ [lit "Warning: Image from " ++ Main.str image_url
                     ++ lit " still too large (" ++ mb
                     ++ lit " MB) after resizing. Proceeding."])
                (sent st)).
Proof.
  intros Hlen. unfold after_loop.
  destruct (Z.ltb_spec MAX_IMAGE_SIZE_BYTES (PySeq.len (png_data final))) as [Hbig|Hsmall].
  - destruct (megabytes_returns (PySeq.len (png_data final))) as [mb Hmb].
    { unfold MAX_IMAGE_SIZE_BYTES in Hbig. lia. }
    unfold bind at 1. rewrite bind_lift, Hmb. unfold print, ret. cbn [fst snd].
    split; [reflexivity|]. split; [lia|]. intros _. exists mb. reflexivity.
  - unfold bind, ret. cbn [fst snd]. split; [reflexivity|].
    split; [reflexivity | lia].
Qed.

(** C2, as amended.  Whatever the dimensions of the image, the loop
    returns, or an exception leaves it, without running out of the fuel
    [load_image] gives it, and more fuel changes nothing; data within the
    budget is returned as it is, without an iteration.  For dimensions
    below 2^31, where the float product truncates to the integer part of
    four fifths, the state returned is reached by the steps of the
    specification (over the budget, both shrunk dimensions at least 100,
    both dimensions shrunk by the factor 0.8, the resized original encoded
    again) and is within the budget or at the floor of a dimension.  The
    statements after the loop return the data URI also for data over the
    budget, after a warning. *)
Theorem load_image_resize_loop (image_url : json (pyfloat rt)) (img : image pil)
  (data : bytes) (w h : Z) (st : state) :
  0 <= w -> 0 <= h ->
  let start := Encoded data w h in
  let run := resize_loop pil (S (Z.to_nat w)) image_url img start st in
  fst run <> Ret None
  /\ (forall more,
        resize_loop pil (S (Z.to_nat w) + more) image_url img start st = run)
  /\ (PySeq.len data <= MAX_IMAGE_SIZE_BYTES -> run = (Ret (Some start), st))
  /\ (w < 2 ^ 31 -> h < 2 ^ 31 ->
      forall final st',
        run = (Ret (Some final), st') ->
        shrinks_to pil img start final /\ loop_exit final)
  /\ (forall final st',
        PySeq.len (png_data final) < 2 ^ 63 ->
        fst (after_loop pil image_url final st')
        = Ret (lit "data:image/png;base64," ++ b64encode pil (png_data final))
        /\ (MAX_IMAGE_SIZE_BYTES < PySeq.len (png_data final) ->
            exists mb,
              snd (after_loop pil image_url final st')
              = State (stdout st'
                       ++ [lit "Warning: Image from " ++ Main.str image_url
                           ++ lit " still too large (" ++ mb
                           ++ lit " MB) after resizing. Proceeding."])
                      (sent st'))).
Proof.
  intros Hw Hh start run.
  pose proof (resize_loop_returns image_url img (S (Z.to_nat w)) data w h st Hw
                ltac:(lia)) as Hret.
  split; [exact (proj1 (Hret O))|]. split; [intros more; exact (proj2 (Hret more))|].
  split; [|split].
  - intros Hsmall. subst run start. rewrite resize_loop_S, loop_test_small by assumption.
    reflexivity.
  - intros Hw31 Hh31.
    exact (proj1 (proj2 (resize_loop_fuel image_url img (S (Z.to_nat w)) data w h st
                           ltac:(lia) ltac:(lia) ltac:(lia)))).
  - intros final st' Hlen.
    destruct (after_loop_proceeds image_url final st' Hlen) as (Ha & _ & Hb).
    split; assumption.
Qed.

End WithImaging.
End ResizeLoopFacts.

(** ** UTF-8 and the header of [_prepare_cf_html] *)

Module Utf8Facts.
Import PyStrFacts.

Lemma byte_eqb_eq : forall a b : byte, Byte.eqb a b = true <-> a = b.
Proof. intros a b. split; [apply Byte.byte_dec_bl | apply Byte.byte_dec_lb]. Qed.

Lemma encode_utf8_app a b :
  encode_utf8 (a ++ b)
  = match encode_utf8 a, encode_utf8 b with
    | Some x, Some y => Some (x ++ y)
    | _, _ => None
    end.
Proof.
  induction a as [|c a IH]; cbn [encode_utf8 app].
  - destruct (encode_utf8 b); reflexivity.
  - rewrite IH. destruct (encode_char c) as [x|]; [|reflexivity].
    destruct (encode_utf8 a) as [y|]; [|reflexivity].
    destruct (encode_utf8 b) as [z|]; [|reflexivity].
    rewrite app_assoc. reflexivity.
Qed.

(** ASCII text is encoded character by character. *)
Lemma encode_utf8_ascii s :
  Forall (fun c => (c < 128)%N) s -> encode_utf8 s = Some (map octet s).
Proof.
  induction 1 as [|c s Hc _ IH]; [reflexivity|].
  cbn [encode_utf8 map]. rewrite IH. unfold encode_char.
  destruct (N.ltb_spec c 128); [reflexivity | lia].
Qed.

Lemma digits_ascii s :
  Forall (fun c => is_digit c = true) s -> Forall (fun c => (c < 128)%N) s.
Proof.
  apply Forall_impl. intros c H. unfold is_digit in H.
  apply andb_true_iff in H as [_ H]. apply N.leb_le in H. lia.
Qed.

End Utf8Facts.

Module FindFacts.
Section Seq.
Context {A : Type} (eqb : A -> A -> bool).
Hypothesis eqb_eq : forall a b, eqb a b = true <-> a = b.

Lemma startswith_nth (p s : list A) (d : A) :
  PySeq.startswith eqb p s = true ->
  forall i, (i < length p)%nat -> nth i s d = nth i p d.
Proof.
  intros H. apply (PySeqFacts.startswith_iff eqb eqb_eq) in H as [r ->].
  intros i Hi. apply app_nth1. exact Hi.
Qed.

Lemma startswith_short (p a b : list A) :
  PySeq.startswith eqb p (a ++ b) = true -> (length p <= length a)%nat ->
  PySeq.startswith eqb p a = true.
Proof.
  revert a. induction p as [|x p IH]; intros a H Hlen; [reflexivity|].
  destruct a as [|y a]; [simpl in Hlen; lia|].
  cbn [app PySeq.startswith] in *. apply andb_true_iff in H as [Hxy H].
  rewrite Hxy. cbn [andb]. apply IH; [exact H | simpl in Hlen; lia].
Qed.

(** A pattern whose first element is unique in it cannot begin inside [a]
    and end inside a copy of itself that follows [a]. *)
Lemma startswith_straddling (p a b : list A) :
  PySeq.first_unique eqb p = true -> a <> [] ->
  PySeq.startswith eqb p (a ++ p ++ b) = true ->
  PySeq.startswith eqb p a = true.
Proof.
  intros Hu Ha H.
  destruct (Nat.le_gt_cases (length p) (length a)) as [Hle|Hgt].
  - eapply startswith_short; eauto.
  - exfalso. destruct p as [|c p]; [discriminate|]. cbn [PySeq.first_unique] in Hu.
    pose proof (startswith_nth _ _ c H (length a) Hgt) as Hn.
    rewrite (app_nth2 a ((c :: p) ++ b) c (Nat.le_refl (length a))) in Hn.
    rewrite Nat.sub_diag in Hn. cbn [app nth] in Hn.
    destruct (length a) as [|k] eqn:Hk; [destruct a; [congruence | discriminate]|].
    cbn [nth] in Hn. cbn [length] in Hgt.
    rewrite forallb_forall in Hu.
    assert (Hkp : (k < length p)%nat) by lia.
    specialize (Hu (nth k p c) (@nth_In _ k p c Hkp)).
    apply negb_true_iff in Hu.
    assert (eqb c (nth k p c) = true) by (apply eqb_eq; exact Hn). congruence.
Qed.

(** The pattern that follows [a] is the first occurrence when it does not
    occur in [a] and its first element is unique in it. *)
Lemma find_opt_after (p a b : list A) :
  PySeq.first_unique eqb p = true ->
  PySeq.contains eqb p a = false ->
  PySeq.find_opt eqb p (a ++ p ++ b) = Some (length a).
Proof.
  intros Hu Hc. apply (PySeqFacts.find_opt_first eqb).
  - rewrite skipn_app, skipn_all, Nat.sub_diag. cbn [skipn app].
    apply (PySeqFacts.startswith_app eqb eqb_eq).
  - rewrite length_app. lia.
  - intros j Hj. rewrite skipn_app.
    replace (j - length a)%nat with O by lia. cbn [skipn].
    destruct (PySeq.startswith eqb p (skipn j a ++ p ++ b)) eqn:E; [|reflexivity].
    exfalso. apply startswith_straddling in E; [| exact Hu |].
    + unfold PySeq.contains in Hc.
      destruct (PySeq.find_opt eqb p a) eqn:Ef; [discriminate|].
      rewrite (PySeqFacts.find_opt_none eqb _ _ Ef j) in E. discriminate.
    + intros Hnil. apply (f_equal (@length A)) in Hnil.
      rewrite length_skipn in Hnil. simpl in Hnil. lia.
Qed.

(** Skipping a prefix in which no occurrence begins. *)
Lemma find_opt_skip (p pre s : list A) :
  (forall j, (j < length pre)%nat ->
             PySeq.startswith eqb p (skipn j (pre ++ s)) = false) ->
  PySeq.find_opt eqb p (pre ++ s)
  = option_map (Nat.add (length pre)) (PySeq.find_opt eqb p s).
Proof.
  induction pre as [|c pre IH]; intros H.
  - cbn [app length]. destruct (PySeq.find_opt eqb p s); reflexivity.
  - cbn [app PySeq.find_opt]. pose proof (H O ltac:(simpl; lia)) as H0.
    cbn [skipn app] in H0. rewrite H0. rewrite IH.
    + destruct (PySeq.find_opt eqb p s); reflexivity.
    + intros j Hj. apply (H (S j)). simpl. lia.
Qed.

End Seq.
End FindFacts.

Module CfHtmlFacts.
Import Utf8Facts PyStrFacts.

Lemma zeros_value k : fold_left decimal_step (repeat 48%N k) 0 = 0.
Proof. induction k as [|k IH]; [reflexivity | exact IH]. Qed.

Lemma format_010d_field z : 0 <= z < 10 ^ 10 -> offset_field z (format_010d z).
Proof.
  intros Hz. unfold format_010d. destruct (Z.ltb_spec z 0) as [|_]; [lia|].
  destruct (str_nonneg_decimal z ltac:(lia)) as (_ & Hdig & Hval & _).
  pose proof (str_nonneg_length z 9 Hz) as Hlen.
  unfold zfill, offset_field. repeat split.
  - rewrite length_app, repeat_length. lia.
  - apply Forall_app. split; [|exact Hdig].
    apply Forall_forall. intros c Hc. apply repeat_spec in Hc. subst. reflexivity.
  - unfold decimal_value in *. rewrite fold_left_app.
    fold decimal_step. rewrite zeros_value. exact Hval.
Qed.

Lemma ascii_b s :
  forallb (fun c => (c <? 128)%N) s = true -> Forall (fun c => (c < 128)%N) s.
Proof.
  intros H. apply Forall_forall. intros c Hc.
  rewrite forallb_forall in H. apply N.ltb_lt, H, Hc.
Qed.

Lemma length_cf_header f1 f2 f3 f4 :
  length (cf_header f1 f2 f3 f4)
  = (75 + length f1 + length f2 + length f3 + length f4)%nat.
Proof.
  unfold cf_header. cbv zeta. rewrite !length_app.
  change (length EOL) with 4%nat.
  change (length (lit "Version:0.9")) with 11%nat.
  change (length (lit "StartHTML:")) with 10%nat.
  change (length (lit "EndHTML:")) with 8%nat.
  change (length (lit "StartFragment:")) with 14%nat.
  change (length (lit "EndFragment:")) with 12%nat.
  lia.
Qed.

Lemma cf_header_encoded f1 f2 f3 f4 z1 z2 z3 z4 :
  offset_field z1 f1 -> offset_field z2 f2 ->
  offset_field z3 f3 -> offset_field z4 f4 ->
  encode_utf8 (cf_header f1 f2 f3 f4) = Some (map octet (cf_header f1 f2 f3 f4))
  /\ PySeq.len (map octet (cf_header f1 f2 f3 f4)) = 115.
Proof.
  intros (L1 & D1 & _) (L2 & D2 & _) (L3 & D3 & _) (L4 & D4 & _). split.
  - apply encode_utf8_ascii. unfold cf_header. cbv zeta.
    repeat (apply Forall_app; split);
      try (apply digits_ascii; assumption);
      apply ascii_b; reflexivity.
  - unfold PySeq.len. rewrite length_map, length_cf_header, L1, L2, L3, L4.
    reflexivity.
Qed.

Lemma slice_app (a b c : bytes) (i j : Z) :
  PySeq.len a = i -> PySeq.len b = j - i -> PySeq.slice (a ++ b ++ c) i j = b.
Proof.
  unfold PySeq.len, PySeq.slice. intros <- <-. rewrite !Nat2Z.id.
  rewrite skipn_app, skipn_all, Nat.sub_diag. cbn [skipn app].
  rewrite firstn_app, firstn_all, Nat.sub_diag. cbn [firstn]. apply app_nil_r.
Qed.

Lemma len_app (a b : bytes) : PySeq.len (a ++ b) = PySeq.len a + PySeq.len b.
Proof. unfold PySeq.len. rewrite length_app. lia. Qed.

(** The encoded document, and where the two searches find the sentinels. *)
Lemma full_html_encoded html_content content :
  encode_utf8 html_content = Some content ->
  encode_utf8 (full_html_of html_content)
  = Some (HTML_OPEN ++ blit START_SENTINEL ++ content ++ blit END_SENTINEL
          ++ HTML_CLOSE).
Proof.
  intros H. unfold full_html_of. cbv zeta.
  rewrite !encode_utf8_app, H.
  change (encode_utf8 (lit "<html><body>")) with (Some HTML_OPEN).
  change (encode_utf8 (lit START_SENTINEL)) with (Some (blit START_SENTINEL)).
  change (encode_utf8 (lit END_SENTINEL)) with (Some (blit END_SENTINEL)).
  change (encode_utf8 (lit "</body></html>")) with (Some HTML_CLOSE).
  cbv beta iota. rewrite <- !app_assoc. reflexivity.
Qed.

Lemma find_start_sentinel (rest : bytes) :
  bfind (blit START_SENTINEL) (HTML_OPEN ++ blit START_SENTINEL ++ rest) = 12.
Proof.
  unfold bfind, PySeq.find.
  rewrite (PySeqFacts.find_opt_first Byte.eqb _ _ 12); [reflexivity | | | ].
  - change (skipn 12 (HTML_OPEN ++ blit START_SENTINEL ++ rest))
      with (blit START_SENTINEL ++ rest).
    apply (PySeqFacts.startswith_app Byte.eqb byte_eqb_eq).
  - rewrite !length_app. change (length HTML_OPEN) with 12%nat. lia.
  - intros j Hj. do 12 (destruct j as [|j]; [reflexivity|]). lia.
Qed.

Lemma find_end_sentinel (content : bytes) :
  PySeq.contains Byte.eqb (blit END_SENTINEL) content = false ->
  bfind (blit END_SENTINEL)
    (HTML_OPEN ++ blit START_SENTINEL ++ content ++ blit END_SENTINEL ++ HTML_CLOSE)
  = 32 + PySeq.len content.
Proof.
  intros Hc. unfold bfind, PySeq.find.
  rewrite (app_assoc HTML_OPEN).
  rewrite (FindFacts.find_opt_skip Byte.eqb).
  - rewrite (FindFacts.find_opt_after Byte.eqb byte_eqb_eq); [| reflexivity | exact Hc].
    cbn [option_map]. change (length (HTML_OPEN ++ blit START_SENTINEL)) with 32%nat.
    unfold PySeq.len. lia.
  - change (length (HTML_OPEN ++ blit START_SENTINEL)) with 32%nat.
    intros j Hj. do 32 (destruct j as [|j]; [reflexivity|]). lia.
Qed.

End CfHtmlFacts.

(** ** Replacement, and ASCII patterns in UTF-8 text *)

Module ReplaceFacts.
Section Seq.
Context {A : Type} (eqb : A -> A -> bool).
Hypothesis eqb_eq : forall a b, eqb a b = true <-> a = b.

Lemma startswith_head (a : A) (p s : list A) :
  PySeq.startswith eqb (a :: p) s = true -> exists s', s = a :: s'.
Proof.
  destruct s as [|b s]; simpl; [discriminate|].
  intros H. apply andb_true_iff in H as [H _]. apply eqb_eq in H as ->.
  exists s. reflexivity.
Qed.

(** Replacing a pattern whose first element does not occur changes nothing. *)
Lemma replace_absent (a : A) (old new s : list A) :
  ~ In a s -> PySeq.replace eqb (a :: old) new s = s.
Proof.
  unfold PySeq.replace. induction s as [|c s IH]; [reflexivity|].
  intros Hin. cbn [PySeq.replace_from].
  destruct (PySeq.startswith eqb (a :: old) (c :: s)) eqn:E.
  - apply startswith_head in E as [s' [= -> _]]. exfalso. apply Hin. left. reflexivity.
  - f_equal. apply IH. intros H. apply Hin. right. exact H.
Qed.

Lemma contains_cons (p : list A) (x : A) (s : list A) :
  PySeq.contains eqb p (x :: s) = true ->
  PySeq.startswith eqb p (x :: s) = true \/ PySeq.contains eqb p s = true.
Proof.
  unfold PySeq.contains. cbn [PySeq.find_opt].
  destruct (PySeq.startswith eqb p (x :: s)); [left; reflexivity|].
  destruct (PySeq.find_opt eqb p s); [right; reflexivity | discriminate].
Qed.

Lemma contains_startswith (p s : list A) :
  PySeq.startswith eqb p s = true -> PySeq.contains eqb p s = true.
Proof.
  unfold PySeq.contains. destruct s; cbn [PySeq.find_opt]; intros ->; reflexivity.
Qed.

Lemma contains_later (p : list A) (x : A) (s : list A) :
  PySeq.contains eqb p s = true -> PySeq.contains eqb p (x :: s) = true.
Proof.
  unfold PySeq.contains. cbn [PySeq.find_opt].
  destruct (PySeq.startswith eqb p (x :: s)); [reflexivity|].
  destruct (PySeq.find_opt eqb p s); [reflexivity | discriminate].
Qed.

End Seq.
End ReplaceFacts.

Module Utf8AsciiFacts.
Import Utf8Facts.

Lemma below (n : nat) (P : N -> bool) :
  forallb P (map N.of_nat (seq 0 n)) = true ->
  forall y, (y < N.of_nat n)%N -> P y = true.
Proof.
  intros H y Hy. rewrite forallb_forall in H. apply H.
  apply in_map_iff. exists (N.to_nat y). split; [lia|].
  apply in_seq. lia.
Qed.

Lemma land_63 c : (N.land c 63 < 64)%N.
Proof. change 63%N with (N.ones 6). rewrite N.land_ones. apply N.mod_lt. discriminate. Qed.

Lemma shiftr_lt c k m : (c < m * 2 ^ k)%N -> (N.shiftr c k < m)%N.
Proof.
  intros H. rewrite N.shiftr_div_pow2. apply N.Div0.div_lt_upper_bound. lia.
Qed.

Lemma continuation_high y : (y < 64)%N -> high (octet (N.lor 128 y)) = true.
Proof. apply (below 64 (fun y => high (octet (N.lor 128 y)))). vm_compute. reflexivity. Qed.

Lemma some_inj {A} (x y : A) : Some x = Some y -> x = y.
Proof. intros [= ->]. reflexivity. Qed.

(** The encoding of a character outside ASCII has no ASCII byte. *)
Lemma encode_char_high c bs :
  (128 <= c)%N -> encode_char c = Some bs -> forallb high bs = true.
Proof.
  intros Hc. unfold encode_char.
  destruct (N.ltb_spec c 128); [lia|].
  destruct (N.ltb_spec c 2048).
  { intros E. apply some_inj in E. subst bs. cbn [forallb].
    rewrite (continuation_high _ (land_63 c)).
    rewrite (below 32 (fun y => high (octet (N.lor 192 y))) eq_refl
               _ (shiftr_lt c 6 32 ltac:(simpl; lia))).
    reflexivity. }
  destruct (N.ltb_spec c 65536).
  { destruct ((55296 <=? c) && (c <=? 57343))%N; [discriminate|].
    intros E. apply some_inj in E. subst bs. cbn [forallb].
    rewrite !(continuation_high _ (land_63 _)).
    rewrite (below 16 (fun y => high (octet (N.lor 224 y))) eq_refl
               _ (shiftr_lt c 12 16 ltac:(simpl; lia))).
    reflexivity. }
  destruct (N.ltb_spec c 1114112); [|discriminate].
  intros E. apply some_inj in E. subst bs. cbn [forallb].
  rewrite !(continuation_high _ (land_63 _)).
  rewrite (below 8 (fun y => high (octet (N.lor 240 y))) eq_refl
             _ (shiftr_lt c 18 8 ltac:(simpl; lia))).
  reflexivity.
Qed.

Lemma octet_low a : (a < 128)%N -> high (octet a) = false.
Proof.
  intros H. destruct (high (octet a)) eqn:E; [|reflexivity].
  rewrite <- E. symmetry.
  pose proof (below 128 (fun y => negb (high (octet y))) eq_refl a H) as Hb.
  apply negb_true_iff in Hb. rewrite Hb in E. discriminate.
Qed.

Lemma octet_inj a c : (a < 128)%N -> (c < 128)%N -> octet a = octet c -> a = c.
Proof.
  intros Ha Hc H.
  assert (Hto : forall y, (y < 128)%N -> Byte.to_N (octet y) = y).
  { intros y Hy.
    apply N.eqb_eq.
    exact (below 128 (fun y => (Byte.to_N (octet y) =? y)%N) eq_refl y Hy). }
  rewrite <- (Hto a Ha), <- (Hto c Hc), H. reflexivity.
Qed.

(** No occurrence of an ASCII pattern starts at a byte of a multi-byte
    sequence. *)
Lemma startswith_high b e a q' :
  (a < 128)%N -> high b = true ->
  PySeq.startswith Byte.eqb (map octet (a :: q')) (b :: e) = false.
Proof.
  intros Ha Hb. cbn [map PySeq.startswith].
  destruct (Byte.eqb (octet a) b) eqn:E; [|reflexivity].
  apply byte_eqb_eq in E. subst b. rewrite (octet_low a Ha) in Hb. discriminate.
Qed.

(** An ASCII pattern at the head of an encoding is at the head of the text. *)
Lemma startswith_encoded q :
  Forall (fun c => (c < 128)%N) q ->
  forall s e, encode_utf8 s = Some e ->
    PySeq.startswith Byte.eqb (map octet q) e = true ->
    startswith q s = true.
Proof.
  induction 1 as [|a q Ha _ IH]; intros s e Henc Hst; [reflexivity|].
  destruct s as [|c s].
  { injection Henc as <-. discriminate. }
  cbn [encode_utf8] in Henc.
  destruct (encode_char c) as [bs|] eqn:Ec; [|discriminate].
  destruct (encode_utf8 s) as [e'|] eqn:Es; [|discriminate].
  injection Henc as <-.
  destruct (N.ltb_spec c 128) as [Hc|Hc].
  - unfold encode_char in Ec. destruct (N.ltb_spec c 128); [|lia].
    injection Ec as <-. cbn [map app PySeq.startswith] in Hst.
    apply andb_true_iff in Hst as [H1 H2].
    apply byte_eqb_eq in H1. apply (octet_inj a c Ha Hc) in H1. subst c.
    unfold startswith. cbn [PySeq.startswith]. rewrite N.eqb_refl.
    exact (IH s e' Es H2).
  - pose proof (encode_char_high c bs Hc Ec) as Hhigh.
    destruct bs as [|b bs].
    { unfold encode_char in Ec.
      repeat match type of Ec with
             | (if ?x then _ else _) = _ => destruct x
             end; discriminate. }
    cbn [forallb] in Hhigh. apply andb_true_iff in Hhigh as [Hb _].
    cbn [app] in Hst. rewrite (startswith_high b _ a q Ha Hb) in Hst. discriminate.
Qed.

(** An ASCII pattern in an encoding is in the text. *)
Lemma contains_encoded a q :
  Forall (fun c => (c < 128)%N) (a :: q) ->
  forall s e, encode_utf8 s = Some e ->
    PySeq.contains Byte.eqb (map octet (a :: q)) e = true ->
    contains (a :: q) s = true.
Proof.
  intros Hq. pose proof (Forall_inv Hq) as Ha.
  induction s as [|c s IH]; intros e Henc Hin.
  { injection Henc as <-. discriminate. }
  cbn [encode_utf8] in Henc.
  destruct (encode_char c) as [bs|] eqn:Ec; [|discriminate].
  destruct (encode_utf8 s) as [e'|] eqn:Es; [|discriminate].
  injection Henc as <-.
  assert (Hrest : PySeq.contains Byte.eqb (map octet (a :: q)) e' = true ->
                  contains (a :: q) (c :: s) = true).
  { intros H. apply ReplaceFacts.contains_later. exact (IH e' eq_refl H). }
  destruct (N.ltb_spec c 128) as [Hc|Hc].
  - assert (Ec' := Ec). unfold encode_char in Ec'. destruct (N.ltb_spec c 128); [|lia].
    injection Ec' as <-. cbn [app] in Hin.
    apply ReplaceFacts.contains_cons in Hin as [Hst|Hin]; [|exact (Hrest Hin)].
    apply ReplaceFacts.contains_startswith.
    apply (startswith_encoded (a :: q) Hq (c :: s) ([octet c] ++ e')); [|exact Hst].
    cbn [encode_utf8]. rewrite Ec, Es. reflexivity.
  - pose proof (encode_char_high c bs Hc Ec) as Hhigh.
    clear Ec. induction bs as [|b bs IHb]; [exact (Hrest Hin)|].
    cbn [forallb] in Hhigh. apply andb_true_iff in Hhigh as [Hb Hhigh].
    cbn [app] in Hin.
    apply ReplaceFacts.contains_cons in Hin as [Hst|Hin].
    + rewrite (startswith_high b _ a q Ha Hb) in Hst. discriminate.
    + exact (IHb Hin Hhigh).
Qed.

End Utf8AsciiFacts.

(** ** The offsets of [_prepare_cf_html] *)

Module CfHtmlOffsets.
Import Utf8Facts Utf8AsciiFacts PyStrFacts CfHtmlFacts.

(** C1, as amended.  For a fragment that [encode('utf-8')] accepts, whose
    text does not contain the end sentinel and whose encoding is short
    enough for every offset to stay below 10^10, [_prepare_cf_html]
    returns a header with four offset fields of ten decimal digits,
    followed by the encoded document around the fragment.  StartHTML is
    the length of the header, which is also the length measured with the
    placeholder offsets; the bytes from StartHTML to EndHTML are the
    encoded document; the start sentinel begins at StartFragment and the
    end sentinel ends at EndFragment, with the encoded fragment between
    the two. *)
Theorem prepare_cf_html_offsets (html_content : pystr) (content : bytes) :
  encode_utf8 html_content = Some content ->
  contains (lit END_SENTINEL) html_content = false ->
  PySeq.len content < 10 ^ 10 - 179 ->
  let doc := blit "<html><body>" ++ blit START_SENTINEL ++ content
             ++ blit END_SENTINEL ++ blit "</body></html>" in
  let start_html := 115 in
  let end_html := start_html + PySeq.len doc in
  let start_fragment := start_html + 12 in
  let end_fragment := start_fragment + 20 + PySeq.len content + 18 in
  let dummy_offset := lit "0000000000" in
  exists f1 f2 f3 f4 header,
    offset_field start_html f1 /\ offset_field end_html f2
    /\ offset_field start_fragment f3 /\ offset_field end_fragment f4
    /\ encode_utf8 (cf_header f1 f2 f3 f4) = Some header
    /\ encode_utf8 (full_html_of html_content) = Some doc
    /\ _prepare_cf_html html_content = Some (header ++ doc)
    /\ PySeq.len header = start_html
    /\ option_map PySeq.len
         (encode_utf8 (cf_header dummy_offset dummy_offset dummy_offset dummy_offset))
       = Some start_html
    /\ PySeq.slice (header ++ doc) start_html end_html = doc
    /\ PySeq.slice (header ++ doc) start_fragment (start_fragment + 20)
       = blit START_SENTINEL
    /\ PySeq.slice (header ++ doc) (start_fragment + 20) (end_fragment - 18)
       = content
    /\ PySeq.slice (header ++ doc) (end_fragment - 18) end_fragment
       = blit END_SENTINEL.
Proof.
  intros Henc Hstr Hlen doc start_html end_html start_fragment end_fragment dummy_offset.
  assert (Hno : PySeq.contains Byte.eqb (blit END_SENTINEL) content = false).
  { destruct (PySeq.contains Byte.eqb (blit END_SENTINEL) content) eqn:E; [|reflexivity].
    rewrite <- Hstr. symmetry.
    refine (contains_encoded 60%N (tl (lit END_SENTINEL)) _ html_content content Henc E).
    apply ascii_b. reflexivity. }
  assert (Hlc : 0 <= PySeq.len content) by (unfold PySeq.len; lia).
  assert (Hdoc : PySeq.len doc = 64 + PySeq.len content).
  { subst doc. rewrite !len_app.
    change (PySeq.len (blit "<html><body>")) with 12.
    change (PySeq.len (blit START_SENTINEL)) with 20.
    change (PySeq.len (blit END_SENTINEL)) with 18.
    change (PySeq.len (blit "</body></html>")) with 14. lia. }
  assert (H10 : 10 ^ 10 = 10000000000) by reflexivity.
  pose proof (format_010d_field start_html ltac:(subst start_html; lia)) as F1.
  pose proof (format_010d_field end_html ltac:(subst end_html start_html; lia)) as F2.
  pose proof (format_010d_field start_fragment
                ltac:(subst start_fragment start_html; lia)) as F3.
  pose proof (format_010d_field end_fragment
                ltac:(subst end_fragment start_fragment start_html; lia)) as F4.
  destruct (cf_header_encoded _ _ _ _ _ _ _ _ F1 F2 F3 F4) as [Hhdr Hhlen].
  set (header := map octet (cf_header (format_010d start_html) (format_010d end_html)
                              (format_010d start_fragment) (format_010d end_fragment))) in *.
  exists (format_010d start_html), (format_010d end_html),
    (format_010d start_fragment), (format_010d end_fragment), header.
  split; [exact F1|]. split; [exact F2|]. split; [exact F3|]. split; [exact F4|].
  split; [exact Hhdr|].
  split; [exact (full_html_encoded _ _ Henc)|].
  split.
  { unfold _prepare_cf_html. cbv zeta.
    rewrite (full_html_encoded _ _ Henc).
    change (encode_utf8 (cf_header (lit "0000000000") (lit "0000000000")
                           (lit "0000000000") (lit "0000000000")))
      with (Some (map octet (cf_header (lit "0000000000") (lit "0000000000")
                               (lit "0000000000") (lit "0000000000")))).
    cbv iota beta.
    change (PySeq.len (map octet (cf_header (lit "0000000000") (lit "0000000000")
                                    (lit "0000000000") (lit "0000000000"))))
      with 115.
    rewrite find_start_sentinel, (find_end_sentinel content Hno).
    fold doc. change (HTML_OPEN ++ blit START_SENTINEL ++ content
                      ++ blit END_SENTINEL ++ HTML_CLOSE) with doc.
    change (PySeq.len (blit END_SENTINEL)) with 18.
    replace (115 + (32 + PySeq.len content) + 18) with end_fragment
      by (subst end_fragment start_fragment start_html; lia).
    fold start_html. fold end_html. change (start_html + 12) with start_fragment.
    rewrite Hhdr. reflexivity. }
  split; [exact Hhlen|].
  split; [reflexivity|].
  split.
  { rewrite <- (app_nil_r doc) at 1. apply slice_app; [exact Hhlen|].
    subst end_html. lia. }
  subst doc.
  split.
  { rewrite (app_assoc header). apply slice_app.
    - rewrite len_app, Hhlen. reflexivity.
    - change (PySeq.len (blit START_SENTINEL)) with 20. lia. }
  split.
  { rewrite (app_assoc header), (app_assoc (header ++ _)). apply slice_app.
    - rewrite !len_app, Hhlen. reflexivity.
    - subst end_fragment. lia. }
  { rewrite (app_assoc header), (app_assoc (header ++ _)),
      (app_assoc ((header ++ _) ++ _)). apply slice_app.
    - rewrite !len_app, Hhlen.
      change (PySeq.len (blit "<html><body>")) with 12.
      change (PySeq.len (blit START_SENTINEL)) with 20.
      subst end_fragment start_fragment start_html. lia.
    - change (PySeq.len (blit END_SENTINEL)) with 18. lia. }
Qed.


(** A fragment of nine bytes: it lies at bytes 147 to 156 of the payload. *)
Lemma prepare_cf_html_offsets_witness :
  exists header,
    _prepare_cf_html (lit "<p>hi</p>")
    = Some (header ++ blit "<html><body><!--StartFragment--><p>hi</p><!--EndFragment--></body></html>")
    /\ PySeq.len header = 115
    /\ PySeq.slice (header ++ blit "<html><body><!--StartFragment--><p>hi</p><!--EndFragment--></body></html>")
         147 156
       = blit "<p>hi</p>".
Proof.
  destruct (prepare_cf_html_offsets (lit "<p>hi</p>") (blit "<p>hi</p>"))
    as (f1 & f2 & f3 & f4 & header & _ & _ & _ & _ & _ & _ & Hrun & Hlen & _ & _ & _ & Hfrag & _).
  - reflexivity.
  - reflexivity.
  - vm_compute. reflexivity.
  - exists header. split; [exact Hrun|]. split; [exact Hlen|]. exact Hfrag.
Defined.

(** C1 fails as stated: a lone surrogate is a fragment string, and
    [encode('utf-8')] refuses it, so no payload is produced. *)
Lemma prepare_cf_html_surrogate : _prepare_cf_html [55296%N] = None.
Proof. reflexivity. Qed.

(** A fragment that contains the end sentinel: [find] stops at the
    fragment's own copy, and EndFragment is 165 where the closing sentinel
    ends at byte 183. *)
Lemma prepare_cf_html_inner_sentinel :
  let doc := blit "<html><body>" ++ blit START_SENTINEL ++ blit END_SENTINEL
             ++ blit END_SENTINEL ++ blit "</body></html>" in
  let header := map octet (cf_header (lit "0000000115") (lit "0000000197")
                             (lit "0000000127") (lit "0000000165")) in
  _prepare_cf_html (lit END_SENTINEL) = Some (header ++ doc)
  /\ PySeq.slice (header ++ doc) (183 - 18) 183 = blit END_SENTINEL
  /\ PySeq.slice (header ++ doc) (165 - 18) 165 = blit END_SENTINEL
  /\ PySeq.slice (header ++ doc) 147 165 ++ PySeq.slice (header ++ doc) 165 183
     = blit END_SENTINEL ++ blit END_SENTINEL.
Proof. vm_compute. repeat split. Qed.

End CfHtmlOffsets.

(** ** Fragments of 10^10 bytes *)

Module CfHtmlLongFacts.
Import Utf8Facts Utf8AsciiFacts PyStrFacts CfHtmlFacts.

Lemma format_010d_digits z :
  0 <= z -> Forall (fun c => is_digit c = true) (format_010d z).
Proof.
  intros Hz. unfold format_010d. destruct (Z.ltb_spec z 0) as [|_]; [lia|].
  destruct (str_nonneg_decimal z Hz) as (_ & Hdig & _).
  unfold zfill. apply Forall_app. split; [|exact Hdig].
  apply Forall_forall. intros c Hc. apply repeat_spec in Hc. subst. reflexivity.
Qed.

Lemma cf_header_ascii f1 f2 f3 f4 :
  Forall (fun c => is_digit c = true) f1 -> Forall (fun c => is_digit c = true) f2 ->
  Forall (fun c => is_digit c = true) f3 -> Forall (fun c => is_digit c = true) f4 ->
  encode_utf8 (cf_header f1 f2 f3 f4) = Some (map octet (cf_header f1 f2 f3 f4)).
Proof.
  intros D1 D2 D3 D4. apply encode_utf8_ascii. unfold cf_header. cbv zeta.
  repeat (apply Forall_app; split);
    try (apply digits_ascii; assumption);
    apply ascii_b; reflexivity.
Qed.

(** The payload, whatever the length of the fragment. *)
Lemma prepare_cf_html_run (html_content : pystr) (content : bytes) :
  encode_utf8 html_content = Some content ->
  PySeq.contains Byte.eqb (blit END_SENTINEL) content = false ->
  _prepare_cf_html html_content
  = Some (map octet (cf_header (format_010d 115)
                       (format_010d (179 + PySeq.len content))
                       (format_010d 127)
                       (format_010d (165 + PySeq.len content)))
          ++ HTML_OPEN ++ blit START_SENTINEL ++ content ++ blit END_SENTINEL
          ++ HTML_CLOSE).
Proof.
  intros Henc Hno.
  assert (Hlc : 0 <= PySeq.len content) by (unfold PySeq.len; lia).
  unfold _prepare_cf_html. cbv zeta.
  rewrite (full_html_encoded _ _ Henc).
  change (encode_utf8 (cf_header (lit "0000000000") (lit "0000000000")
                         (lit "0000000000") (lit "0000000000")))
    with (Some (map octet (cf_header (lit "0000000000") (lit "0000000000")
                             (lit "0000000000") (lit "0000000000")))).
  cbv iota beta.
  change (PySeq.len (map octet (cf_header (lit "0000000000") (lit "0000000000")
                                  (lit "0000000000") (lit "0000000000"))))
    with 115.
  rewrite find_start_sentinel, (find_end_sentinel content Hno).
  rewrite !len_app.
  change (PySeq.len HTML_OPEN) with 12.
  change (PySeq.len (blit START_SENTINEL)) with 20.
  change (PySeq.len (blit END_SENTINEL)) with 18.
  change (PySeq.len HTML_CLOSE) with 14.
  change (115 + 12) with 127.
  replace (115 + (12 + (20 + (PySeq.len content + (18 + 14)))))
    with (179 + PySeq.len content) by lia.
  replace (115 + (32 + PySeq.len content) + 18) with (165 + PySeq.len content) by lia.
  rewrite cf_header_ascii; [reflexivity | | | |];
    apply format_010d_digits; lia.
Qed.

Lemma encode_letters (k : nat) :
  encode_utf8 (repeat 97%N k) = Some (repeat "a"%byte k).
Proof.
  rewrite encode_utf8_ascii.
  - rewrite map_repeat. reflexivity.
  - apply Forall_forall. intros c Hc. apply repeat_spec in Hc. subst. reflexivity.
Qed.

Lemma no_sentinel_in_letters (k : nat) :
  PySeq.contains Byte.eqb (blit END_SENTINEL) (repeat "a"%byte k) = false.
Proof.
  unfold PySeq.contains.
  assert (H : PySeq.find_opt Byte.eqb (blit END_SENTINEL) (repeat "a"%byte k) = None).
  { induction k as [|k IH]; [reflexivity|].
    cbn [repeat]. cbn [PySeq.find_opt].
    change (PySeq.startswith Byte.eqb (blit END_SENTINEL) ("a"%byte :: repeat "a"%byte k))
      with false.
    rewrite IH. reflexivity. }
  rewrite H. reflexivity.
Qed.

(** From 10^10 bytes on the offsets take eleven digits: for a fragment of
    10^10 letters the header is 117 bytes long, two more than the 115 that
    were measured with the placeholders and that StartHTML still says. *)
Lemma prepare_cf_html_eleven_digits :
  let html_content := repeat 97%N (Z.to_nat (10 ^ 10)) in
  let header := map octet (cf_header (lit "0000000115") (lit "10000000179")
                             (lit "0000000127") (lit "10000000165")) in
  exists doc,
    encode_utf8 (full_html_of html_content) = Some doc
    /\ _prepare_cf_html html_content = Some (header ++ doc)
    /\ PySeq.len header = 117.
Proof.
  cbv zeta. eexists. split; [|split].
  - apply full_html_encoded, encode_letters.
  - rewrite (prepare_cf_html_run _ _ (encode_letters _) (no_sentinel_in_letters _)).
    unfold PySeq.len at 1 2. rewrite repeat_length, Z2Nat.id by (apply Z.pow_nonneg; lia).
    replace (format_010d 115) with (lit "0000000115") by (vm_compute; reflexivity).
    replace (format_010d (179 + 10 ^ 10)) with (lit "10000000179")
      by (vm_compute; reflexivity).
    replace (format_010d 127) with (lit "0000000127") by (vm_compute; reflexivity).
    replace (format_010d (165 + 10 ^ 10)) with (lit "10000000165")
      by (vm_compute; reflexivity).
    reflexivity.
  - vm_compute. reflexivity.
Qed.

End CfHtmlLongFacts.

(** ** Text segments on the clipboard *)

Module ClipboardTextFacts.

Lemma drop_while_incl (f : N -> bool) (s : pystr) (c : N) :
  In c (PySeq.drop_while f s) -> In c s.
Proof.
  induction s as [|d s IH]; cbn [PySeq.drop_while]; [tauto|].
  destruct (f d); [right; apply IH; assumption | tauto].
Qed.

Lemma strip_incl (s : pystr) (c : N) : In c (strip s) -> In c s.
Proof.
  unfold strip, rstrip, lstrip. intros H.
  apply in_rev, drop_while_incl, in_rev, drop_while_incl in H. exact H.
Qed.

Lemma contains_char (c : N) (s : pystr) : In c s -> contains [c] s = true.
Proof.
  intros H. apply in_split in H as (a & b & ->).
  exact (PySeqFacts.contains_app N.eqb PyStrEq.Neqb_eq [c] a b).
Qed.

(** What the replacement in [text_paragraph] does to a text that has no
    backslash: nothing, whatever newlines the text has. *)
Lemma text_paragraph_without_backslash (text : pystr) :
  contains BACKSLASH text = false ->
  text_paragraph text = lit "<p>" ++ strip text ++ lit "</p>".
Proof.
  intros H. unfold text_paragraph. cbv zeta. do 2 f_equal.
  apply (ReplaceFacts.replace_absent N.eqb PyStrEq.Neqb_eq).
  intros Hin. apply strip_incl, contains_char in Hin.
  unfold BACKSLASH in H. rewrite H in Hin. discriminate.
Qed.

(** What is replaced is a backslash followed by the letter n. *)
Example text_paragraph_backslash_n :
  text_paragraph (lit "a" ++ BACKSLASH ++ lit "nb") = lit "<p>a<br>b</p>".
Proof. reflexivity. Qed.

Section WithImaging.
Context (rt : runtime) (pil : imaging rt) (encode_error : pystr -> pystr).

(** C7, on a text of two lines: the newline between them is still in the
    paragraph, and in the data put on the clipboard; no line break element
    is there. *)
Theorem text_segment_newline_kept (st : state) :
  let text := lit "a" ++ NL ++ lit "b" in
  let paragraph := lit "<p>a" ++ NL ++ lit "b</p>" in
  text_paragraph text = paragraph
  /\ contains (lit "<br>") (text_paragraph text) = false
  /\ add_segment pil [] (Text text) st = (Ret [paragraph], st)
  /\ exists header,
       fst (set_clipboard_text_and_image pil encode_error [Text text] st)
       = Ret (Some (header ++ blit "<html><body><!--StartFragment--><p>a"
                    ++ [x0a] ++ blit "b</p><!--EndFragment--></body></html>")).
Proof.
  cbv zeta. split; [reflexivity|]. split; [reflexivity|]. split; [reflexivity|].
  exists (map octet (cf_header (lit "0000000115") (lit "0000000189")
                        (lit "0000000127") (lit "0000000175"))).
  vm_compute. reflexivity.
Qed.

End WithImaging.
End ClipboardTextFacts.

(** ** [parse_bili] on concrete networks *)

Module ParseBiliCases.
Import Examples ResolveFacts ParseBiliFacts.

(** The redirect of the specification's example. *)
Lemma resolve_b23_url_spec_witness :
  fst (resolve_b23_url (redirecting (lit "https://www.x.com/video/ABC123?x=1/"))
         (lit "https://b23.tv/abc") start)
  = Ret (Some (lit "https://www.x.com/video/ABC123")).
Proof.
  exact (proj1 (proj2 (resolve_b23_url_spec no_floats
           (redirecting (lit "https://www.x.com/video/ABC123?x=1/"))
           (lit "https://b23.tv/abc") start eq_refl))
         _ (lit "https://www.x.com/video/ABC123?x=1/") eq_refl (or_intror eq_refl) eq_refl
         ltac:(discriminate)).
Defined.

(** C6 fails as stated: on a redirect whose Location header is there and
    empty, the result is [None], not the value of the header cleaned. *)
Lemma resolve_b23_url_empty_location :
  let w := network (reply 301 (Some []) no_json) unreachable unreachable unreachable in
  let run := resolve_b23_url w (lit "https://b23.tv/abc") start in
  fst run = Ret None
  /\ fst run <> Ret (Some (without_final_slash (before_query []))).
Proof. split; [reflexivity | discriminate]. Qed.

(** One final slash is removed, not every one. *)
Example resolve_b23_url_two_slashes :
  fst (resolve_b23_url (redirecting (lit "https://www.x.com/video/ABC123//"))
         (lit "https://b23.tv/abc") start)
  = Ret (Some (lit "https://www.x.com/video/ABC123/")).
Proof. reflexivity. Qed.






End ParseBiliCases.

(** ** The resize loop on concrete images *)

Module ResizeLoopCases.
Import Examples ResizeLoopFacts CfHtmlFacts.

Lemma len_blob n : 0 <= n -> PySeq.len (blob n) = n.
Proof. intros Hn. unfold PySeq.len, blob. rewrite repeat_length. lia. Qed.

(** An image of 200 by 100 pixels, within the budget. *)
Lemma load_image_resize_loop_witness :
  let img := (200, 100) in
  let data := blob 80000 in
  resize_loop (raw_rgba img) (S (Z.to_nat 200)) JNull img (Encoded data 200 100) start
  = (Ret (Some (Encoded data 200 100)), start).
Proof.
  intros img data.
  refine (proj1 (proj2 (proj2
            (load_image_resize_loop no_floats (raw_rgba img) JNull img data 200 100 start
               _ _))) _).
  - discriminate.
  - discriminate.
  - subst data. rewrite len_blob by discriminate. discriminate.
Defined.

Ltac loop_turn :=
  rewrite resize_loop_step by (split; [discriminate | reflexivity]);
  cbn [save_png resize raw_rgba fst snd];
  rewrite ?len_blob by discriminate;
  match goal with
  | |- context [if ?c then _ else _] =>
      let b := eval vm_compute in c in
      replace c with b by (vm_compute; reflexivity); cbv iota
  end;
  match goal with
  | |- context [megabytes ?n] =>
      let H := fresh in let mb := fresh "mb" in
      destruct (megabytes_returns n) as [mb H];
      [split; [discriminate | reflexivity] | rewrite H; clear H]
  | _ => idtac
  end;
  cbv zeta; cbv iota;
  rewrite ?len_blob by discriminate;
  match goal with
  | |- context [megabytes ?n] =>
      let H := fresh in let mb := fresh "mb" in
      destruct (megabytes_returns n) as [mb H];
      [split; [discriminate | reflexivity] | rewrite H; clear H]
  | _ => idtac
  end;
  cbv iota.

(** C2 fails as stated: an image of 1000 by 170000 pixels, both dimensions
    well above the floor, whose encoding takes four bytes a pixel, leaves
    the loop at 105 by 18252 pixels, where another turn would take the
    width below 100, with 7665840 bytes, more than the budget. *)
Lemma resize_loop_over_budget :
  let img := (1000, 170000) in
  exists final st',
    resize_loop (raw_rgba img) (S (Z.to_nat 1000)) JNull img
      (Encoded (blob (4 * 1000 * 170000)) 1000 170000) start
    = (Ret (Some final), st')
    /\ current_width final = 105 /\ current_height final = 18252
    /\ PySeq.len (png_data final) = 7665840
    /\ MAX_IMAGE_SIZE_BYTES < PySeq.len (png_data final).
Proof.
  intros img. change (S (Z.to_nat 1000)) with (11 + 990)%nat. cbn [Nat.add].
  change (4 * 1000 * 170000) with 680000000.
  loop_turn. change (4 * 1000 / 5) with 800. change (4 * 170000 / 5) with 136000.
  change (4 * 800 * 136000) with 435200000.
  loop_turn. change (4 * 800 / 5) with 640. change (4 * 136000 / 5) with 108800.
  change (4 * 640 * 108800) with 278528000.
  loop_turn. change (4 * 640 / 5) with 512. change (4 * 108800 / 5) with 87040.
  change (4 * 512 * 87040) with 178257920.
  loop_turn. change (4 * 512 / 5) with 409. change (4 * 87040 / 5) with 69632.
  change (4 * 409 * 69632) with 113917952.
  loop_turn. change (4 * 409 / 5) with 327. change (4 * 69632 / 5) with 55705.
  change (4 * 327 * 55705) with 72862140.
  loop_turn. change (4 * 327 / 5) with 261. change (4 * 55705 / 5) with 44564.
  change (4 * 261 * 44564) with 46524816.
  loop_turn. change (4 * 261 / 5) with 208. change (4 * 44564 / 5) with 35651.
  change (4 * 208 * 35651) with 29661632.
  loop_turn. change (4 * 208 / 5) with 166. change (4 * 35651 / 5) with 28520.
  change (4 * 166 * 28520) with 18937280.
  loop_turn. change (4 * 166 / 5) with 132. change (4 * 28520 / 5) with 22816.
  change (4 * 132 * 22816) with 12046848.
  loop_turn. change (4 * 132 / 5) with 105. change (4 * 22816 / 5) with 18252.
  change (4 * 105 * 18252) with 7665840.
  loop_turn.
  eexists _, _. split; [reflexivity|]. cbn [current_width current_height png_data].
  rewrite len_blob by discriminate. repeat split.
Qed.

End ResizeLoopCases.

(** ** The requests [parse_bili] sends *)

Module RequestFacts.


Section Sends.
Context {A B : Type} (P : request -> Prop).

Lemma sends_ret (a : A) : sends P 0 (ret a).
Proof. intros st. exists []. cbn. rewrite app_nil_r. auto. Qed.

Lemma sends_raise (e : exn) : sends P 0 (@raise A e).
Proof. intros st. exists []. cbn. rewrite app_nil_r. auto. Qed.

Lemma sends_lift (r : result A) : sends P 0 (lift r).
Proof. intros st. exists []. cbn. rewrite app_nil_r. auto. Qed.

Lemma sends_more (k k' : nat) (c : M A) :
  (k <= k')%nat -> sends P k c -> sends P k' c.
Proof.
  intros Hk H st. destruct (H st) as (l & E & Hl & HP).
  exists l. repeat split; auto. lia.
Qed.

Lemma sends_bind (k1 k2 : nat) (c : M A) (f : A -> M B) :
  sends P k1 c -> (forall a, sends P k2 (f a)) -> sends P (k1 + k2) (bind c f).
Proof.
  intros Hc Hf st. destruct (Hc st) as (l1 & E1 & Hl1 & HP1). unfold bind.
  destruct (c st) as [[a|e] st1]; cbn [snd] in *.
  - destruct (Hf a st1) as (l2 & E2 & Hl2 & HP2).
    exists (l1 ++ l2). rewrite E2, E1, app_assoc, length_app.
    repeat split; [lia | apply Forall_app; auto].
  - exists l1. repeat split; auto. lia.
Qed.

Lemma sends_bind_lift (k : nat) (r : result A) (f : A -> M B) :
  (forall a, sends P k (f a)) -> sends P k (bind (lift r) f).
Proof. intros Hf. apply (sends_bind 0 k); [apply sends_lift | exact Hf]. Qed.

Lemma sends_try (k : nat) (c : M A) : sends P k c -> sends P k (try c).
Proof.
  intros Hc st. destruct (Hc st) as (l & E & Hl & HP). unfold try.
  destruct (c st) as [[a|e] st1]; exists l; auto.
Qed.

End Sends.

Lemma sends_print (P : request -> Prop) (line : pystr) : sends P 0 (print line).
Proof. intros st. exists []. cbn. rewrite app_nil_r. auto. Qed.

Lemma sends_bind_print {B} (P : request -> Prop) (k : nat) (line : pystr)
  (f : unit -> M B) :
  (forall a, sends P k (f a)) -> sends P k (bind (print line) f).
Proof. intros Hf. apply (sends_bind P 0 k); [apply sends_print | exact Hf]. Qed.

Section WithRuntime.
Context (rt : runtime) (w : world rt).

Lemma sends_requests_get (P : request -> Prop) (rq : request) :
  P rq -> sends P 1 (requests_get w rq).
Proof.
  intros HP st. exists [rq]. unfold requests_get.
  destruct (w rq); cbn; auto.
Qed.

Ltac sends_step :=
  first
    [ apply sends_ret
    | apply sends_raise
    | apply sends_bind_lift; intros ?
    | apply sends_bind_print; intros ?
    | match goal with
      | |- sends _ _ (if ?c then _ else _) => destruct c
      | |- sends _ _ (match ?x with _ => _ end) => destruct x
      end ].

(** What follows a computation only adds to the requests it has sent. *)
Lemma sent_bind {A B} (P : request -> Prop) (k : nat) (c : M A) (f : A -> M B) st :
  (forall a, sends P k (f a)) ->
  exists l, sent (snd (bind c f st)) = sent (snd (c st)) ++ l
            /\ (length l <= k)%nat /\ Forall P l.
Proof.
  intros Hf. unfold bind. destruct (c st) as [[a|e] st1]; cbn [snd].
  - exact (Hf a st1).
  - exists []. rewrite app_nil_r. repeat split; auto. cbn. lia.
Qed.

Lemma sends_api_call api_url : sends is_api_request 1 (api_call w api_url).
Proof.
  unfold api_call. apply (sends_bind _ 1 0).
  - apply sends_requests_get. exists api_url. reflexivity.
  - intros resp. repeat sends_step. apply sends_lift.
Qed.

Lemma sent_api_call api_url st :
  sent (snd (api_call w api_url st)) = sent st ++ [api_request api_url].
Proof.
  unfold api_call.
  destruct (sent_bind (fun _ => True) 0 (requests_get w (api_request api_url))
              (fun resp => lift (raise_for_status resp) ;;; lift (json_body resp)) st)
    as (l & E & Hl & _).
  { intros resp. repeat sends_step. apply sends_lift. }
  rewrite E. destruct l; [|cbn in Hl; lia]. rewrite app_nil_r.
  unfold requests_get. destruct (w (api_request api_url)); reflexivity.
Qed.

(** The first call sends the video-info request, and nothing else. *)
Lemma sent_fetch_view vi st :
  sent (snd (fetch_view w vi st))
  = sent st ++ [api_request (view_api_url_of (bvid vi))].
Proof.
  unfold fetch_view. cbv zeta. unfold bind at 1. unfold print at 1.
  match goal with
  | |- sent (snd (bind ?c ?f ?s)) = _ =>
      destruct (sent_bind (fun _ => True) 0 c f s) as (l & E & Hl & _)
  end.
  { intros view_data. repeat sends_step. }
  rewrite E. destruct l; [|cbn in Hl; lia]. rewrite app_nil_r.
  rewrite sent_api_call. reflexivity.
Qed.

Lemma sends_fetch_view vi : sends is_api_request 1 (fetch_view w vi).
Proof.
  unfold fetch_view. cbv zeta. apply sends_bind_print. intros _.
  apply (sends_bind _ 1 0); [apply sends_api_call|]. intros view_data.
  repeat sends_step.
Qed.

Lemma sends_fetch_relation vi : sends is_api_request 1 (fetch_relation w vi).
Proof.
  unfold fetch_relation. destruct (truthy (upMid vi));
    [|apply (sends_more _ 0); [lia | apply sends_ret]].
  cbv zeta. apply sends_bind_print. intros _.
  apply (sends_bind _ 1 0); [apply sends_api_call|]. intros relation_data.
  repeat sends_step.
Qed.

Lemma sends_fetch_online vi : sends is_api_request 1 (fetch_online w vi).
Proof.
  unfold fetch_online. destruct (truthy (cid vi));
    [|apply (sends_more _ 0); [lia | apply sends_ret]].
  cbv zeta. apply sends_bind_print. intros _.
  apply (sends_bind _ 1 0); [apply sends_api_call|]. intros online_data.
  apply sends_bind_lift. intros code.
  apply (sends_bind _ 0 0).
  { destruct (eq0 code); [apply sends_lift | apply sends_ret]. }
  intros data. destruct (eq0 code && truthy data).
  - apply sends_bind_lift. intros n_total. apply sends_bind_lift. intros total.
    apply sends_bind_lift. intros web_online. apply (sends_bind _ 0 0).
    + destruct (is_not_None web_online); repeat sends_step; apply sends_lift.
    + intros web. apply sends_ret.
  - repeat sends_step.
Qed.

Lemma sends_fetch_video_info vi : sends is_api_request 3 (fetch_video_info w vi).
Proof.
  unfold fetch_video_info.
  apply (sends_bind _ 1 2); [apply sends_fetch_view|]. intros vi1.
  apply (sends_bind _ 1 1); [apply sends_fetch_relation|]. intros vi2.
  apply sends_fetch_online.
Qed.

Lemma sends_parse_resolved url_input processed_url :
  sends is_api_request 3 (parse_resolved w url_input processed_url).
Proof.
  unfold parse_resolved. destruct (extract_bvid_from_url processed_url) as [bvid|];
    [|apply (sends_more _ 0); [lia | apply sends_ret]].
  apply sends_bind_print. intros _.
  apply (sends_bind _ 3 0); [apply sends_try, sends_fetch_video_info|].
  intros [e|vi]; apply sends_ret.
Qed.

Lemma sends_resolve_b23_url short_url_input :
  sends (fun rq => rq = short_link_request (target_of short_url_input)) 1
    (resolve_b23_url w short_url_input).
Proof.
  unfold resolve_b23_url. cbv zeta.
  destruct (negb (contains (lit "b23.tv/") (target_of short_url_input)));
    [apply (sends_more _ 0); [lia | apply sends_ret]|].
  apply (sends_bind _ 1 0).
  - apply sends_try, sends_requests_get. reflexivity.
  - intros [e|resp]; repeat sends_step.
Qed.

Lemma sends_resolve_step url_input :
  sends (fun rq => rq = short_link_request (target_of (potential_b23_url url_input))) 1
    (resolve_step w url_input).
Proof.
  unfold resolve_step. destruct (looks_like_short_link url_input);
    [|apply (sends_more _ 0); [lia | apply sends_ret]].
  cbv zeta. apply sends_bind_print. intros _.
  apply (sends_bind _ 1 0); [apply sends_resolve_b23_url|].
  intros resolved. repeat sends_step.
Qed.

(** X1.  Whatever the network answers, [parse_bili] sends at most four
    requests: at most one to resolve the short link, with redirects not
    followed, and after it at most three API requests, which follow
    redirects and carry the Referer header; each has the timeout 5. *)
Theorem parse_bili_requests (url_input : pystr) (st : state) :
  exists short api,
    sent (snd (parse_bili w url_input st)) = sent st ++ short ++ api
    /\ (length short <= 1)%nat /\ (length api <= 3)%nat
    /\ Forall (fun rq => rq = short_link_request (target_of (potential_b23_url url_input))
                         /\ req_allow_redirects rq = false) short
    /\ Forall (fun rq => is_api_request rq /\ req_allow_redirects rq = true
                         /\ In (lit "Referer", lit "https://www.bilibili.com/")
                              (req_headers rq)) api
    /\ Forall (fun rq => req_timeout rq = 5) (short ++ api).
Proof.
  destruct (sends_resolve_step url_input st) as (short & E1 & Hl1 & HP1).
  assert (Hshort : Forall (fun rq => rq = short_link_request
                                          (target_of (potential_b23_url url_input))
                                     /\ req_allow_redirects rq = false) short).
  { eapply Forall_impl; [|exact HP1]. cbv beta. intros rq ->. auto. }
  assert (Hapi : forall api, Forall is_api_request api ->
            Forall (fun rq => is_api_request rq /\ req_allow_redirects rq = true
                              /\ In (lit "Referer", lit "https://www.bilibili.com/")
                                   (req_headers rq)) api).
  { intros api. apply Forall_impl. intros rq [u ->].
    split; [exists u; reflexivity|]. split; [reflexivity|]. right. left. reflexivity. }
  assert (Htime : forall api, Forall is_api_request api ->
            Forall (fun rq => req_timeout rq = 5) (short ++ api)).
  { intros api Ha. apply Forall_app. split.
    - eapply Forall_impl; [|exact HP1]. cbv beta. intros rq ->. reflexivity.
    - eapply Forall_impl; [|exact Ha]. intros rq [u ->]. reflexivity. }
  unfold parse_bili, bind.
  destruct (resolve_step w url_input st) as [[[error|processed_url]|e] st1];
    cbn [snd] in E1.
  - exists short, []. unfold ret. cbn [snd].
    split; [rewrite app_nil_r; exact E1|]. split; [exact Hl1|].
    split; [cbn; lia|]. split; [exact Hshort|]. split; [constructor|].
    apply Htime. constructor.
  - destruct (sends_parse_resolved url_input processed_url st1) as (api & E2 & Hl2 & HP2).
    exists short, api. rewrite E2, E1, app_assoc. repeat split; auto.
  - exists short, []. cbn [snd].
    split; [rewrite app_nil_r; exact E1|]. split; [exact Hl1|].
    split; [cbn; lia|]. split; [exact Hshort|]. split; [constructor|].
    apply Htime. constructor.
Qed.

End WithRuntime.
End RequestFacts.

(** ** Video ids *)

Module IdFacts.
Import PyStrEq RegexFacts ShortLinkFacts MonadFacts ParseBiliFacts Examples RequestFacts.

Lemma take_while_all (f : N -> bool) (s rest : pystr) :
  forallb f s = true ->
  match rest with c :: _ => f c = false | [] => True end ->
  PySeq.take_while f (s ++ rest) = s.
Proof.
  intros Hall Hrest. induction s as [|c s IH].
  - destruct rest as [|c rest]; [reflexivity|]. cbn [app PySeq.take_while].
    rewrite Hrest. reflexivity.
  - cbn [forallb] in Hall. apply andb_true_iff in Hall as [Hc Hall].
    cbn [app PySeq.take_while]. rewrite Hc, IH by exact Hall. reflexivity.
Qed.

(** The pattern at the head of a string is the match. *)
Lemma re_search_bv_head (suf rest : pystr) :
  suf <> [] -> forallb is_alnum suf = true ->
  match rest with c :: _ => is_alnum c = false | [] => True end ->
  re_search_bv (lit "BV" ++ suf ++ rest) = Some (lit "BV" ++ suf).
Proof.
  intros Hne Hall Hrest.
  change (lit "BV" ++ suf ++ rest) with (66%N :: 86%N :: suf ++ rest).
  cbn [re_search_bv].
  change (startswith (lit "BV") (66%N :: 86%N :: suf ++ rest)) with true.
  change (skipn 2 (66%N :: 86%N :: suf ++ rest)) with (suf ++ rest).
  rewrite (take_while_all is_alnum suf rest Hall Hrest).
  destruct suf; [congruence | reflexivity].
Qed.

(** X2.  The id that [extract_bvid_from_url] returns is a fixed point: the
    function applied to it returns it again. *)
Theorem extract_bvid_idempotent (url id : pystr) :
  extract_bvid_from_url url = Some id -> extract_bvid_from_url id = Some id.
Proof.
  unfold extract_bvid_from_url at 1. destruct url as [|c url]; [discriminate|].
  intros H. destruct (re_search_bv_some _ _ H) as (_ & suf & _ & _ & -> & Hne & Hall & _).
  change (extract_bvid_from_url (lit "BV" ++ suf)) with (re_search_bv (lit "BV" ++ suf)).
  rewrite <- (app_nil_r suf) at 1.
  exact (re_search_bv_head suf [] Hne Hall I).
Qed.

Lemma extract_bvid_idempotent_witness :
  extract_bvid_from_url (lit "BV1QL411M7r3") = Some (lit "BV1QL411M7r3").
Proof.
  apply (extract_bvid_idempotent
           (lit "https://www.bilibili.com/video/BV1QL411M7r3/?share=1")).
  reflexivity.
Defined.

Lemma alnum_chars (c : N) (s : pystr) :
  forallb is_alnum s = true -> In c s -> is_alnum c = true.
Proof. intros H Hin. rewrite forallb_forall in H. exact (H c Hin). Qed.

(** A string of alphanumeric characters contains no text with another
    character in it. *)
Lemma alnum_contains (p s : pystr) (c : N) :
  forallb is_alnum s = true -> In c p -> is_alnum c = false ->
  contains p s = false.
Proof.
  intros Hs Hin Hc. destruct (contains p s) eqn:E; [|reflexivity].
  apply (PySeqFacts.contains_iff N.eqb Neqb_eq) in E as (a & b & ->).
  assert (is_alnum c = true).
  { apply (alnum_chars c _ Hs). apply in_or_app. right. apply in_or_app. left. exact Hin. }
  congruence.
Qed.

Section WithRuntime.
Context (rt : runtime) (w : world rt).

(** X3.  An input that is an id, [BV] and alphanumeric characters, is not
    taken for a short link: nothing is resolved, the id extracted is the
    input itself, and the first request sent is the one to the video-info
    endpoint for that id. *)
Theorem parse_bili_bare_id (suf : pystr) (st : state) :
  suf <> [] -> forallb is_alnum suf = true ->
  let input := lit "BV" ++ suf in
  resolve_step w input st = (Ret (inr input), st)
  /\ extracted_bvid w input st = Some input
  /\ exists rest,
       sent (snd (parse_bili w input st))
       = sent st ++ api_request (view_api_url_of input) :: rest.
Proof.
  intros Hne Hall input.
  assert (Hinput : forallb is_alnum input = true).
  { subst input. rewrite forallb_app, Hall. reflexivity. }
  assert (Hstep : resolve_step w input st = (Ret (inr input), st)).
  { unfold resolve_step, looks_like_short_link.
    rewrite (alnum_contains (lit "b23.tv/") input 46%N Hinput);
      [| right; right; right; left; reflexivity | reflexivity].
    subst input. change (startswith (lit "BV") (lit "BV" ++ suf)) with true.
    reflexivity. }
  assert (Hid : extract_bvid_from_url input = Some input).
  { subst input.
    change (extract_bvid_from_url (lit "BV" ++ suf)) with (re_search_bv (lit "BV" ++ suf)).
    rewrite <- (app_nil_r suf) at 1.
    exact (re_search_bv_head suf [] Hne Hall I). }
  split; [exact Hstep|]. split.
  - unfold extracted_bvid. rewrite Hstep. exact Hid.
  - rewrite (parse_bili_step rt w _ _ _ _ Hstep).
    unfold parse_resolved. rewrite Hid.
    unfold bind at 1. unfold print at 1.
    match goal with
    | |- exists rest, sent (snd (bind (try ?c) ?f ?s)) = _ =>
        destruct (sent_bind (fun _ => True) 0 (try c) f s) as (l & E & Hl & _);
        [intros [e|vi]; apply sends_ret|];
        rewrite E; destruct l; [|cbn in Hl; lia]; rewrite app_nil_r;
        assert (Htry : sent (snd (try c s)) = sent (snd (c s)))
          by (unfold try; destruct (c s) as [[?|?] ?]; reflexivity);
        rewrite Htry
    end.
    unfold fetch_video_info.
    match goal with
    | |- exists rest, sent (snd (bind ?c ?f ?s)) = _ =>
        destruct (sent_bind is_api_request 2 c f s) as (l' & E' & _)
    end.
    { intros vi1. apply (sends_bind _ 1 1); [apply sends_fetch_relation|].
      intros vi2. apply sends_fetch_online. }
    rewrite E', sent_fetch_view. cbn [Main.bvid initial_video_info sent].
    exists l'. rewrite <- app_assoc. reflexivity.
Qed.

End WithRuntime.

Lemma parse_bili_bare_id_witness :
  extracted_bvid (all_fine 1) (lit "BV1QL411M7r3") start = Some (lit "BV1QL411M7r3").
Proof.
  refine (proj1 (proj2 (parse_bili_bare_id no_floats (all_fine 1) (lit "1QL411M7r3") start
                          _ _))).
  - discriminate.
  - reflexivity.
Defined.

End IdFacts.

(** ** The redirect of a short link *)

Module RedirectFacts.
Import PyStrEq RegexFacts ResolveFacts Examples.

Lemma before_query_split location :
  exists rest, location = before_query location ++ rest
               /\ ~ In 63%N (before_query location).
Proof.
  unfold before_query.
  induction location as [|c l (rest & Hl & Hno)]; [exists []; auto|].
  cbn [PySeq.take_while]. destruct (N.eqb_spec c 63) as [->|Hc]; cbn [negb].
  - exists (63%N :: l). auto.
  - exists rest. cbn [app]. split; [congruence|].
    intros [H|H]; [congruence | exact (Hno H)].
Qed.

Lemma without_final_slash_split s :
  exists rest, s = without_final_slash s ++ rest.
Proof.
  unfold without_final_slash. destruct (rev s) as [|c r] eqn:E; [exists []; symmetry; apply app_nil_r|].
  assert (Hs : s = rev r ++ [c]).
  { rewrite <- (rev_involutive s), E. reflexivity. }
  destruct c as [|p]; [exists []; symmetry; apply app_nil_r|].
  do 6 (destruct p as [p|p|]; try (exists []; symmetry; apply app_nil_r)).
  exists [47%N]. exact Hs.
Qed.

Lemma clean_location_prefix location :
  startswith (clean_location location) location = true
  /\ contains (lit "?") (clean_location location) = false.
Proof.
  rewrite clean_location_spec.
  destruct (before_query_split location) as (rest & Hl & Hno).
  destruct (without_final_slash_split (before_query location)) as (rest' & Hs).
  split.
  - apply str_startswith_iff. exists (rest' ++ rest).
    rewrite app_assoc, <- Hs. exact Hl.
  - destruct (contains (lit "?") (without_final_slash (before_query location))) eqn:E;
      [|reflexivity].
    exfalso. apply Hno.
    apply (PySeqFacts.contains_iff N.eqb Neqb_eq) in E as (a & b & E).
    rewrite Hs, E. apply in_or_app. left. apply in_or_app. right. left. reflexivity.
Qed.

Section WithRuntime.
Context (rt : runtime) (w : world rt).

(** X4.  When [resolve_b23_url] has asked the short domain and returns a
    URL, the answer was a 301 or a 302 with a Location header that is not
    empty, and the URL returned is the beginning of that header's value
    and has no question mark in it. *)
Theorem resolve_b23_url_success (short_url_input r : pystr) (st : state) :
  contains (lit "b23.tv/") (target_of short_url_input) = true ->
  fst (resolve_b23_url w short_url_input st) = Ret (Some r) ->
  exists resp location,
    w (short_link_request (target_of short_url_input)) = inr resp
    /\ (status_code resp = 301 \/ status_code resp = 302)
    /\ headers_Location resp = Some location /\ location <> []
    /\ startswith r location = true
    /\ contains (lit "?") r = false.
Proof.
  intros Hb23. unfold resolve_b23_url. cbv zeta. rewrite Hb23. cbn [negb].
  unfold bind, try, requests_get.
  destruct (w (short_link_request (target_of short_url_input))) as [msg|resp] eqn:Hw;
    [cbn; discriminate|].
  destruct ((status_code resp =? 301) || (status_code resp =? 302)) eqn:Hs;
    [|cbn; discriminate].
  destruct (headers_Location resp) as [[|c l]|] eqn:Hl; cbn; try discriminate.
  intros H. assert (Hr : r = clean_location (c :: l)) by congruence. subst r.
  exists resp, (c :: l). split; [reflexivity|].
  apply orb_true_iff in Hs. rewrite !Z.eqb_eq in Hs.
  split; [exact Hs|]. split; [exact Hl|]. split; [discriminate|].
  apply clean_location_prefix.
Qed.

End WithRuntime.

Lemma resolve_b23_url_success_witness :
  exists resp location,
    redirecting (lit "https://www.bilibili.com/video/BV1xx411c7mD/?a=b")
      (short_link_request (lit "https://b23.tv/abc")) = inr resp
    /\ (status_code resp = 301 \/ status_code resp = 302)
    /\ headers_Location resp = Some location /\ location <> []
    /\ startswith (lit "https://www.bilibili.com/video/BV1xx411c7mD") location = true
    /\ contains (lit "?") (lit "https://www.bilibili.com/video/BV1xx411c7mD") = false.
Proof.
  apply (resolve_b23_url_success no_floats
           (redirecting (lit "https://www.bilibili.com/video/BV1xx411c7mD/?a=b"))
           (lit "https://b23.tv/abc") _ start); reflexivity.
Defined.

End RedirectFacts.

(** ** Failures of the first API call *)

Module FetchFailureFacts.
Import PyStrEq RegexFacts MonadFacts ParseBiliFacts Examples.

Section WithRuntime.
Context (rt : runtime) (w : world rt).

(** The first call when the request fails or the status is an error. *)
Lemma fetch_view_raises vi st e :
  (match w (api_request (view_api_url_of (bvid vi))) with
   | inl msg => e = Exn RequestException msg
   | inr resp => raise_for_status resp = Raise e
   end) ->
  fetch_view w vi st
  = (Raise e,
     State (stdout st ++ [lit "Fetching main info: " ++ view_api_url_of (bvid vi)])
           (sent st ++ [api_request (view_api_url_of (bvid vi))])).
Proof.
  intros H. unfold fetch_view. cbv zeta.
  unfold bind at 1. unfold print at 1.
  unfold bind at 1. unfold api_call. unfold bind at 1. unfold requests_get.
  cbn [stdout sent].
  destruct (w (api_request (view_api_url_of (bvid vi)))) as [msg|resp].
  - subst e. reflexivity.
  - unfold bind, lift. rewrite H. reflexivity.
Qed.

(** X5.  When the request to the video-info endpoint fails, or is answered
    with a status from 400 to 599, [parse_bili] returns the network error
    string with the text of the exception, for an error status the status,
    the reason and the URL whatever the body holds; no other API request
    is sent. *)
Theorem parse_bili_view_request_fails (url_input : pystr) (st st1 : state)
  (processed_url bvid : pystr) :
  resolve_step w url_input st = (Ret (inr processed_url), st1) ->
  extract_bvid_from_url processed_url = Some bvid ->
  let rq := api_request (view_api_url_of bvid) in
  let st2 := State (stdout st1 ++ [lit "Extracted BVID: " ++ bvid;
                                   lit "Fetching main info: " ++ view_api_url_of bvid])
                   (sent st1 ++ [rq]) in
  (forall msg,
     w rq = inl msg ->
     parse_bili w url_input st
     = (Ret (RStr (lit "Error: Network request failed during API call - " ++ msg)),
        st2))
  /\ (forall resp,
        w rq = inr resp -> 400 <= status_code resp < 600 ->
        parse_bili w url_input st
        = (Ret (RStr (lit "Error: Network request failed during API call - "
                      ++ str_int (status_code resp)
                      ++ (if status_code resp <? 500 then lit " Client Error: "
                          else lit " Server Error: ")
                      ++ reason resp ++ lit " for url: " ++ url resp)),
           st2)).
Proof.
  intros Hstep Hbv rq st2.
  assert (Hgen : forall e,
    (match w rq with
     | inl msg => e = Exn RequestException msg
     | inr resp => raise_for_status resp = Raise e
     end) ->
    exn_kind e = RequestException ->
    parse_bili w url_input st
    = (Ret (RStr (lit "Error: Network request failed during API call - " ++ exn_msg e)),
       st2)).
  { intros e He Hk. rewrite (parse_bili_step rt w _ _ _ _ Hstep).
    erewrite parse_resolved_raise; [| exact Hbv |].
    - unfold handle. rewrite Hk. reflexivity.
    - unfold fetch_video_info. unfold print. cbn [snd].
      rewrite (bind_raise _ _ _ _ _
                 (fetch_view_raises (initial_video_info bvid) _ e He)).
      cbn [Main.bvid initial_video_info stdout sent]. subst st2.
      rewrite <- app_assoc. reflexivity. }
  split.
  - intros msg Hw. apply (Hgen (Exn RequestException msg)); [rewrite Hw|]; reflexivity.
  - intros resp Hw Hs. unfold raise_for_status in Hgen.
    destruct (Z.ltb_spec (status_code resp) 500) as [Hlt|Hge].
    + apply (Hgen (Exn RequestException
                     (str_int (status_code resp) ++ lit " Client Error: " ++ reason resp
                      ++ lit " for url: " ++ url resp))); [|reflexivity].
      rewrite Hw. unfold raise_for_status.
      destruct (Z.leb_spec 400 (status_code resp)); [|lia].
      destruct (Z.ltb_spec (status_code resp) 500); [|lia]. reflexivity.
    + apply (Hgen (Exn RequestException
                     (str_int (status_code resp) ++ lit " Server Error: " ++ reason resp
                      ++ lit " for url: " ++ url resp))); [|reflexivity].
      rewrite Hw. unfold raise_for_status.
      destruct (Z.leb_spec 400 (status_code resp)); [|lia].
      destruct (Z.ltb_spec (status_code resp) 500); [lia|]. cbn [andb].
      destruct (Z.leb_spec 500 (status_code resp)); [|lia].
      destruct (Z.ltb_spec (status_code resp) 600); [|lia]. reflexivity.
Qed.

End WithRuntime.

(** A video-info endpoint that answers 412 with a JSON body. *)
Lemma parse_bili_view_request_fails_witness :
  fst (parse_bili
         (network unreachable
            (inr (Response 412 (lit "Precondition Failed")
                    (lit "https://api.bilibili.com/x/web-interface/view?bvid=BV1xx411c7mD")
                    None (Ret JNull)))
            unreachable unreachable)
         (lit "BV1xx411c7mD") start)
  = Ret (RStr (lit "Error: Network request failed during API call - 412 Client Error: Precondition Failed for url: https://api.bilibili.com/x/web-interface/view?bvid=BV1xx411c7mD")).
Proof.
  set (resp := Response 412 (lit "Precondition Failed")
                 (lit "https://api.bilibili.com/x/web-interface/view?bvid=BV1xx411c7mD")
                 None (Ret JNull) : response J).
  set (w := network unreachable (inr resp) unreachable unreachable).
  set (input := lit "BV1xx411c7mD").
  assert (Hstep : resolve_step w input start = (Ret (inr input), start))
    by (vm_compute; reflexivity).
  assert (Hbv : extract_bvid_from_url input = Some input) by (vm_compute; reflexivity).
  assert (Hw : w (api_request (view_api_url_of input)) = inr resp)
    by (vm_compute; reflexivity).
  pose proof (proj2 (parse_bili_view_request_fails no_floats w input start start input input
                       Hstep Hbv) resp Hw ltac:(split; [discriminate | reflexivity])) as H.
  apply (f_equal fst) in H. cbn [fst] in H.
  match type of H with
  | _ = Ret (RStr ?m) =>
      assert (Hmsg : m = lit "Error: Network request failed during API call - 412 Client Error: Precondition Failed for url: https://api.bilibili.com/x/web-interface/view?bvid=BV1xx411c7mD")
        by (vm_compute; reflexivity)
  end.
  exact (eq_trans H (f_equal (fun s => Ret (RStr s)) Hmsg)).
Defined.

End FetchFailureFacts.

(** ** The texts [parse_bili] returns *)

Module StripFacts.

Lemma drop_while_stop (f : N -> bool) (x y : pystr) (c : N) :
  f c = false ->
  PySeq.drop_while f (x ++ c :: y) = PySeq.drop_while f x ++ c :: y.
Proof.
  intros Hc. induction x as [|d x IH]; cbn [app PySeq.drop_while].
  - rewrite Hc. reflexivity.
  - destruct (f d); [exact IH | reflexivity].
Qed.

(** [rstrip] stops at the last character that is not white space. *)
Lemma rstrip_stop (a b : pystr) (c : N) :
  isspace c = false -> rstrip (a ++ c :: b) = a ++ c :: rstrip b.
Proof.
  intros Hc. unfold rstrip. rewrite rev_app_distr. cbn [rev].
  rewrite <- app_assoc. cbn [app]. rewrite (drop_while_stop _ _ _ _ Hc).
  rewrite rev_app_distr. cbn [rev]. rewrite rev_involutive, <- app_assoc.
  reflexivity.
Qed.

Lemma lstrip_stop (s : pystr) (c : N) : isspace c = false -> lstrip (c :: s) = c :: s.
Proof. intros Hc. unfold lstrip. cbn [PySeq.drop_while]. rewrite Hc. reflexivity. Qed.

(** A text between two characters that are not white space is stripped of
    the white space after the second one only. *)
Lemma strip_between (c0 c1 : N) (a b : pystr) :
  isspace c0 = false -> isspace c1 = false ->
  strip (c0 :: a ++ c1 :: b) = c0 :: a ++ c1 :: rstrip b.
Proof.
  intros H0 H1. unfold strip. rewrite (lstrip_stop _ _ H0).
  change (c0 :: a ++ c1 :: b) with ((c0 :: a) ++ c1 :: b).
  rewrite (rstrip_stop _ _ _ H1). reflexivity.
Qed.

Lemma strip_labels (p t q r p' q' : pystr) (c0 c1 : N) :
  p = c0 :: p' -> q = c1 :: q' -> isspace c0 = false -> isspace c1 = false ->
  strip (p ++ t ++ q ++ r) = p ++ t ++ c1 :: rstrip (q' ++ r).
Proof.
  intros -> -> H0 H1. cbn [app]. rewrite app_assoc.
  rewrite (strip_between c0 c1 _ _ H0 H1). rewrite <- app_assoc. reflexivity.
Qed.

Lemma endswith_iff (p s : pystr) :
  endswith p s = true <-> exists a, s = a ++ p.
Proof.
  unfold endswith, PySeq.endswith.
  rewrite (PySeqFacts.startswith_iff N.eqb PyStrEq.Neqb_eq). split.
  - intros [r Hr]. exists (rev r).
    rewrite <- (rev_involutive s), Hr, rev_app_distr, rev_involutive. reflexivity.
  - intros [a ->]. exists (rev a). apply rev_app_distr.
Qed.

Lemma endswith_refl (p : pystr) : endswith p p = true.
Proof. apply endswith_iff. exists []. reflexivity. Qed.

Lemma endswith_app (a s p : pystr) : endswith p s = true -> endswith p (a ++ s) = true.
Proof.
  rewrite !endswith_iff. intros [b ->]. exists (a ++ b). apply app_assoc.
Qed.

End StripFacts.

Module OutputFacts.
Import PyStrEq RegexFacts ShortLinkFacts MonadFacts ParseBiliFacts StripFacts Examples.

Section WithRuntime.
Context (rt : runtime) (w : world rt).

Ltac binds H :=
  repeat match type of H with
         | bind _ _ _ = (Ret _, _) =>
             apply bind_ret_inv in H as (? & ? & _ & H)
         | (if ?c then _ else _) _ = (Ret _, _) => destruct c
         end.

(** The fetches leave the link of the record as it is. *)
Lemma fetch_video_info_keeps_url vi st vi' st' :
  fetch_video_info w vi st = (Ret vi', st') -> cleanedUrl vi' = cleanedUrl vi.
Proof.
  unfold fetch_video_info. intros H.
  apply bind_ret_inv in H as (vi1 & st1 & H1 & H).
  apply bind_ret_inv in H as (vi2 & st2 & H2 & H3).
  assert (E1 : cleanedUrl vi1 = cleanedUrl vi).
  { revert H1. unfold fetch_view. cbv zeta. intros H1. binds H1.
    all: unfold ret in H1; injection H1 as <- _; reflexivity. }
  assert (E2 : cleanedUrl vi2 = cleanedUrl vi1).
  { revert H2. unfold fetch_relation. destruct (truthy (upMid vi1)).
    - cbv zeta. intros H2. binds H2.
      all: unfold ret in H2; injection H2 as <- _; reflexivity.
    - unfold ret. intros [= <- _]. reflexivity. }
  assert (E3 : cleanedUrl vi' = cleanedUrl vi2).
  { revert H3. unfold fetch_online. destruct (truthy (cid vi2)).
    - cbv zeta. intros H3. binds H3.
      all: unfold ret in H3; injection H3 as <- _; reflexivity.
    - unfold ret. intros [= <- _]. reflexivity. }
  congruence.
Qed.

(** How [parse_bili] comes to return a tuple. *)
Lemma parse_bili_tuple url_input st segments st' :
  parse_bili w url_input st = (Ret (RTuple segments), st') ->
  exists bvid vi,
    extracted_bvid w url_input st = Some bvid
    /\ cleanedUrl vi = lit "https://www.bilibili.com/video/" ++ bvid
    /\ segments = format_output vi.
Proof.
  intros H. destruct (resolve_step_returns rt w url_input st) as (r & st1 & Hr & _).
  rewrite (parse_bili_step rt w _ _ _ _ Hr) in H. destruct r as [error|p]; [discriminate|].
  unfold parse_resolved in H. destruct (extract_bvid_from_url p) as [bvid|] eqn:Hbv;
    [|discriminate].
  unfold bind at 1 in H. unfold print at 1 in H. unfold bind, try in H.
  destruct (fetch_video_info w (initial_video_info bvid) _) as [[vi|e] st2] eqn:Hf;
    [|discriminate].
  unfold ret in H. injection H as <- _.
  exists bvid, vi. split; [unfold extracted_bvid; rewrite Hr; exact Hbv|].
  split; [|reflexivity].
  rewrite (fetch_video_info_keeps_url _ _ _ _ Hf). reflexivity.
Qed.

(** X6.  In every tuple that [parse_bili] returns, the first text begins
    with the title label and has a newline in it, and the last text ends
    with the link [https://www.bilibili.com/video/] followed by the id
    extracted, whatever the API returned. *)
Theorem parse_bili_output_shape (url_input : pystr) (st st' : state)
  (segments : list (Segment rt)) :
  parse_bili w url_input st = (Ret (RTuple segments), st') ->
  exists bvid t1 img t2,
    segments = [Text t1; Image img; Text t2]
    /\ extracted_bvid w url_input st = Some bvid
    /\ startswith L_TITLE t1 = true /\ contains NL t1 = true
    /\ endswith (lit "https://www.bilibili.com/video/" ++ bvid) t2 = true.
Proof.
  intros H. destruct (parse_bili_tuple _ _ _ _ H) as (bvid & vi & Hbv & Hurl & ->).
  assert (Hshape : exists suf' c, bvid = lit "BV" ++ suf' ++ [c] /\ is_alnum c = true).
  { unfold extracted_bvid in Hbv.
    destruct (fst (resolve_step w url_input st)) as [[|p]|]; try discriminate.
    unfold extract_bvid_from_url in Hbv. destruct p as [|c0 p]; [discriminate|].
    destruct (re_search_bv_some _ _ Hbv) as (_ & suf & _ & _ & Hid & Hne & Hall & _).
    destruct (exists_last Hne) as (suf' & c & ->).
    rewrite forallb_app in Hall. apply andb_true_iff in Hall as [_ Hc].
    cbn [forallb] in Hc. rewrite andb_true_r in Hc. exists suf', c. auto. }
  destruct Hshape as (suf' & c & Hid & Hc).
  exists bvid, (text_to_copy_1 vi), (pic vi), (text_to_copy_2 vi).
  split; [reflexivity|]. split; [exact Hbv|].
  assert (H1 : exists r, text_to_copy_1 vi
                         = L_TITLE ++ (str (title vi) ++ NL) ++ lit "U" ++ r).
  { unfold text_to_copy_1. rewrite (app_assoc (str (title vi)) NL).
    erewrite (strip_labels L_TITLE _ L_UP _ (tl L_TITLE) (tl L_UP) 230 85);
      [| reflexivity | reflexivity | reflexivity | reflexivity].
    eexists. reflexivity. }
  destruct H1 as (r & H1). split; [|split].
  - rewrite H1. apply str_startswith_iff. eexists. reflexivity.
  - rewrite H1. rewrite <- app_assoc, (app_assoc L_TITLE). apply str_contains_app.
  - assert (Hs : text_to_copy_2 vi
                 = L_VIEWS ++ views vi ++ L_DANMAKU ++ danmaku vi ++ NL
                   ++ L_LIKES ++ likes vi ++ L_COINS ++ coins vi ++ NL
                   ++ L_FAVORITES ++ favorites vi ++ L_SHARES ++ shares vi ++ NL
                   ++ L_DESC
                   ++ str (if truthy (description vi) then description vi
                           else JStr (L_NO_DESC)) ++ NL
                   ++ watching_total_text vi ++ NL
                   ++ cleanedUrl vi).
    { unfold text_to_copy_2.
      match goal with |- strip ?a = ?b => constr_eq a b; apply (strip_id a) end.
      - change L_VIEWS with (287%N :: tl L_VIEWS). discriminate.
      - reflexivity.
      - rewrite Hurl, Hid. rewrite !app_assoc. rewrite last_last.
        apply alnum_not_space. exact Hc. }
    rewrite Hs, <- Hurl.
    repeat (first [apply endswith_refl | apply endswith_app]).
Qed.

End WithRuntime.

(** A run in which the three calls succeed. *)
Lemma parse_bili_output_shape_witness :
  exists t1 img t2,
    fst (parse_bili (all_fine 5) (lit "BV1QL411M7r3") start)
    = Ret (RTuple [Text t1; Image img; Text t2])
    /\ startswith L_TITLE t1 = true
    /\ endswith (lit "https://www.bilibili.com/video/BV1QL411M7r3") t2 = true.
Proof.
  let v := eval vm_compute in (parse_bili (all_fine 5) (lit "BV1QL411M7r3") start) in
  match v with
  | (Ret (RTuple ?segments), ?st') =>
      assert (H : parse_bili (all_fine 5) (lit "BV1QL411M7r3") start
                  = (Ret (RTuple segments), st')) by (vm_compute; reflexivity);
      destruct (parse_bili_output_shape no_floats (all_fine 5) (lit "BV1QL411M7r3")
                  start st' segments H)
        as (bvid & t1 & img & t2 & Hsegs & Hbv & Ht1 & _ & Ht2)
  end.
  assert (Hid : bvid = lit "BV1QL411M7r3").
  { vm_compute in Hbv. injection Hbv as <-. reflexivity. }
  subst bvid. exists t1, img, t2. rewrite H. cbn [fst]. rewrite Hsegs.
  split; [reflexivity|]. split; [exact Ht1 | exact Ht2].
Defined.

End OutputFacts.

(** ** Image segments *)

Module LoadImageFacts.
Import PyStrEq MonadFacts ResizeLoopFacts Examples.

Section WithImaging.
Context (rt : runtime) (pil : imaging rt).

(** The mode test of [load_image]: an image is converted exactly when its
    mode is neither RGB nor RGBA; the [elif] branch is never taken. *)
Lemma mode_step (img : image pil) :
  (if negb (str_eqb (mode pil img) (lit "RGB") || str_eqb (mode pil img) (lit "RGBA"))
   then lift (convert pil img (lit "RGBA"))
   else if str_eqb (mode pil img) (lit "P")
        then lift (convert pil img (lit "RGBA"))
        else ret img)
  = lift (if str_eqb (mode pil img) (lit "RGB") || str_eqb (mode pil img) (lit "RGBA")
          then Ret img else convert pil img (lit "RGBA")).
Proof.
  destruct (str_eqb (mode pil img) (lit "RGB")) eqn:E1.
  - apply str_eqb_eq in E1. rewrite E1. reflexivity.
  - destruct (str_eqb (mode pil img) (lit "RGBA")) eqn:E2; [|reflexivity].
    apply str_eqb_eq in E2. rewrite E2. reflexivity.
Qed.

(** What the body of [load_image] returns, when it returns, is a data URI. *)
Lemma load_image_body_uri (image_url : json (pyfloat rt)) st uri st' :
  (forall img, 0 <= fst (size pil img)) ->
  load_image_body pil image_url st = (Ret uri, st') ->
  exists data, uri = lit "data:image/png;base64," ++ b64encode pil data.
Proof.
  intros Hsize H. unfold load_image_body in H.
  apply bind_ret_inv in H as (img0 & st0 & _ & H).
  apply bind_ret_inv in H as (img & st1 & _ & H).
  apply bind_ret_inv in H as (data & st2 & _ & H).
  pose proof (Hsize img) as Hw.
  destruct (size pil img) as [width height]. cbn [fst] in Hw.
  apply bind_ret_inv in H as (looped & st3 & Hloop & H).
  destruct looped as [final|].
  - unfold after_loop in H. apply bind_ret_inv in H as (? & st4 & _ & H).
    unfold ret in H. injection H as <- _. exists (png_data final). reflexivity.
  - exfalso.
    pose proof (proj1 (resize_loop_returns rt pil image_url img (S (Z.to_nat width))
                         data width height st2 Hw ltac:(lia) O)) as Hnot.
    rewrite Hloop in Hnot. apply Hnot. reflexivity.
Qed.

(** X7.  An image segment whose image loads is put into the content as an
    [img] element whose source is a PNG data URI; one whose loading raises
    is left out, the content stays as it was, and two lines are printed:
    the cause and the notice that the segment is skipped. *)
Theorem add_segment_image (image_url : json (pyfloat rt))
  (html_contents : list pystr) (st : state) :
  (forall img, 0 <= fst (size pil img)) ->
  match load_image_body pil image_url st with
  | (Ret uri, st1) =>
      (exists data, uri = lit "data:image/png;base64," ++ b64encode pil data)
      /\ add_segment pil html_contents (Image image_url) st
         = (Ret (html_contents
                 ++ [lit "<img src=" ++ DQUOTE ++ uri ++ DQUOTE ++ lit " />"]), st1)
  | (Raise e, st1) =>
      add_segment pil html_contents (Image image_url) st
      = (Ret html_contents,
         State (stdout st1
                ++ [load_image_handler image_url e;
                    lit "Skipping image segment due to loading error from URL: "
                    ++ Main.str image_url])
               (sent st1))
  end.
Proof.
  intros Hsize. cbn [add_segment]. unfold load_image. unfold bind, try. cbv beta.
  destruct (load_image_body pil image_url st) as [[uri|e] st1] eqn:Hbody.
  - destruct (load_image_body_uri _ _ _ _ Hsize Hbody) as (data & Huri).
    split; [exists data; exact Huri|]. unfold ret. rewrite Huri. reflexivity.
  - unfold print, ret. cbn [stdout sent]. rewrite <- app_assoc. reflexivity.
Qed.

(** X8.  An image whose PNG encoding is within the budget is returned as
    the data URI of that encoding, and nothing is printed; the image is
    converted to RGBA first exactly when its mode is neither RGB nor
    RGBA. *)
Theorem load_image_within_budget (image_url : json (pyfloat rt)) (st : state)
  (img0 img : image pil) (data : bytes) :
  open_url pil image_url = Ret img0 ->
  (if str_eqb (mode pil img0) (lit "RGB") || str_eqb (mode pil img0) (lit "RGBA")
   then Ret img0 else convert pil img0 (lit "RGBA")) = Ret img ->
  save_png pil img = Ret data ->
  PySeq.len data <= MAX_IMAGE_SIZE_BYTES ->
  load_image pil image_url st
  = (Ret (lit "data:image/png;base64," ++ b64encode pil data), st).
Proof.
  intros Hopen Hmode Hsave Hlen.
  assert (Hbody : load_image_body pil image_url st
                  = (Ret (lit "data:image/png;base64," ++ b64encode pil data), st)).
  { unfold load_image_body. rewrite bind_lift, Hopen.
    rewrite mode_step, bind_lift, Hmode. rewrite bind_lift, Hsave.
    destruct (size pil img) as [width height].
    unfold bind at 1. rewrite resize_loop_S.
    rewrite loop_test_small by exact Hlen.
    unfold after_loop. cbn [png_data].
    destruct (Z.ltb_spec MAX_IMAGE_SIZE_BYTES (PySeq.len data)) as [|_]; [lia|].
    reflexivity. }
  unfold load_image, bind, try. rewrite Hbody. reflexivity.
Qed.

End WithImaging.

(** An image of 40 by 30 pixels, and a URL that holds no image. *)
Lemma add_segment_image_witness :
  add_segment (raw_pixels (40, 30)%N) [] (Image JNull) start
  = (Ret [lit "<img src=" ++ DQUOTE ++ lit "data:image/png;base64,"
          ++ repeat 65%N 3600 ++ DQUOTE ++ lit " />"], start).
Proof.
  pose proof (add_segment_image no_floats (raw_pixels (40, 30)%N) JNull [] start) as H.
  assert (Hsize : forall img : image (raw_pixels (40, 30)%N),
             0 <= fst (size (raw_pixels (40, 30)%N) img))
    by (intros img; cbn; lia).
  specialize (H Hsize).
  assert (Hbody : load_image_body (raw_pixels (40, 30)%N) JNull start
                  = (Ret (lit "data:image/png;base64," ++ repeat 65%N 3600), start))
    by (vm_compute; reflexivity).
  rewrite Hbody in H. exact (proj2 H).
Defined.

Lemma load_image_within_budget_witness :
  load_image (raw_pixels (40, 30)%N) JNull start
  = (Ret (lit "data:image/png;base64," ++ repeat 65%N 3600), start).
Proof.
  apply (load_image_within_budget no_floats (raw_pixels (40, 30)%N) JNull start
           (40, 30)%N (40, 30)%N (blob 3600)).
  - reflexivity.
  - reflexivity.
  - reflexivity.
  - vm_compute. discriminate.
Defined.

End LoadImageFacts.

(** ** The clipboard call and the program *)

Module ClipboardFacts.
Import PyStrEq MonadFacts Examples Program.

Section WithImaging.
Context (rt : runtime) (pil : imaging rt) (encode_error : pystr -> pystr).

Lemma add_segments_texts (texts : list pystr) :
  forall html_contents st,
    add_segments pil html_contents (map Text texts) st
    = (Ret (html_contents ++ map text_paragraph texts), st).
Proof.
  induction texts as [|t texts IH]; intros html_contents st; cbn [map add_segments].
  - unfold ret. rewrite app_nil_r. reflexivity.
  - cbn [add_segment]. unfold bind, ret. rewrite IH, <- app_assoc. reflexivity.
Qed.

(** X9.  Text segments become paragraphs that are joined in the order
    given with nothing between them, and the data put on the clipboard is
    the CF_HTML payload of the joined text; when the joined text cannot be
    encoded the error is printed and nothing is put on the clipboard. *)
Theorem set_clipboard_texts (texts : list pystr) (st : state) :
  texts <> [] ->
  let html_content := concat (map text_paragraph texts) in
  set_clipboard_text_and_image pil encode_error (map Text texts) st
  = match _prepare_cf_html html_content with
    | Some cf_html_data =>
        (Ret (Some cf_html_data),
         State (stdout st ++ [lit "Content successfully copied to clipboard as HTML."])
               (sent st))
    | None =>
        (Ret None,
         State (stdout st
                ++ [lit "An unexpected error occurred in set_clipboard_text_and_image: "
                    ++ encode_error html_content])
               (sent st))
    end.
Proof.
  intros Hne html_content. unfold set_clipboard_text_and_image.
  unfold bind at 1. unfold try. unfold bind at 1.
  rewrite add_segments_texts. cbn [app].
  destruct texts as [|t texts]; [congruence|]. cbn [map].
  fold html_content. change (concat (text_paragraph t :: map text_paragraph texts))
    with html_content.
  destruct (_prepare_cf_html html_content); reflexivity.
Qed.

Lemma add_arguments_segments (segments : list (Segment rt)) :
  forall html_contents st,
    add_arguments pil html_contents (map ASegment segments) st
    = add_segments pil html_contents segments st.
Proof.
  induction segments as [|s segments IH]; intros html_contents st; [reflexivity|].
  cbn [map add_arguments add_segments add_argument]. unfold bind.
  destruct (add_segment pil html_contents s st) as [[c|e] st1]; [apply IH | reflexivity].
Qed.

(** The characters of a string leave the content as it is. *)
Lemma add_arguments_characters (s : pystr) :
  forall html_contents st,
    add_arguments pil html_contents (map (fun c => AStr [c]) s) st
    = (Ret html_contents, st).
Proof.
  induction s as [|c s IH]; intros html_contents st; [reflexivity|].
  cbn [map add_arguments add_argument]. unfold bind, ret. apply IH.
Qed.

Context (w : world rt).

(** X10.  The program hands what [parse_bili] returns to
    [set_clipboard_text_and_image] unpacked.  A tuple is handed over as
    its three segments.  An error string is unpacked into its characters,
    none of which is a segment: the message is neither printed nor
    copied, the program prints that there is no content to copy and puts
    nothing on the clipboard. *)
Theorem main_outcome (clipboard : pystr) (st st1 : state) (r : retval rt) :
  parse_bili w clipboard st = (Ret r, st1) ->
  main pil encode_error w clipboard st
  = match r with
    | RStr _ =>
        (Ret None,
         State (stdout st1 ++ [lit "No content to copy to clipboard."]) (sent st1))
    | RTuple segments => set_clipboard_text_and_image pil encode_error segments st1
    end.
Proof.
  intros H. unfold main. rewrite (bind_ret _ _ _ _ _ H). cbv beta.
  destruct r as [msg|segments]; cbn [star].
  - unfold set_clipboard_call. unfold bind at 1. unfold try. unfold bind at 1.
    rewrite add_arguments_characters. reflexivity.
  - unfold set_clipboard_call, set_clipboard_text_and_image.
    unfold bind at 1 3. unfold try. unfold bind at 1 2.
    rewrite add_arguments_segments. reflexivity.
Qed.

End WithImaging.

(** Two texts. *)
Lemma set_clipboard_texts_witness :
  exists cf_html_data,
    fst (set_clipboard_text_and_image unreadable (fun _ => []) 
           [Text (lit "one"); Text (lit " two ")] start)
    = Ret (Some cf_html_data)
    /\ _prepare_cf_html (lit "<p>one</p><p>two</p>") = Some cf_html_data.
Proof.
  pose proof (set_clipboard_texts no_floats unreadable (fun _ => [])
                [lit "one"; lit " two "] start ltac:(discriminate)) as H.
  cbv zeta in H.
  assert (Hc : concat (map text_paragraph [lit "one"; lit " two "])
               = lit "<p>one</p><p>two</p>") by reflexivity.
  rewrite Hc in H.
  destruct (_prepare_cf_html (lit "<p>one</p><p>two</p>")) as [data|] eqn:E.
  - exists data. split; [|reflexivity].
    change [Text (lit "one"); Text (lit " two ")]
      with (map (@Text no_floats) [lit "one"; lit " two "]).
    rewrite H. reflexivity.
  - vm_compute in E. discriminate E.
Defined.

(** A clipboard that holds no link: the message of [parse_bili] is lost. *)
Lemma main_outcome_witness :
  main unreadable (fun _ => []) (all_fine 1) (lit "hello world") start
  = (Ret None,
     State [lit "No content to copy to clipboard."] []).
Proof.
  let v := eval vm_compute in (parse_bili (all_fine 1) (lit "hello world") start) in
  match v with
  | (Ret ?r, ?st1) =>
      assert (H : parse_bili (all_fine 1) (lit "hello world") start = (Ret r, st1))
        by (vm_compute; reflexivity);
      pose proof (main_outcome no_floats unreadable (fun _ => []) (all_fine 1)
                    (lit "hello world") start st1 r H) as Hm
  end.
  rewrite Hm. reflexivity.
Defined.

End ClipboardFacts.

(** ** The header of the payload *)

Module CfHtmlHeaderFacts.
Import Utf8Facts Utf8AsciiFacts PyStrFacts CfHtmlFacts CfHtmlLongFacts.

Lemma find_lower_bound (p s : bytes) : -1 <= bfind p s.
Proof.
  unfold bfind, PySeq.find. destruct (PySeq.find_opt Byte.eqb p s); lia.
Qed.

(** The payload of a fragment that can be encoded, in terms of the encoded
    document. *)
Lemma prepare_cf_html_some (html_content : pystr) (doc : bytes) :
  encode_utf8 (full_html_of html_content) = Some doc ->
  _prepare_cf_html html_content
  = Some (map octet
            (cf_header (format_010d 115) (format_010d (115 + PySeq.len doc))
               (format_010d (115 + bfind (blit START_SENTINEL) doc))
               (format_010d (115 + bfind (blit END_SENTINEL) doc
                             + PySeq.len (blit END_SENTINEL))))
          ++ doc).
Proof.
  intros Hdoc. unfold _prepare_cf_html. cbv zeta. rewrite Hdoc.
  change (encode_utf8 (cf_header (lit "0000000000") (lit "0000000000")
                         (lit "0000000000") (lit "0000000000")))
    with (Some (map octet (cf_header (lit "0000000000") (lit "0000000000")
                             (lit "0000000000") (lit "0000000000")))).
  cbv iota beta.
  change (PySeq.len (map octet (cf_header (lit "0000000000") (lit "0000000000")
                                  (lit "0000000000") (lit "0000000000"))))
    with 115.
  pose proof (find_lower_bound (blit START_SENTINEL) doc).
  pose proof (find_lower_bound (blit END_SENTINEL) doc).
  assert (0 <= PySeq.len doc) by (unfold PySeq.len; lia).
  change (PySeq.len (blit END_SENTINEL)) with 18.
  rewrite cf_header_ascii; [reflexivity | | | |];
    apply format_010d_digits; lia.
Qed.

Lemma prepare_cf_html_unencodable (html_content : pystr) :
  encode_utf8 html_content = None -> _prepare_cf_html html_content = None.
Proof.
  intros H. unfold _prepare_cf_html, full_html_of. cbv zeta.
  rewrite !encode_utf8_app, H.
  destruct (encode_utf8 (lit "<html><body>")); [|reflexivity].
  destruct (encode_utf8 (lit START_SENTINEL)); reflexivity.
Qed.

(** X11.  [_prepare_cf_html] fails on exactly the fragments that UTF-8
    cannot encode (those with a surrogate in them); on every other
    fragment it returns a payload. *)
Theorem prepare_cf_html_fails_iff (html_content : pystr) :
  _prepare_cf_html html_content = None <-> encode_utf8 html_content = None.
Proof.
  split.
  - intros H. destruct (encode_utf8 html_content) as [content|] eqn:E; [|reflexivity].
    rewrite (prepare_cf_html_some _ _ (full_html_encoded _ _ E)) in H. discriminate.
  - apply prepare_cf_html_unencodable.
Qed.

Lemma digit_plain c : is_digit c = true ->
  octet c <> "013"%byte /\ octet c <> "010"%byte /\ high (octet c) = false.
Proof.
  unfold is_digit. intros H. apply andb_true_iff in H as [H1 H2].
  apply N.leb_le in H1, H2.
  assert (Hc : (c < 58)%N) by lia.
  pose proof (below 58 (fun y => (y <? 48)%N
                  || (negb (Byte.eqb (octet y) "013") && negb (Byte.eqb (octet y) "010")
                      && negb (high (octet y)))) eq_refl c Hc) as Hb.
  assert (Hlo : (c <? 48)%N = false) by (apply N.ltb_ge; lia).
  cbv beta in Hb. rewrite Hlo in Hb. cbn [orb] in Hb.
  apply andb_true_iff in Hb as [Hb H3]. apply andb_true_iff in Hb as [Hb1 Hb2].
  apply negb_true_iff in Hb1, Hb2, H3.
  repeat split; try exact H3; intros E; rewrite E in *; discriminate.
Qed.

Lemma plain_text (s : pystr) :
  forallb (fun c => negb (Byte.eqb (octet c) "013") && negb (Byte.eqb (octet c) "010")
                    && negb (high (octet c))) s = true ->
  Forall (fun b => b <> "013"%byte /\ b <> "010"%byte /\ high b = false) (map octet s).
Proof.
  intros H. apply Forall_forall. intros b Hb. apply in_map_iff in Hb as (c & <- & Hc).
  rewrite forallb_forall in H. specialize (H c Hc).
  apply andb_true_iff in H as [H H3]. apply andb_true_iff in H as [H1 H2].
  apply negb_true_iff in H1, H2, H3.
  repeat split; try exact H3; intros E; rewrite E in *; discriminate.
Qed.

Lemma cf_header_plain (f1 f2 f3 f4 : pystr) :
  Forall (fun c => is_digit c = true) f1 -> Forall (fun c => is_digit c = true) f2 ->
  Forall (fun c => is_digit c = true) f3 -> Forall (fun c => is_digit c = true) f4 ->
  Forall (fun b => b <> "013"%byte /\ b <> "010"%byte /\ high b = false)
    (map octet (cf_header f1 f2 f3 f4)).
Proof.
  intros D1 D2 D3 D4.
  assert (Hd : forall f, Forall (fun c => is_digit c = true) f ->
            Forall (fun b => b <> "013"%byte /\ b <> "010"%byte /\ high b = false)
              (map octet f)).
  { intros f Hf. apply Forall_forall. intros b Hb.
    apply in_map_iff in Hb as (c & <- & Hc). apply digit_plain.
    rewrite Forall_forall in Hf. exact (Hf c Hc). }
  unfold cf_header. cbv zeta. rewrite !map_app.
  repeat (apply Forall_app; split);
    first [ apply Hd; assumption | apply plain_text; vm_compute; reflexivity ].
Qed.

Lemma cf_header_version (f1 f2 f3 f4 : pystr) :
  PySeq.startswith Byte.eqb
    (blit "Version:0.9" ++ ["\"%byte; "r"%byte; "\"%byte; "n"%byte]
     ++ blit "StartHTML:")
    (map octet (cf_header f1 f2 f3 f4)) = true.
Proof.
  unfold cf_header. cbv zeta.
  rewrite (app_assoc (lit "Version:0.9")), (app_assoc (_ ++ EOL)), map_app.
  change (map octet ((lit "Version:0.9" ++ EOL) ++ lit "StartHTML:"))
    with (blit "Version:0.9" ++ ["\"%byte; "r"%byte; "\"%byte; "n"%byte]
          ++ blit "StartHTML:").
  apply (PySeqFacts.startswith_app Byte.eqb byte_eqb_eq).
Qed.

(** X12.  The header of every payload is made of ASCII characters and has
    no carriage return and no line feed in it: its lines end in the four
    characters backslash, r, backslash, n, which the source writes with
    doubled backslashes.  The header begins with the version line and
    these four characters, and the encoded document follows it. *)
Theorem prepare_cf_html_header_lines (html_content : pystr) (payload : bytes) :
  _prepare_cf_html html_content = Some payload ->
  exists header doc,
    payload = header ++ doc
    /\ encode_utf8 (full_html_of html_content) = Some doc
    /\ Forall (fun b => b <> "013"%byte /\ b <> "010"%byte /\ high b = false) header
    /\ PySeq.startswith Byte.eqb
         (blit "Version:0.9" ++ ["\"%byte; "r"%byte; "\"%byte; "n"%byte]
          ++ blit "StartHTML:") header = true.
Proof.
  intros H.
  destruct (encode_utf8 html_content) as [content|] eqn:E.
  2:{ apply prepare_cf_html_unencodable in E. congruence. }
  pose proof (full_html_encoded _ _ E) as Hdoc.
  rewrite (prepare_cf_html_some _ _ Hdoc) in H. apply some_inj in H.
  eexists _, _. split; [symmetry; exact H|]. split; [exact Hdoc|].
  split; [|apply cf_header_version].
  pose proof (find_lower_bound (blit START_SENTINEL)
                (HTML_OPEN ++ blit START_SENTINEL ++ content ++ blit END_SENTINEL
                 ++ HTML_CLOSE)) as H1.
  pose proof (find_lower_bound (blit END_SENTINEL)
                (HTML_OPEN ++ blit START_SENTINEL ++ content ++ blit END_SENTINEL
                 ++ HTML_CLOSE)) as H2.
  assert (H0 : 0 <= PySeq.len (HTML_OPEN ++ blit START_SENTINEL ++ content
                               ++ blit END_SENTINEL ++ HTML_CLOSE))
    by (unfold PySeq.len; lia).
  assert (H18 : PySeq.len (blit END_SENTINEL) = 18) by reflexivity.
  apply cf_header_plain; apply format_010d_digits; lia.
Qed.

(** A lone low surrogate. *)
Lemma prepare_cf_html_fails_iff_witness : _prepare_cf_html [56320%N] = None.
Proof. apply (proj2 (prepare_cf_html_fails_iff [56320%N])). reflexivity. Defined.

(** The header of a small payload. *)
Lemma prepare_cf_html_header_lines_witness :
  exists header doc,
    _prepare_cf_html (lit "<p>hi</p>") = Some (header ++ doc)
    /\ Forall (fun b => b <> "013"%byte /\ b <> "010"%byte /\ high b = false) header.
Proof.
  let v := eval vm_compute in (_prepare_cf_html (lit "<p>hi</p>")) in
  match v with
  | Some ?payload =>
      assert (H : _prepare_cf_html (lit "<p>hi</p>") = Some payload)
        by (vm_compute; reflexivity);
      destruct (prepare_cf_html_header_lines (lit "<p>hi</p>") payload H)
        as (header & doc & Hp & _ & Hplain & _)
  end.
  exists header, doc. rewrite H, Hp. split; [reflexivity | exact Hplain].
Defined.

End CfHtmlHeaderFacts.

(** ** Decoding the payload *)

Module Utf8RoundTrip.
Import Utf8Facts Utf8AsciiFacts PyStrFacts CfHtmlFacts CfHtmlLongFacts CfHtmlHeaderFacts.
Local Open Scope N_scope.

(** A number is the join of its bits from [k] on and its [k] low bits. *)
Lemma join_bits c k :
  N.lor (N.shiftl (N.shiftr c k) k) (N.land c (N.ones k)) = c.
Proof.
  apply N.bits_inj. intros n. rewrite N.lor_spec, N.land_spec.
  destruct (N.lt_ge_cases n k) as [Hlt|Hge].
  - rewrite N.shiftl_spec_low by exact Hlt.
    rewrite N.ones_spec_low by exact Hlt. cbn [orb]. apply andb_true_r.
  - rewrite N.shiftl_spec_high' by exact Hge.
    rewrite N.shiftr_spec by apply N.le_0_l.
    rewrite N.sub_add by exact Hge.
    rewrite N.ones_spec_high by exact Hge. rewrite andb_false_r. apply orb_false_r.
Qed.

Lemma low_bits c j k :
  j <= k -> N.land (N.land c (N.ones k)) (N.ones j) = N.land c (N.ones j).
Proof.
  intros Hjk. apply N.bits_inj. intros n. rewrite !N.land_spec.
  destruct (N.lt_ge_cases n j) as [Hlt|Hge].
  - rewrite (N.ones_spec_low k n) by lia. rewrite andb_true_r. reflexivity.
  - rewrite (N.ones_spec_high j n) by exact Hge. rewrite !andb_false_r. reflexivity.
Qed.

Lemma mid_bits c j k :
  N.shiftr (N.land c (N.ones (j + k))) j = N.land (N.shiftr c j) (N.ones k).
Proof.
  apply N.bits_inj. intros n.
  rewrite N.shiftr_spec, !N.land_spec, N.shiftr_spec by apply N.le_0_l.
  f_equal. destruct (N.lt_ge_cases n k) as [Hlt|Hge].
  - rewrite !N.ones_spec_low by lia. reflexivity.
  - rewrite !N.ones_spec_high by lia. reflexivity.
Qed.

(** The six low bits twice, for two and three continuation bytes. *)
Lemma join_two c :
  N.lor (N.shiftl (N.shiftr c 12) 12)
    (N.lor (N.shiftl (N.land (N.shiftr c 6) 63) 6) (N.land c 63)) = c.
Proof.
  rewrite <- (join_bits c 12) at 4. f_equal.
  set (d := N.land c (N.ones 12)).
  assert (H6 : N.shiftr d 6 = N.land (N.shiftr c 6) 63).
  { subst d. exact (mid_bits c 6 6). }
  assert (H0 : N.land d 63 = N.land c 63).
  { subst d. exact (low_bits c 6 12 ltac:(discriminate)). }
  rewrite <- H6, <- H0. exact (join_bits d 6).
Qed.

Lemma join_three c :
  N.lor (N.shiftl (N.shiftr c 18) 18)
    (N.lor (N.shiftl (N.land (N.shiftr c 12) 63) 12)
       (N.lor (N.shiftl (N.land (N.shiftr c 6) 63) 6) (N.land c 63))) = c.
Proof.
  rewrite <- (join_bits c 18) at 5. f_equal.
  set (d := N.land c (N.ones 18)).
  assert (H12 : N.shiftr d 12 = N.land (N.shiftr c 12) 63).
  { subst d. exact (mid_bits c 12 6). }
  assert (H6 : N.land (N.shiftr d 6) 63 = N.land (N.shiftr c 6) 63).
  { subst d.
    exact (eq_trans (f_equal (fun x => N.land x 63) (mid_bits c 6 12))
             (low_bits (N.shiftr c 6) 6 12 ltac:(discriminate))). }
  assert (H0 : N.land d 63 = N.land c 63).
  { subst d. exact (low_bits c 6 18 ltac:(discriminate)). }
  rewrite <- H12, <- H6, <- H0. exact (join_two d).
Qed.

(** The bytes of the four forms, read back. *)
Lemma lead_1 x : x < 128 -> Byte.to_N (octet x) = x.
Proof.
  intros H. apply N.eqb_eq.
  exact (below 128 (fun y => Byte.to_N (octet y) =? y) eq_refl x H).
Qed.

Lemma continuation x : x < 64 -> N.land (Byte.to_N (octet (N.lor 128 x))) 63 = x.
Proof.
  intros H. apply N.eqb_eq.
  exact (below 64 (fun y => N.land (Byte.to_N (octet (N.lor 128 y))) 63 =? y) eq_refl x H).
Qed.

Lemma lead_2 x :
  x < 32 ->
  let b := Byte.to_N (octet (N.lor 192 x)) in
  (b <? 128) = false /\ (b <? 224) = true /\ N.land b 31 = x.
Proof.
  intros H b. subst b.
  pose proof (below 32 (fun y => let b := Byte.to_N (octet (N.lor 192 y)) in
                          negb (b <? 128) && (b <? 224) && (N.land b 31 =? y))
                eq_refl x H) as Hb.
  cbv beta zeta in Hb. apply andb_true_iff in Hb as [Hb H3].
  apply andb_true_iff in Hb as [H1 H2]. apply negb_true_iff in H1. apply N.eqb_eq in H3.
  auto.
Qed.

Lemma lead_3 x :
  x < 16 ->
  let b := Byte.to_N (octet (N.lor 224 x)) in
  (b <? 128) = false /\ (b <? 224) = false /\ (b <? 240) = true /\ N.land b 15 = x.
Proof.
  intros H b. subst b.
  pose proof (below 16 (fun y => let b := Byte.to_N (octet (N.lor 224 y)) in
                          negb (b <? 128) && negb (b <? 224) && (b <? 240)
                          && (N.land b 15 =? y))
                eq_refl x H) as Hb.
  cbv beta zeta in Hb. apply andb_true_iff in Hb as [Hb H4].
  apply andb_true_iff in Hb as [Hb H3]. apply andb_true_iff in Hb as [H1 H2].
  apply negb_true_iff in H1, H2. apply N.eqb_eq in H4. auto.
Qed.

Lemma lead_4 x :
  x < 8 ->
  let b := Byte.to_N (octet (N.lor 240 x)) in
  (b <? 128) = false /\ (b <? 224) = false /\ (b <? 240) = false /\ N.land b 7 = x.
Proof.
  intros H b. subst b.
  pose proof (below 8 (fun y => let b := Byte.to_N (octet (N.lor 240 y)) in
                         negb (b <? 128) && negb (b <? 224) && negb (b <? 240)
                         && (N.land b 7 =? y))
                eq_refl x H) as Hb.
  cbv beta zeta in Hb. apply andb_true_iff in Hb as [Hb H4].
  apply andb_true_iff in Hb as [Hb H3]. apply andb_true_iff in Hb as [H1 H2].
  apply negb_true_iff in H1, H2, H3. apply N.eqb_eq in H4. auto.
Qed.

(** Decoding what one character was encoded to gives the character. *)
Lemma decode_char c bs rest :
  encode_char c = Some bs ->
  utf8_decode (map Byte.to_N bs ++ rest) = c :: utf8_decode rest.
Proof.
  unfold encode_char.
  destruct (N.ltb_spec c 128) as [H1|H1].
  { intros E. apply some_inj in E. subst bs. cbn [map app utf8_decode].
    rewrite (lead_1 c H1). destruct (N.ltb_spec c 128); [reflexivity | lia]. }
  destruct (N.ltb_spec c 2048) as [H2|H2].
  { intros E. apply some_inj in E. subst bs. cbn [map app utf8_decode].
    destruct (lead_2 _ (shiftr_lt c 6 32 ltac:(simpl; lia))) as (E1 & E2 & E3).
    cbv zeta in E1, E2, E3. rewrite E1, E2, E3, (continuation _ (land_63 c)).
    f_equal. change 63 with (N.ones 6). apply join_bits. }
  destruct (N.ltb_spec c 65536) as [H3|H3].
  { destruct ((55296 <=? c) && (c <=? 57343)); [discriminate|].
    intros E. apply some_inj in E. subst bs. cbn [map app utf8_decode].
    destruct (lead_3 _ (shiftr_lt c 12 16 ltac:(simpl; lia))) as (E1 & E2 & E3 & E4).
    cbv zeta in E1, E2, E3, E4.
    rewrite E1, E2, E3, E4, !(continuation _ (land_63 _)).
    f_equal. apply join_two. }
  destruct (N.ltb_spec c 1114112) as [H4|H4]; [|discriminate].
  intros E. apply some_inj in E. subst bs. cbn [map app utf8_decode].
  destruct (lead_4 _ (shiftr_lt c 18 8 ltac:(simpl; lia))) as (E1 & E2 & E3 & E4).
  cbv zeta in E1, E2, E3, E4.
  rewrite E1, E2, E3, E4, !(continuation _ (land_63 _)).
  f_equal. apply join_three.
Qed.

Lemma decode_encode s bs :
  encode_utf8 s = Some bs -> utf8_decode (map Byte.to_N bs) = s.
Proof.
  revert bs. induction s as [|c s IH]; intros bs H.
  - apply some_inj in H. subst bs. reflexivity.
  - cbn [encode_utf8] in H.
    destruct (encode_char c) as [b|] eqn:Ec; [|discriminate].
    destruct (encode_utf8 s) as [bs'|] eqn:Es; [|discriminate].
    apply some_inj in H. subst bs. rewrite map_app, (decode_char c b _ Ec).
    f_equal. apply IH. reflexivity.
Qed.

Local Close Scope N_scope.

(** X13.  Decoding a payload as UTF-8 gives back the text it was made
    from: a header with four offset fields of decimal digits, followed by
    the document around the fragment, with the fragment as it was given
    between the two sentinels. *)
Theorem prepare_cf_html_decodes (html_content : pystr) (payload : bytes) :
  _prepare_cf_html html_content = Some payload ->
  exists f1 f2 f3 f4,
    Forall (fun c => is_digit c = true) (f1 ++ f2 ++ f3 ++ f4)
    /\ utf8_decode (map Byte.to_N payload)
       = cf_header f1 f2 f3 f4 ++ full_html_of html_content.
Proof.
  intros H.
  destruct (encode_utf8 html_content) as [content|] eqn:E.
  2:{ apply prepare_cf_html_unencodable in E. congruence. }
  pose proof (full_html_encoded _ _ E) as Hdoc.
  set (doc := HTML_OPEN ++ blit START_SENTINEL ++ content ++ blit END_SENTINEL
              ++ HTML_CLOSE) in *.
  rewrite (prepare_cf_html_some _ _ Hdoc) in H. apply some_inj in H.
  pose proof (find_lower_bound (blit START_SENTINEL) doc) as H1.
  pose proof (find_lower_bound (blit END_SENTINEL) doc) as H2.
  assert (H0 : 0 <= PySeq.len doc) by (unfold PySeq.len; lia).
  assert (H18 : PySeq.len (blit END_SENTINEL) = 18) by reflexivity.
  assert (D1 : Forall (fun c => is_digit c = true) (format_010d 115))
    by (apply format_010d_digits; lia).
  assert (D2 : Forall (fun c => is_digit c = true) (format_010d (115 + PySeq.len doc)))
    by (apply format_010d_digits; lia).
  assert (D3 : Forall (fun c => is_digit c = true)
                 (format_010d (115 + bfind (blit START_SENTINEL) doc)))
    by (apply format_010d_digits; lia).
  assert (D4 : Forall (fun c => is_digit c = true)
                 (format_010d (115 + bfind (blit END_SENTINEL) doc
                               + PySeq.len (blit END_SENTINEL))))
    by (apply format_010d_digits; lia).
  exists (format_010d 115), (format_010d (115 + PySeq.len doc)),
    (format_010d (115 + bfind (blit START_SENTINEL) doc)),
    (format_010d (115 + bfind (blit END_SENTINEL) doc + PySeq.len (blit END_SENTINEL))).
  split.
  - apply Forall_app; split; [exact D1|].
    apply Forall_app; split; [exact D2|].
    apply Forall_app; split; [exact D3 | exact D4].
  - rewrite <- H. apply decode_encode.
    rewrite encode_utf8_app, (cf_header_ascii _ _ _ _ D1 D2 D3 D4).
    rewrite Hdoc. reflexivity.
Qed.

(** The payload of a fragment with characters of two, three and four
    bytes. *)
Lemma prepare_cf_html_decodes_witness :
  exists payload f1 f2 f3 f4,
    _prepare_cf_html [233; 8364; 128512]%N = Some payload
    /\ utf8_decode (map Byte.to_N payload)
       = cf_header f1 f2 f3 f4 ++ full_html_of [233; 8364; 128512]%N.
Proof.
  let v := eval vm_compute in (_prepare_cf_html [233; 8364; 128512]%N) in
  match v with
  | Some ?payload =>
      assert (H : _prepare_cf_html [233; 8364; 128512]%N = Some payload)
        by (vm_compute; reflexivity);
      destruct (prepare_cf_html_decodes [233; 8364; 128512]%N payload H)
        as (f1 & f2 & f3 & f4 & _ & Hd);
      exists payload, f1, f2, f3, f4
  end.
  split; [exact H | exact Hd].
Defined.

End Utf8RoundTrip.

(** ** Short codes, and a null statistic *)

Module EdgeCases.
Import PyStrEq RegexFacts ShortLinkFacts MonadFacts ParseBiliFacts StripFacts Examples
  RequestFacts IdFacts.

(** A text is not contained in a string that lacks one of its characters. *)
Lemma no_char_contains (p s : pystr) (c : N) :
  In c p -> ~ In c s -> contains p s = false.
Proof.
  intros Hp Hs. destruct (contains p s) eqn:E; [|reflexivity].
  apply (PySeqFacts.contains_iff N.eqb Neqb_eq) in E as (a & b & ->).
  exfalso. apply Hs. apply in_or_app. right. apply in_or_app. left. exact Hp.
Qed.

(** The characters of a code with a newline after it, or nothing. *)
Lemma code_chars (code tail : pystr) (c : N) :
  forallb is_alnum code = true -> tail = [] \/ tail = NL ->
  is_alnum c = false -> c <> 10%N -> ~ In c (code ++ tail).
Proof.
  intros Hall Htail Hc Hnl Hin. apply in_app_or in Hin as [Hin|Hin].
  - rewrite (alnum_chars c code Hall Hin) in Hc. discriminate.
  - destruct Htail as [->| ->]; [destruct Hin|].
    destruct Hin as [Hin|[]]. congruence.
Qed.

Lemma code_not_bv (code tail : pystr) :
  code <> [] -> startswith (lit "BV") code = false -> tail = [] \/ tail = NL ->
  startswith (lit "BV") (code ++ tail) = false.
Proof.
  intros Hne Hbv Htail.
  destruct (startswith (lit "BV") (code ++ tail)) eqn:E; [|reflexivity].
  apply str_startswith_iff in E as [r Hr].
  destruct code as [|c1 [|c2 code]]; [congruence| |].
  - destruct Htail as [->| ->]; discriminate Hr.
  - injection Hr as -> -> _. discriminate Hbv.
Qed.

(** The pattern of a short code matches a code, and a code with a newline
    after it. *)
Lemma re_match_code (code tail : pystr) :
  code <> [] -> forallb is_alnum code = true -> tail = [] \/ tail = NL ->
  re_match_alnum (code ++ tail) = true.
Proof.
  intros Hne Hall Htail. unfold re_match_alnum. cbv zeta.
  destruct Htail as [->| ->].
  - rewrite app_nil_r.
    destruct (endswith NL code) eqn:E.
    + apply endswith_iff in E as [a ->].
      rewrite forallb_app in Hall. apply andb_true_iff in Hall as [_ Hall].
      discriminate Hall.
    + rewrite Hall. destruct code; [congruence | reflexivity].
  - rewrite (endswith_app code NL NL (endswith_refl NL)).
    unfold PySeq.drop_last. change NL with [10%N]. rewrite removelast_last.
    rewrite Hall. destruct code; [congruence | reflexivity].
Qed.

Section WithRuntime.
Context (rt : runtime) (w : world rt).

Lemma sent_resolve_b23_url (short_url_input : pystr) (st : state) :
  contains (lit "b23.tv/") (target_of short_url_input) = true ->
  sent (snd (resolve_b23_url w short_url_input st))
  = sent st ++ [short_link_request (target_of short_url_input)].
Proof.
  intros H. unfold resolve_b23_url. cbv zeta. rewrite H. cbn [negb].
  unfold bind, try, requests_get.
  destruct (w (short_link_request (target_of short_url_input))) as [msg|resp];
    [reflexivity|].
  destruct ((status_code resp =? 301) || (status_code resp =? 302)); [|reflexivity].
  destruct (headers_Location resp) as [[|c l]|]; reflexivity.
Qed.

Lemma sent_resolve_step (url_input : pystr) (st : state) :
  looks_like_short_link url_input = true ->
  sent (snd (resolve_step w url_input st))
  = sent st ++ [short_link_request (target_of (potential_b23_url url_input))].
Proof.
  intros H. unfold resolve_step. rewrite H. cbv zeta.
  unfold bind at 1. unfold print at 1.
  match goal with
  | |- sent (snd (bind ?c ?f ?s)) = _ =>
      destruct (sent_bind (fun _ => True) 0 c f s) as (l & E & Hl & _)
  end.
  { intros resolved.
    destruct resolved as [[|c r]|];
      [ destruct (contains (lit "b23.tv/") (potential_b23_url url_input));
        apply sends_ret
      | apply sends_bind_print; intros _; apply sends_ret
      | destruct (contains (lit "b23.tv/") (potential_b23_url url_input));
        apply sends_ret ]. }
  destruct l; [|cbn in Hl; lia]. rewrite app_nil_r in E.
  etransitivity; [exact E|].
  rewrite sent_resolve_b23_url.
  - reflexivity.
  - unfold target_of. pose proof (potential_b23_url_contains url_input) as Hp.
    destruct (negb (startswith (lit "http") (potential_b23_url url_input)));
      [|exact Hp].
    apply (PySeqFacts.contains_iff N.eqb Neqb_eq) in Hp as (a & b & ->).
    rewrite app_assoc. apply str_contains_app.
Qed.

(** X14.  An input of alphanumeric characters that does not begin with
    [BV], alone or with one newline after it, is taken for a short code
    when it has fewer than 15 characters, the newline counted: the first
    request is then sent to the short domain with the input, newline
    included, as the path.  With 15 characters or more nothing is
    resolved. *)
Theorem parse_bili_short_code (code tail : pystr) (st : state) :
  code <> [] -> forallb is_alnum code = true ->
  startswith (lit "BV") code = false ->
  tail = [] \/ tail = NL ->
  let input := code ++ tail in
  (len input < 15 ->
   exists rest,
     sent (snd (parse_bili w input st))
     = sent st ++ short_link_request (lit "https://b23.tv/" ++ input) :: rest)
  /\ (15 <= len input -> resolve_step w input st = (Ret (inr input), st)).
Proof.
  intros Hne Hall Hbv Htail input.
  assert (Hb23 : contains (lit "b23.tv/") input = false).
  { apply (no_char_contains _ _ 47%N); [do 6 right; left; reflexivity|].
    apply code_chars; [exact Hall | exact Htail | reflexivity | discriminate]. }
  assert (Hbili : contains (lit "bilibili.com") input = false).
  { apply (no_char_contains _ _ 46%N); [do 8 right; left; reflexivity|].
    apply code_chars; [exact Hall | exact Htail | reflexivity | discriminate]. }
  assert (Hlooks : looks_like_short_link input = (len input <? 15)).
  { unfold looks_like_short_link. rewrite Hb23, Hbili.
    subst input. rewrite (code_not_bv code tail Hne Hbv Htail).
    rewrite (re_match_code code tail Hne Hall Htail).
    cbn [negb orb andb]. apply andb_true_r. }
  split.
  - intros Hlen.
    assert (Hl : looks_like_short_link input = true)
      by (rewrite Hlooks; apply Z.ltb_lt; exact Hlen).
    pose proof (sent_resolve_step input st Hl) as Hs.
    assert (Htarget : target_of (potential_b23_url input) = lit "https://b23.tv/" ++ input).
    { unfold potential_b23_url. rewrite Hb23. reflexivity. }
    rewrite Htarget in Hs.
    unfold parse_bili.
    match goal with
    | |- exists rest, sent (snd (bind ?c ?f ?s)) = _ =>
        destruct (sent_bind is_api_request 3 c f s) as (l & E & _)
    end.
    { intros [error|processed_url];
        [apply (sends_more _ 0); [lia | apply sends_ret] | apply sends_parse_resolved]. }
    exists l. rewrite E, Hs, <- app_assoc. reflexivity.
  - intros Hlen. unfold resolve_step. rewrite Hlooks.
    destruct (Z.ltb_spec (len input) 15) as [H|_]; [lia | reflexivity].
Qed.

(** X15.  A statistic that is null in a successful answer of the
    video-info endpoint makes [parse_bili] fail as a whole: the comparison
    in [format_number] raises a [TypeError], what was fetched is dropped,
    and the error string with the text of that exception is returned; no
    further request is sent. *)
Theorem parse_bili_null_count (url_input : pystr) (st st1 : state)
  (processed_url bvid : pystr) (resp : Py.response (Py.json (pyfloat rt)))
  (d data stat owner : list (pystr * Py.json (pyfloat rt))) :
  resolve_step w url_input st = (Ret (inr processed_url), st1) ->
  extract_bvid_from_url processed_url = Some bvid ->
  w (api_request (view_api_url_of bvid)) = inr resp ->
  raise_for_status resp = Ret tt ->
  json_body resp = Ret (JDict d) ->
  eq0 (lookup d (lit "code") JNull) = true ->
  lookup d (lit "data") (JDict []) = JDict data ->
  lookup data (lit "stat") (JDict []) = JDict stat ->
  lookup data (lit "owner") (JDict []) = JDict owner ->
  lookup stat (lit "view") (JInt 0) = JNull ->
  parse_bili w url_input st
  = (Ret (RStr (lit "Error: An unexpected error occurred - '>=' not supported between instances of 'NoneType' and 'int'")),
     State (stdout st1
            ++ [lit "Extracted BVID: " ++ bvid;
                lit "Fetching main info: " ++ view_api_url_of bvid])
           (sent st1 ++ [api_request (view_api_url_of bvid)])).
Proof.
  intros Hstep Hbv Hw Hs Hj Hcode Hdata Hstat Howner Hview.
  rewrite (parse_bili_step rt w _ _ _ _ Hstep).
  rewrite (parse_resolved_raise rt w url_input processed_url bvid st1
             (Exn TypeError
                (lit "'>=' not supported between instances of 'NoneType' and 'int'"))
             (State (stdout st1
                     ++ [lit "Extracted BVID: " ++ bvid;
                         lit "Fetching main info: " ++ view_api_url_of bvid])
                (sent st1 ++ [api_request (view_api_url_of bvid)])) Hbv).
  - assert (Hmsg : handle (Exn TypeError
                     (lit "'>=' not supported between instances of 'NoneType' and 'int'"))
                   = lit "Error: An unexpected error occurred - '>=' not supported between instances of 'NoneType' and 'int'")
      by (vm_compute; reflexivity).
    rewrite Hmsg. reflexivity.
  - unfold fetch_video_info. apply bind_raise.
    unfold fetch_view. cbv zeta. cbn [Main.bvid initial_video_info].
    unfold bind at 1. unfold print at 1. cbn [snd].
    unfold bind at 1. erewrite (api_call_ok rt w) by eassumption.
    rewrite bind_lift, get_dict, Hcode.
    repeat (rewrite bind_lift; rewrite ?get_dict, ?Hdata, ?Hstat, ?Howner, ?Hview).
    cbn [format_number type_name].
    unfold print. cbn [snd stdout sent]. rewrite <- app_assoc.
    assert (Hmsg : lit "'>=' not supported between instances of '"
                   ++ lit "NoneType" ++ lit "' and 'int'"
                   = lit "'>=' not supported between instances of 'NoneType' and 'int'")
      by (vm_compute; reflexivity).
    rewrite Hmsg. reflexivity.
Qed.

End WithRuntime.

(** The code [abc123] as a clipboard holds it after a line was copied. *)
Lemma parse_bili_short_code_witness :
  exists rest,
    sent (snd (parse_bili (all_fine 1) (lit "abc123" ++ NL) start))
    = sent start ++ short_link_request (lit "https://b23.tv/" ++ lit "abc123" ++ NL) :: rest.
Proof.
  refine (proj1 (parse_bili_short_code no_floats (all_fine 1) (lit "abc123") NL start
                   _ _ _ _) _).
  - discriminate.
  - reflexivity.
  - reflexivity.
  - right. reflexivity.
  - reflexivity.
Defined.

(** A video whose view count is null in the answer. *)
Lemma parse_bili_null_count_witness :
  fst (parse_bili
         (network unreachable
            (reply 200 None
               (Ret (object [("code", JInt 0);
                             ("data", object [("title", JStr (lit "Hello"));
                                              ("stat", object [("view", JNull)])])]%string)))
            unreachable unreachable)
         (lit "BV1xx411c7mD") start)
  = Ret (RStr (lit "Error: An unexpected error occurred - '>=' not supported between instances of 'NoneType' and 'int'")).
Proof.
  set (stat := [(lit "view", JNull)] : list (pystr * J)).
  set (data := [(lit "title", JStr (lit "Hello")); (lit "stat", JDict stat)]
               : list (pystr * J)).
  set (d := [(lit "code", JInt 0); (lit "data", JDict data)] : list (pystr * J)).
  set (resp := Response 200 [] [] None (Ret (JDict d)) : response J).
  set (w := network unreachable (inr resp) unreachable unreachable).
  set (input := lit "BV1xx411c7mD").
  assert (Hstep : resolve_step w input start = (Ret (inr input), start))
    by (vm_compute; reflexivity).
  assert (Hbv : extract_bvid_from_url input = Some input) by (vm_compute; reflexivity).
  assert (Hw : w (api_request (view_api_url_of input)) = inr resp)
    by (vm_compute; reflexivity).
  pose proof (parse_bili_null_count no_floats w input start start input input resp
                d data stat [] Hstep Hbv Hw eq_refl eq_refl eq_refl eq_refl eq_refl
                eq_refl eq_refl) as H.
  apply (f_equal fst) in H. exact H.
Defined.

End EdgeCases.
